(** * kk-alert: rule evaluation, alert lifecycle and notification engine

    A shallow embedding of the Go backend (packages [dedup], [sender],
    [scheduler], [engine], [inbound]) and the properties of its
    specification that were checked against it.

    Conventions.
    - Go [uint] identifiers are [N]; Go [int] values are [Z].
    - A [time.Time] is a [Z]: nanoseconds counted from Go's zero instant,
      so that [IsZero t] is [t = 0].  A [time.Duration] is a [Z] number of
      nanoseconds.
    - A [float64] is a primitive binary64 float.
    - A Go [string] is a [string] (a list of bytes); a [map[string]string]
      is a [gmap string string], the nil map being a [None] where the
      source distinguishes it.
    - Functions of Go's standard library whose text is not part of the
      repository (JSON decoding, [time.ParseDuration], [fmt.Sscanf], ...)
      are fields of the class [Go.Runtime]; the outside world (clock,
      channel transports, store failures) is supplied as oracles. *)

From Stdlib Require Import ZArith String Ascii List Floats Uint63 Lia Bool.
From stdpp Require Import base option list gmap strings sorting pretty.

Local Open Scope Z_scope.

(* ================================================================== *)
(** * Part I. The program                                              *)
(* ================================================================== *)

(** ** Go values: instants, durations, floats, byte strings *)

Module Go.

Definition Time := Z.
Definition Duration := Z.

Definition Nanosecond : Duration := 1.
Definition Second : Duration := 1000000000.
Definition Minute : Duration := 60 * Second.
Definition Hour : Duration := 60 * Minute.

Definition minDuration : Duration := - 2 ^ 63.
Definition maxDuration : Duration := 2 ^ 63 - 1.

Definition IsZero (t : Time) : bool := t =? 0.

(** [t.Sub(u)]: the difference, saturated to the range of [int64]. *)
Definition Sub (t u : Time) : Duration :=
  Z.max minDuration (Z.min maxDuration (t - u)).

(** [t.Add(d)]. *)
Definition Add (t : Time) (d : Duration) : Time := t + d.

(** [t.After(u)]. *)
Definition After (t u : Time) : bool := u <? t.

(** [float64(z)] for an [int64] [z] with [|z| < 2^63]. *)
Definition float_of_Z (z : Z) : float :=
  if z <? 0 then PrimFloat.opp (PrimFloat.of_uint63 (Uint63.of_Z (- z)))
  else PrimFloat.of_uint63 (Uint63.of_Z z).

(** Conversion of a finite float to an integer, truncating toward zero
    (Go's [int64(f)] and [time.Duration(f)] inside the [int64] range). *)
Definition Z_of_float (f : float) : Z :=
  match Prim2SF f with
  | S754_finite s m e =>
      let a := if 0 <=? e then Z.pos m * 2 ^ e else Z.pos m / 2 ^ (- e) in
      if s then - a else a
  | _ => 0
  end.

(** [d.Seconds()]: integer seconds plus the fractional nanoseconds. *)
Definition Seconds (d : Duration) : float :=
  let sec := Z.quot d Second in
  let nsec := Z.rem d Second in
  PrimFloat.add (float_of_Z sec) (PrimFloat.div (float_of_Z nsec) 1e9%float).

(** Comparison operators of [float64]. *)
Definition fgt (x y : float) : bool := PrimFloat.ltb y x.
Definition fge (x y : float) : bool := PrimFloat.leb y x.
Definition flt (x y : float) : bool := PrimFloat.ltb x y.
Definition fle (x y : float) : bool := PrimFloat.leb x y.
Definition feq (x y : float) : bool := PrimFloat.eqb x y.
Definition fne (x y : float) : bool := negb (PrimFloat.eqb x y).

(** [math.Round]: nearest integer, halves away from zero. *)
Definition Round (f : float) : float :=
  match Prim2SF f with
  | S754_finite s m e =>
      if 0 <=? e then f
      else
        let d := 2 ^ (- e) in
        let q := Z.pos m / d in
        let r := Z.pos m mod d in
        let n := if d <=? 2 * r then q + 1 else q in
        let a := PrimFloat.of_uint63 (Uint63.of_Z n) in
        if s then PrimFloat.opp a else a
  | _ => f
  end.

(** Bytes of a string, and strings of bytes. *)
Definition bytes (s : string) : list Z :=
  List.map (fun c => Z.of_N (N_of_ascii c)) (list_ascii_of_string s).

Definition byte_char (b : Z) : ascii := ascii_of_N (Z.to_N b).

(** [strconv.FormatUint(n, 10)] and [strconv.Itoa(i)]. *)
Definition FormatUint (n : N) : string := pretty n.
Definition Itoa (i : Z) : string := pretty i.

(** [len(s)], [strings.Join], [strings.Split(s, ":")[0]] and
    [strings.LastIndex(s, ":")]. *)
Definition len (s : string) : Z := Z.of_nat (String.length s).

Fixpoint Join (l : list string) (sep : string) : string :=
  match l with
  | [] => ""
  | [s] => s
  | s :: rest => s +:+ sep +:+ Join rest sep
  end.

Fixpoint before_colon (s : string) : string :=
  match s with
  | EmptyString => ""
  | String c s' => if Ascii.eqb c ":" then "" else String c (before_colon s')
  end.

(** The text after the last colon, if there is a colon. *)
Fixpoint after_last_colon (s : string) : option string :=
  match s with
  | EmptyString => None
  | String c s' =>
      match after_last_colon s' with
      | Some t => Some t
      | None => if Ascii.eqb c ":" then Some s' else None
      end
  end.

(** The line feed, ['\n']. *)
Definition LF : string := String (ascii_of_nat 10) EmptyString.

(** [strings.TrimPrefix]. *)
Definition TrimPrefix (s prefix : string) : string :=
  if String.prefix prefix s
  then String.substring (String.length prefix)
                        (String.length s - String.length prefix) s
  else s.

(** The value at a key of a map, [""] when the key is absent. *)
Definition index (m : gmap string string) (k : string) : string :=
  default "" (m !! k).

(** *** Library functions whose text is not in the repository

    Each field stands for one function of Go's standard library at the
    type at which the program calls it.  A decoder returns what
    [json.Unmarshal] leaves in a fresh target, and whether it returned an
    error. *)
Class Runtime := {
  (** how [encoding/json] writes a string: quotes and escapes *)
  json_string : string -> string;
  (** [json.Unmarshal] into a nil [map[string]string]; [None] is a target
      left nil *)
  json_unmarshal_map : string -> option (gmap string string) * bool;
  (** [json.Unmarshal] into a [[]uint] *)
  json_unmarshal_uints : string -> list N * bool;
  (** [time.ParseDuration]; [None] is an error *)
  ParseDuration : string -> option Duration;
  (** [fmt.Sscanf(s, "%d:%d", &h, &m)]; [None] is an error *)
  Sscanf_d_colon_d : string -> option (Z * Z);
  (** [time.Parse(time.RFC3339, s)]; [None] is an error *)
  Parse_RFC3339 : string -> option Time;
  (** [fmt.Sprintf("%v", f)] *)
  Sprint_float : float -> string;
  (** [fmt.Sscanf(s, "%f", &f)] on a zero [f]: what is left in [f] *)
  Sscanf_f : string -> float;
  (** [fmt.Sscanf(s, "%d", &u)] on a zero [uint]: what is left in [u] *)
  Sscanf_d : string -> N;
  (** seconds east of UTC of the process's local zone at an instant *)
  local_offset : Time -> Z;
  (** [t.In(time.FixedZone("CST", 8*3600)).Format("2006-01-02 15:04:05")] *)
  Format_CST : Time -> string;
  (** [strings.TrimSpace] and [strings.ToLower] *)
  TrimSpace : string -> string;
  ToLower : string -> string
}.

(** *** encoding/json on the two shapes the program marshals *)

(** Keys compared as byte strings, as [encoding/json] sorts them. *)
Definition key_le : relation (string * string) :=
  fun p q => String.le (fst p) (fst q).

#[global] Instance key_le_dec : RelDecision key_le.
Proof. intros p q. unfold key_le. apply _. Defined.

Definition sorted_pairs (m : gmap string string) : list (string * string) :=
  merge_sort key_le (map_to_list m).

Definition member `{Runtime} (p : string * string) : string :=
  json_string (fst p) +:+ ":" +:+ json_string (snd p).

(** [json.Marshal] of a [map[string]string]; a nil map is [null]. *)
Definition Marshal_map `{Runtime} (m : option (gmap string string)) : string :=
  match m with
  | None => "null"
  | Some m => "{" +:+ Join (List.map member (sorted_pairs m)) "," +:+ "}"
  end.

(** [json.Marshal] of a non-nil [[]uint]. *)
Definition Marshal_uints (l : list N) : string :=
  "[" +:+ Join (List.map FormatUint l) "," +:+ "]".

(** [t.Hour()*60 + t.Minute()] for [t] in the local zone. *)
Definition minute_of_day `{Runtime} (t : Time) : Z :=
  let secs := (t / Second + local_offset t) mod 86400 in
  (secs / 3600) * 60 + (secs mod 3600) / 60.

End Go.

(** ** crypto/sha256 and encoding/hex (FIPS 180-4) *)

Module sha256.

Definition w32 (x : Z) : Z := x mod 2 ^ 32.
Definition add32 (x y : Z) : Z := w32 (x + y).
Definition not32 (x : Z) : Z := Z.lxor x (2 ^ 32 - 1).
Definition rotr (n x : Z) : Z :=
  Z.lor (Z.shiftr x n) (w32 (Z.shiftl x (32 - n))).

Definition Ch (x y z : Z) := Z.lxor (Z.land x y) (Z.land (not32 x) z).
Definition Maj (x y z : Z) :=
  Z.lxor (Z.lxor (Z.land x y) (Z.land x z)) (Z.land y z).
Definition bsig0 x := Z.lxor (Z.lxor (rotr 2 x) (rotr 13 x)) (rotr 22 x).
Definition bsig1 x := Z.lxor (Z.lxor (rotr 6 x) (rotr 11 x)) (rotr 25 x).
Definition ssig0 x := Z.lxor (Z.lxor (rotr 7 x) (rotr 18 x)) (Z.shiftr x 3).
Definition ssig1 x := Z.lxor (Z.lxor (rotr 17 x) (rotr 19 x)) (Z.shiftr x 10).

(** The round constants are the first 32 bits of the fractional parts of
    the cube roots of the first 64 primes; the initial hash value is made
    of the fractional parts of the square roots of the first 8 primes. *)
Definition is_prime (n : Z) : bool :=
  (1 <? n) &&
  forallb (fun d => negb (n mod Z.of_nat d =? 0)) (seq 2 (Z.to_nat n - 2)).

Definition primes : list Z :=
  filter (fun n => is_prime n = true) (List.map Z.of_nat (seq 2 310)).

Fixpoint icbrt (bits : nat) (n r : Z) : Z :=
  match bits with
  | O => r
  | S b =>
      let c := r + 2 ^ Z.of_nat b in
      icbrt b n (if c * c * c <=? n then c else r)
  end.

Definition frac_cbrt32 (p : Z) : Z := w32 (icbrt 35 (p * 2 ^ 96) 0).
Definition frac_sqrt32 (p : Z) : Z := w32 (Z.sqrt (p * 2 ^ 64)).

Definition K : list Z := Eval vm_compute in List.map frac_cbrt32 primes.
Definition H0 : list Z :=
  Eval vm_compute in List.map frac_sqrt32 (firstn 8 primes).

(** Big-endian encodings. *)
Fixpoint be_bytes (n : nat) (x : Z) : list Z :=
  match n with
  | O => []
  | S n' => (Z.shiftr x (8 * Z.of_nat n')) mod 256 :: be_bytes n' x
  end.

Definition be_word (bs : list Z) : Z :=
  fold_left (fun acc b => acc * 256 + b) bs 0.

(** Message padding: a 1 bit, zeros, and the bit length on 64 bits. *)
Definition pad (msg : list Z) : list Z :=
  let l := Z.of_nat (length msg) in
  let k := (55 - l) mod 64 in
  msg ++ [128] ++ repeat 0 (Z.to_nat k) ++ be_bytes 8 (8 * l).

Fixpoint chunks {A} (fuel n : nat) (l : list A) : list (list A) :=
  match fuel with
  | O => []
  | S fuel' =>
      match l with
      | [] => []
      | _ => firstn n l :: chunks fuel' n (skipn n l)
      end
  end.

Definition words (block : list Z) : list Z :=
  List.map be_word (chunks 16 4 block).

(** Message schedule, kept most recent word first while it is built. *)
Definition schedule_step (w : list Z) : list Z :=
  let g i := nth i w 0 in
  add32 (add32 (ssig1 (g 1%nat)) (g 6%nat))
        (add32 (ssig0 (g 14%nat)) (g 15%nat)) :: w.

Definition schedule (block : list Z) : list Z :=
  rev (Nat.iter 48 schedule_step (rev (words block))).

Definition round (st : list Z) (kw : Z * Z) : list Z :=
  match st with
  | [a; b; c; d; e; f; g; h] =>
      let t1 := add32 (add32 (add32 h (bsig1 e)) (add32 (Ch e f g) (fst kw)))
                      (snd kw) in
      let t2 := add32 (bsig0 a) (Maj a b c) in
      [add32 t1 t2; a; b; c; add32 d t1; e; f; g]
  | _ => st
  end.

Definition compress (h : list Z) (block : list Z) : list Z :=
  let st := fold_left round (combine K (schedule block)) h in
  List.map (fun p => add32 (fst p) (snd p)) (combine h st).

(** [sha256.Sum256]: the 32 bytes of the digest. *)
Definition Sum256 (msg : list Z) : list Z :=
  let padded := pad msg in
  let blocks := chunks (length padded) 64 padded in
  flat_map (be_bytes 4) (fold_left compress blocks H0).

End sha256.

Module hex.

Definition hextable : string := "0123456789abcdef".

Definition digit (n : Z) : ascii :=
  match String.get (Z.to_nat n) hextable with
  | Some c => c
  | None => "0"%char
  end.

(** [hex.EncodeToString]: two lowercase digits per byte. *)
Fixpoint EncodeToString (bs : list Z) : string :=
  match bs with
  | [] => ""
  | b :: bs' =>
      String (digit (Z.shiftr b 4))
        (String (digit (Z.land b 15)) (EncodeToString bs'))
  end.

End hex.

(** ** Package models: the rows of the store

    Each struct is a record inside a module of its name, with the field
    names of the source.  Columns that no modelled function reads or
    writes (names of users, soft-deletion marks, the raw payload) are
    left out; a soft-deleted row is a row that is not in its table. *)

Module models.

Module Channel.
Record t := {
  ID : N;
  Type_ : string;     (* telegram, lark *)
  Config : string;
  Enabled : bool
}.
End Channel.

Module Rule.
Record t := {
  ID : N;
  Name : string;
  Description : string;
  Enabled : bool;
  Priority : Z;
  DatasourceIDs : string;      (* JSON array of IDs, empty = all *)
  QueryExpression : string;
  MatchLabels : string;        (* JSON object *)
  MatchSeverity : string;
  ChannelIDs : string;         (* JSON array *)
  TemplateID : option N;
  CheckInterval : string;
  Duration : string;           (* e.g. 5m, 0 = immediate *)
  ExcludeWindows : string;     (* JSON array *)
  RecoveryNotify : bool;
  SendInterval : string;       (* min interval per alert *)
  AggregationEnabled : bool;
  AggregateBy : string;
  AggregateWindow : string;
  Suppression : string;        (* JSON *)
  Thresholds : string;         (* JSON array *)
  JiraEnabled : bool;
  JiraAfterN : Z;
  JiraConfig : string
}.
End Rule.

Module Alert.
Record t := {
  ID : string;
  SourceID : N;
  SourceType : string;
  ExternalID : string;
  Title : string;
  Severity : string;
  Status : string;             (* firing, resolved *)
  FiringAt : Go.Time;
  ResolvedAt : option Go.Time;
  Labels : string;             (* JSON *)
  Annotations : string;        (* JSON *)
  CreatedAt : Go.Time;
  UpdatedAt : Go.Time
}.

(** The zero value of the struct. *)
Definition zero : t :=
  {| ID := ""; SourceID := 0; SourceType := ""; ExternalID := ""; Title := "";
     Severity := ""; Status := ""; FiringAt := 0; ResolvedAt := None;
     Labels := ""; Annotations := ""; CreatedAt := 0; UpdatedAt := 0 |}.

Definition with_Title (v : string) (a : t) : t :=
  {| ID := ID a; SourceID := SourceID a; SourceType := SourceType a;
     ExternalID := ExternalID a; Title := v; Severity := Severity a;
     Status := Status a; FiringAt := FiringAt a; ResolvedAt := ResolvedAt a;
     Labels := Labels a; Annotations := Annotations a;
     CreatedAt := CreatedAt a; UpdatedAt := UpdatedAt a |}.

Definition with_Severity (v : string) (a : t) : t :=
  {| ID := ID a; SourceID := SourceID a; SourceType := SourceType a;
     ExternalID := ExternalID a; Title := Title a; Severity := v;
     Status := Status a; FiringAt := FiringAt a; ResolvedAt := ResolvedAt a;
     Labels := Labels a; Annotations := Annotations a;
     CreatedAt := CreatedAt a; UpdatedAt := UpdatedAt a |}.

Definition with_Status (v : string) (a : t) : t :=
  {| ID := ID a; SourceID := SourceID a; SourceType := SourceType a;
     ExternalID := ExternalID a; Title := Title a; Severity := Severity a;
     Status := v; FiringAt := FiringAt a; ResolvedAt := ResolvedAt a;
     Labels := Labels a; Annotations := Annotations a;
     CreatedAt := CreatedAt a; UpdatedAt := UpdatedAt a |}.

Definition with_FiringAt (v : Go.Time) (a : t) : t :=
  {| ID := ID a; SourceID := SourceID a; SourceType := SourceType a;
     ExternalID := ExternalID a; Title := Title a; Severity := Severity a;
     Status := Status a; FiringAt := v; ResolvedAt := ResolvedAt a;
     Labels := Labels a; Annotations := Annotations a;
     CreatedAt := CreatedAt a; UpdatedAt := UpdatedAt a |}.

Definition with_ResolvedAt (v : option Go.Time) (a : t) : t :=
  {| ID := ID a; SourceID := SourceID a; SourceType := SourceType a;
     ExternalID := ExternalID a; Title := Title a; Severity := Severity a;
     Status := Status a; FiringAt := FiringAt a; ResolvedAt := v;
     Labels := Labels a; Annotations := Annotations a;
     CreatedAt := CreatedAt a; UpdatedAt := UpdatedAt a |}.

Definition with_Labels (v : string) (a : t) : t :=
  {| ID := ID a; SourceID := SourceID a; SourceType := SourceType a;
     ExternalID := ExternalID a; Title := Title a; Severity := Severity a;
     Status := Status a; FiringAt := FiringAt a; ResolvedAt := ResolvedAt a;
     Labels := v; Annotations := Annotations a;
     CreatedAt := CreatedAt a; UpdatedAt := UpdatedAt a |}.

Definition with_Annotations (v : string) (a : t) : t :=
  {| ID := ID a; SourceID := SourceID a; SourceType := SourceType a;
     ExternalID := ExternalID a; Title := Title a; Severity := Severity a;
     Status := Status a; FiringAt := FiringAt a; ResolvedAt := ResolvedAt a;
     Labels := Labels a; Annotations := v;
     CreatedAt := CreatedAt a; UpdatedAt := UpdatedAt a |}.

Definition with_CreatedAt (v : Go.Time) (a : t) : t :=
  {| ID := ID a; SourceID := SourceID a; SourceType := SourceType a;
     ExternalID := ExternalID a; Title := Title a; Severity := Severity a;
     Status := Status a; FiringAt := FiringAt a; ResolvedAt := ResolvedAt a;
     Labels := Labels a; Annotations := Annotations a;
     CreatedAt := v; UpdatedAt := UpdatedAt a |}.

Definition with_UpdatedAt (v : Go.Time) (a : t) : t :=
  {| ID := ID a; SourceID := SourceID a; SourceType := SourceType a;
     ExternalID := ExternalID a; Title := Title a; Severity := Severity a;
     Status := Status a; FiringAt := FiringAt a; ResolvedAt := ResolvedAt a;
     Labels := Labels a; Annotations := Annotations a;
     CreatedAt := CreatedAt a; UpdatedAt := v |}.
End Alert.

Module JiraCreated.
Record t := {
  RuleID : N;
  SourceID : N;
  ExternalID : string;
  JiraKey : string
}.
End JiraCreated.

Module AlertSendRecord.
Record t := {
  AlertID : string;
  ChannelID : N;
  Success : bool;
  Error : string;
  CreatedAt : Go.Time
}.
End AlertSendRecord.

Module AlertSilence.
Record t := {
  AlertID : string;
  SilenceUntil : Go.Time
}.
End AlertSilence.

End models.

(** ** The store, the process memory and the outside world

    One record holds what the program can read or change: the tables of
    the store, the package-level variables of the engine, and counters
    that index the answers of the outside ([Env]).

    The store is relational state kept in memory.  A store call whose
    error the source inspects ([.Error] compared with nil) asks the oracle
    [fault] whether it fails for a reason outside the store (a lost
    connection); a call whose error the source drops is modelled by its
    effect on the tables. *)

Module world.
Import models.

(** The arguments of one call to [sender.Send]. *)
Record SendCall := {
  channelType : string;
  configJSON : string;
  title : string;
  body : string;
  isRecovery : bool
}.

(** The arguments of one call to [jira.CreateIssue]. *)
Record IssueCall := {
  config : string;
  summary : string;
  description : string
}.

Record Env := {
  (** the n-th reading of [time.Now()] (also the stamps the store puts
      in [CreatedAt] and [UpdatedAt]) *)
  clock : nat -> Go.Time;
  (** the n-th [uuid.New().String()] *)
  uuid : nat -> string;
  (** whether the n-th inspected store call fails *)
  fault : nat -> bool;
  (** the error text returned by the n-th call to [sender.Send], [None]
      for a nil error *)
  transport : nat -> SendCall -> option string;
  (** the n-th call to [jira.CreateIssue]: the issue key, or [None] for
      an error *)
  tracker : nat -> IssueCall -> option string;
  (** [engine.resolveBody]: the rendered template *)
  render : Rule.t -> Alert.t -> gmap string string -> bool -> Go.Time -> string
}.

Record World := {
  env : Env;   (* the outside, never modified *)
  alerts : list Alert.t;   (* table alerts, in insertion order *)
  rules : list Rule.t;   (* table rules *)
  channels : list Channel.t;   (* table channels *)
  send_records : list AlertSendRecord.t;   (* table alert_send_records, oldest first *)
  silences : list AlertSilence.t;   (* table alert_silences *)
  jira_created : list JiraCreated.t;   (* table jira_createds *)
  suppressionWindows : gmap N Go.Time;   (* engine: ruleID -> end of the suppression window *)
  aggLastSent : gmap string Go.Time;   (* engine: ruleID_typeFingerprint -> last aggregated send *)
  alertQueue : list Alert.t;   (* engine: the bounded queue of ProcessAlertAsync, oldest first *)
  spawned : list Alert.t;   (* engine: alerts processed by a detached task (queue full) *)
  ticks : nat;   (* clock readings made so far *)
  minted : nat;   (* identifiers minted so far *)
  inspected : nat;   (* inspected store calls made so far *)
  sent : list SendCall;   (* calls made to sender.Send, oldest first *)
  issues : list IssueCall   (* calls made to jira.CreateIssue, oldest first *)
}.

Definition set_alerts (v : list Alert.t) (w : World) : World :=
  {| env := env w; alerts := v; rules := rules w; channels := channels w;
  send_records := send_records w; silences := silences w; jira_created :=
  jira_created w; suppressionWindows := suppressionWindows w; aggLastSent :=
  aggLastSent w; alertQueue := alertQueue w; spawned := spawned w; ticks :=
  ticks w; minted := minted w; inspected := inspected w; sent := sent w;
  issues := issues w |}.

Definition set_send_records (v : list AlertSendRecord.t) (w : World) : World :=
  {| env := env w; alerts := alerts w; rules := rules w; channels :=
  channels w; send_records := v; silences := silences w; jira_created :=
  jira_created w; suppressionWindows := suppressionWindows w; aggLastSent :=
  aggLastSent w; alertQueue := alertQueue w; spawned := spawned w; ticks :=
  ticks w; minted := minted w; inspected := inspected w; sent := sent w;
  issues := issues w |}.

Definition set_jira_created (v : list JiraCreated.t) (w : World) : World :=
  {| env := env w; alerts := alerts w; rules := rules w; channels :=
  channels w; send_records := send_records w; silences := silences w;
  jira_created := v; suppressionWindows := suppressionWindows w; aggLastSent
  := aggLastSent w; alertQueue := alertQueue w; spawned := spawned w; ticks
  := ticks w; minted := minted w; inspected := inspected w; sent := sent w;
  issues := issues w |}.

Definition set_suppressionWindows (v : gmap N Go.Time) (w : World) : World :=
  {| env := env w; alerts := alerts w; rules := rules w; channels :=
  channels w; send_records := send_records w; silences := silences w;
  jira_created := jira_created w; suppressionWindows := v; aggLastSent :=
  aggLastSent w; alertQueue := alertQueue w; spawned := spawned w; ticks :=
  ticks w; minted := minted w; inspected := inspected w; sent := sent w;
  issues := issues w |}.

Definition set_aggLastSent (v : gmap string Go.Time) (w : World) : World :=
  {| env := env w; alerts := alerts w; rules := rules w; channels :=
  channels w; send_records := send_records w; silences := silences w;
  jira_created := jira_created w; suppressionWindows := suppressionWindows
  w; aggLastSent := v; alertQueue := alertQueue w; spawned := spawned w;
  ticks := ticks w; minted := minted w; inspected := inspected w; sent :=
  sent w; issues := issues w |}.

Definition set_alertQueue (v : list Alert.t) (w : World) : World :=
  {| env := env w; alerts := alerts w; rules := rules w; channels :=
  channels w; send_records := send_records w; silences := silences w;
  jira_created := jira_created w; suppressionWindows := suppressionWindows
  w; aggLastSent := aggLastSent w; alertQueue := v; spawned := spawned w;
  ticks := ticks w; minted := minted w; inspected := inspected w; sent :=
  sent w; issues := issues w |}.

Definition set_spawned (v : list Alert.t) (w : World) : World :=
  {| env := env w; alerts := alerts w; rules := rules w; channels :=
  channels w; send_records := send_records w; silences := silences w;
  jira_created := jira_created w; suppressionWindows := suppressionWindows
  w; aggLastSent := aggLastSent w; alertQueue := alertQueue w; spawned := v;
  ticks := ticks w; minted := minted w; inspected := inspected w; sent :=
  sent w; issues := issues w |}.

Definition set_ticks (v : nat) (w : World) : World :=
  {| env := env w; alerts := alerts w; rules := rules w; channels :=
  channels w; send_records := send_records w; silences := silences w;
  jira_created := jira_created w; suppressionWindows := suppressionWindows
  w; aggLastSent := aggLastSent w; alertQueue := alertQueue w; spawned :=
  spawned w; ticks := v; minted := minted w; inspected := inspected w; sent
  := sent w; issues := issues w |}.

Definition set_minted (v : nat) (w : World) : World :=
  {| env := env w; alerts := alerts w; rules := rules w; channels :=
  channels w; send_records := send_records w; silences := silences w;
  jira_created := jira_created w; suppressionWindows := suppressionWindows
  w; aggLastSent := aggLastSent w; alertQueue := alertQueue w; spawned :=
  spawned w; ticks := ticks w; minted := v; inspected := inspected w; sent
  := sent w; issues := issues w |}.

Definition set_inspected (v : nat) (w : World) : World :=
  {| env := env w; alerts := alerts w; rules := rules w; channels :=
  channels w; send_records := send_records w; silences := silences w;
  jira_created := jira_created w; suppressionWindows := suppressionWindows
  w; aggLastSent := aggLastSent w; alertQueue := alertQueue w; spawned :=
  spawned w; ticks := ticks w; minted := minted w; inspected := v; sent :=
  sent w; issues := issues w |}.

Definition set_sent (v : list SendCall) (w : World) : World :=
  {| env := env w; alerts := alerts w; rules := rules w; channels :=
  channels w; send_records := send_records w; silences := silences w;
  jira_created := jira_created w; suppressionWindows := suppressionWindows
  w; aggLastSent := aggLastSent w; alertQueue := alertQueue w; spawned :=
  spawned w; ticks := ticks w; minted := minted w; inspected := inspected w;
  sent := v; issues := issues w |}.

Definition set_issues (v : list IssueCall) (w : World) : World :=
  {| env := env w; alerts := alerts w; rules := rules w; channels :=
  channels w; send_records := send_records w; silences := silences w;
  jira_created := jira_created w; suppressionWindows := suppressionWindows
  w; aggLastSent := aggLastSent w; alertQueue := alertQueue w; spawned :=
  spawned w; ticks := ticks w; minted := minted w; inspected := inspected w;
  sent := sent w; issues := v |}.

(** *** The state monad of the program *)

Definition M (A : Type) : Type := World -> A * World.

#[global] Instance M_ret : MRet M := fun A x w => (x, w).
#[global] Instance M_bind : MBind M :=
  fun A B f m w => let '(x, w') := m w in f x w'.

Definition get : M World := fun w => (w, w).
Definition modify (f : World -> World) : M unit := fun w => (tt, f w).
Definition exec {A} (m : M A) (w : World) : World := snd (m w).
Definition eval {A} (m : M A) (w : World) : A := fst (m w).

(** A [for] loop over a slice whose body may [continue]. *)
Fixpoint for_each {A} (l : list A) (body : A -> M unit) : M unit :=
  match l with
  | [] => mret tt
  | x :: rest => body x ;; for_each rest body
  end.

(** [time.Now()]. *)
Definition now : M Go.Time :=
  fun w => (clock (env w) (ticks w), set_ticks (S (ticks w)) w).

(** [uuid.New().String()]. *)
Definition new_uuid : M string :=
  fun w => (uuid (env w) (minted w), set_minted (S (minted w)) w).

(** One inspected store call: [true] when it fails from outside. *)
Definition faulty : M bool :=
  fun w => (fault (env w) (inspected w), set_inspected (S (inspected w)) w).

(** [sender.Send], for the calls that return: the answer is the error
    or nil.  A call that does not return (the Lark sender panics on a
    webhook URL of fewer than 50 bytes, see [delivery.panics]) has no
    answer here: the worlds of the model are those in which every call
    that is made returns ([delivery.deliverable]). *)
Definition Send (c : SendCall) : M (option string) :=
  fun w => (transport (env w) (length (sent w)) c, set_sent (sent w ++ [c]) w).

(** [jira.CreateIssue]. *)
Definition CreateIssue (c : IssueCall) : M (option string) :=
  fun w => (tracker (env w) (length (issues w)) c,
            set_issues (issues w ++ [c]) w).

(** *** Table alerts *)

Definition is_firing (sourceID : N) (externalID : string) (a : Alert.t) : bool :=
  N.eqb (Alert.SourceID a) sourceID && String.eqb (Alert.ExternalID a) externalID
  && String.eqb (Alert.Status a) "firing".

Definition has_id (id : string) (a : Alert.t) : bool := String.eqb (Alert.ID a) id.

(** The row of least primary key among [l] ([ORDER BY id LIMIT 1]). *)
Fixpoint least_id (l : list Alert.t) : option Alert.t :=
  match l with
  | [] => None
  | a :: rest =>
      match least_id rest with
      | Some b => if String.leb (Alert.ID a) (Alert.ID b) then Some a else Some b
      | None => Some a
      end
  end.

(** [db.Where("source_id = ? AND external_id = ? AND status = ?", s, e,
    "firing").First(&alert).Error == nil], with the row read. *)
Definition First_firing (sourceID : N) (externalID : string) : M (option Alert.t) :=
  bad ← faulty;
  w ← get;
  mret (if bad : bool then None
        else least_id (List.filter (is_firing sourceID externalID) (alerts w))).

(** [db.Where(...same...).Limit(1).Find(&a)]: the error is dropped and a
    zero struct stands for no row. *)
Definition Find_firing (sourceID : N) (externalID : string) : M Alert.t :=
  w ← get;
  mret (default Alert.zero
          (List.find (is_firing sourceID externalID) (alerts w))).

(** [db.Where("id = ?", id).Limit(1).Find(&a)]. *)
Definition Find_by_id (id : string) : M Alert.t :=
  w ← get;
  mret (default Alert.zero (List.find (has_id id) (alerts w))).

(** [db.First(&alert, "id = ?", id)] with its error inspected. *)
Definition First_by_id (id : string) : M (option Alert.t) :=
  bad ← faulty;
  w ← get;
  mret (if bad : bool then None else List.find (has_id id) (alerts w)).

(** The table with the row of the same primary key replaced by [a]. *)
Definition replace_row (a : Alert.t) (l : list Alert.t) : list Alert.t :=
  List.map (fun b => if has_id (Alert.ID a) b then a else b) l.

(** A new row: [UpdatedAt] is stamped, and [CreatedAt] too when the
    field is zero. *)
Definition stamp_new (t : Go.Time) (a : Alert.t) : Alert.t :=
  Alert.with_UpdatedAt t
    (if Go.IsZero (Alert.CreatedAt a) then Alert.with_CreatedAt t a else a).

(** The effect of [Save] on the table: an update of all the fields by
    primary key, with [UpdatedAt] stamped, or an insert. *)
Definition save_row (t : Go.Time) (a : Alert.t) (w : World) : World :=
  if existsb (has_id (Alert.ID a)) (alerts w)
  then set_alerts (replace_row (Alert.with_UpdatedAt t a) (alerts w)) w
  else set_alerts (alerts w ++ [stamp_new t a]) w.

(** The struct as a store call leaves it: the stamps that the store
    writes go to the struct as well as to the row. *)
Definition stored (a : Alert.t) : M Alert.t :=
  w ← get;
  mret (default a (List.find (has_id (Alert.ID a)) (alerts w))).

(** [db.Save(&alert)] with the error dropped: update by primary key, or
    insert when there is no such row. *)
Definition Save (a : Alert.t) : M unit :=
  t ← now; modify (save_row t a).

(** [db.Save(&alert)] with [res.Error] inspected: [true] is an error. *)
Definition Save_checked (a : Alert.t) : M bool :=
  bad ← faulty;
  if bad : bool then mret true else (Save a ;; mret false).

(** [db.Create(&alert)]: an insert, refused when the primary key is
    taken.  The result is the error and the number of rows affected. *)
Definition Create (a : Alert.t) : M (bool * Z) :=
  t ← now;
  w ← get;
  if existsb (has_id (Alert.ID a)) (alerts w)
  then mret (true, 0)
  else (modify (set_alerts (alerts w ++ [stamp_new t a])) ;; mret (false, 1)).

Definition Create_checked (a : Alert.t) : M (bool * Z) :=
  bad ← faulty;
  if bad : bool then mret (true, 0) else Create a.

(** *** Table alert_send_records *)

Definition record_matches (alertID : string) (chID : N) (since : Go.Time)
    (r : AlertSendRecord.t) : bool :=
  String.eqb (AlertSendRecord.AlertID r) alertID
  && N.eqb (AlertSendRecord.ChannelID r) chID
  && AlertSendRecord.Success r
  && (since <? AlertSendRecord.CreatedAt r).

(** [db.Model(&AlertSendRecord{}).Where("alert_id = ? AND channel_id = ?
    AND success = ? AND created_at > ?", id, ch, true, since).Count(&n)]. *)
Definition Count_sent (alertID : string) (chID : N) (since : Go.Time) : M Z :=
  w ← get;
  mret (Z.of_nat (length (List.filter (record_matches alertID chID since)
                            (send_records w)))).

(** [db.Create(&models.AlertSendRecord{...})]: the store stamps
    [CreatedAt]. *)
Definition Create_record (alertID : string) (chID : N) (success : bool)
    (error : string) : M unit :=
  t ← now;
  w ← get;
  modify (set_send_records
            (send_records w ++
             [{| AlertSendRecord.AlertID := alertID;
                 AlertSendRecord.ChannelID := chID;
                 AlertSendRecord.Success := success;
                 AlertSendRecord.Error := error;
                 AlertSendRecord.CreatedAt := t |}])).

(** *** Tables channels, rules, alert_silences *)

(** [db.First(&ch, chID)] with its error inspected. *)
Definition First_channel (chID : N) : M (option Channel.t) :=
  bad ← faulty;
  w ← get;
  mret (if bad : bool then None
        else List.find (fun c => N.eqb (Channel.ID c) chID) (channels w)).

Definition priority_le : relation Rule.t :=
  fun r1 r2 => Rule.Priority r1 <= Rule.Priority r2.

#[global] Instance priority_le_dec : RelDecision priority_le.
Proof. intros r1 r2. unfold priority_le. apply _. Defined.

(** [db.Where("enabled = ?", true).Order("priority asc").Find(&rules)]
    with its error inspected. *)
Definition Find_enabled_rules : M (option (list Rule.t)) :=
  bad ← faulty;
  w ← get;
  mret (if bad : bool then None
        else Some (merge_sort priority_le (List.filter Rule.Enabled (rules w)))).

(** [db.Model(&AlertSilence{}).Where("alert_id = ? AND silence_until > ?",
    id, t).Count(&n)]. *)
Definition Count_silences (alertID : string) (t : Go.Time) : M Z :=
  w ← get;
  mret (Z.of_nat (length (List.filter
          (fun s => String.eqb (AlertSilence.AlertID s) alertID
                    && (t <? AlertSilence.SilenceUntil s)) (silences w)))).

End world.

(** ** Package dedup: the fingerprint of a logical alert *)

Module dedup.
Section with_runtime.
Context `{!Go.Runtime}.

(** [sort.Strings] over the keys met while ranging over a map. *)
Definition sorted_keys (labels : gmap string string) : list string :=
  merge_sort String.le (List.map fst (map_to_list labels)).

(** The map the source rebuilds key by key, in sorted key order. *)
Definition labelsSorted (labels : gmap string string) : gmap string string :=
  fold_left (fun acc k => <[k := Go.index labels k]> acc) (sorted_keys labels) ∅.

(** The condition under which the result index is appended. *)
Definition anonymous (labels : gmap string string) (resultIndex : Z) : bool :=
  (0 <=? resultIndex) && String.eqb (Go.index labels "instance") ""
                      && String.eqb (Go.index labels "job") "".

Definition suffix (labels : gmap string string) (resultIndex : Z) : string :=
  if anonymous labels resultIndex then "|" +:+ Go.Itoa resultIndex else "".

Definition digest (payload : string) : string :=
  hex.EncodeToString (sha256.Sum256 (Go.bytes payload)).

Definition KeyForSeriesWithRule (sourceID ruleID : N) (title : string)
    (labels : option (gmap string string)) (resultIndex : Z) : string :=
  let labels := default ∅ labels in
  let labelsJSON := Go.Marshal_map (Some (labelsSorted labels)) in
  let payload :=
    Go.FormatUint sourceID +:+ "|" +:+ Go.FormatUint ruleID +:+ "|" +:+
    title +:+ "|" +:+ labelsJSON in
  digest (payload +:+ suffix labels resultIndex).

Definition keyWithDisambiguator (sourceID : N) (title : string)
    (labels : option (gmap string string)) (resultIndex : Z) : string :=
  let labels := default ∅ labels in
  let labelsJSON := Go.Marshal_map (Some (labelsSorted labels)) in
  let payload :=
    Go.FormatUint sourceID +:+ "|" +:+ title +:+ "|" +:+ labelsJSON in
  digest (payload +:+ suffix labels resultIndex).

Definition Key (sourceID : N) (title : string)
    (labels : option (gmap string string)) : string :=
  keyWithDisambiguator sourceID title labels (-1).

Definition KeyForSeries (sourceID : N) (title : string)
    (labels : option (gmap string string)) (resultIndex : Z) : string :=
  keyWithDisambiguator sourceID title labels resultIndex.

End with_runtime.
End dedup.

(** ** Package sender: the token bucket in front of Lark webhooks *)

Module sender.

Record larkRateLimiter := {
  tokens : float;
  lastTime : Go.Time;
  rate : float;    (* tokens per second *)
  burst : float    (* max burst size *)
}.

(** The package-level limiter; [lastTime] starts as the zero instant. *)
Definition larkLimiter : larkRateLimiter :=
  {| rate := 5; burst := 3; tokens := 3; lastTime := 0 |}.

(** The bucket after the refill and the clamp to [burst]. *)
Definition refill (rl : larkRateLimiter) (now : Go.Time) : float :=
  let elapsed := Go.Seconds (Go.Sub now (lastTime rl)) in
  let t := PrimFloat.add (tokens rl) (PrimFloat.mul elapsed (rate rl)) in
  if Go.fgt t (burst rl) then burst rl else t.

(** The argument of [time.Sleep] when no token is available. *)
Definition sleepTime (rl : larkRateLimiter) (t : float) : Go.Duration :=
  Go.Z_of_float
    (PrimFloat.mul (PrimFloat.div (PrimFloat.sub 1 t) (rate rl))
                   (Go.float_of_Z Go.Second)).

(** [acquire], run by one caller at instant [now]: the limiter it leaves
    behind and the time the caller slept, if it did.  The statements are
    those of the source, in order: refill, clamp, the wait branch that
    ends with [tokens = 0], and the final [tokens--]. *)
Definition acquire (rl : larkRateLimiter) (now : Go.Time)
  : larkRateLimiter * option Go.Duration :=
  let t := refill rl now in
  let '(t, slept) :=
    if Go.flt t 1 then (0%float, Some (sleepTime rl t)) else (t, None) in
  ({| tokens := PrimFloat.sub t 1; lastTime := now;
      rate := rate rl; burst := burst rl |}, slept).

(** Successive calls, each at its own instant. *)
Fixpoint acquires (rl : larkRateLimiter) (nows : list Go.Time)
  : larkRateLimiter * list (option Go.Duration) :=
  match nows with
  | [] => (rl, [])
  | now :: rest =>
      let '(rl1, s) := acquire rl now in
      let '(rl2, ss) := acquires rl1 rest in
      (rl2, s :: ss)
  end.

End sender.

(** ** Package engine: from an alert to the channel senders *)

Module engine.
Import models world.

(** The JSON shape of [Rule.Suppression]; a nil map is the empty map. *)
Record suppressionConfig := {
  SourceLabels : gmap string string;
  SuppressedLabels : gmap string string;
  sc_Duration : string
}.

(** One element of [Rule.ExcludeWindows]. *)
Record window := { Start : string; End_ : string }.

(** The decoders of the shapes that belong to this package. *)
Class Runtime := {
  json_unmarshal_suppression : string -> suppressionConfig * bool;
  json_unmarshal_windows : string -> list window * bool;
  (** whether [json.Unmarshal] into a [jira.Config] returns an error *)
  json_unmarshal_jira_config : string -> bool
}.

Section with_runtime.
Context `{!Go.Runtime, !Runtime}.

Definition stripSystemAlertPrefix (s : string) : string :=
  Go.TrimSpace (Go.TrimPrefix s "【系统告警】").

Definition IsSilenced (alertID : string) : M bool :=
  t ← now;
  n ← Count_silences alertID t;
  mret (0 <? n).

(** Capacity of the bounded notification queue. *)
Definition queue_capacity : nat := 500.

(** [ProcessAlertAsync]: a copy of the alert is queued, or handed to a
    detached task when the queue is full. *)
Definition ProcessAlertAsync (alert : Alert.t) : M unit :=
  w ← get;
  if (length (alertQueue w) <? queue_capacity)%nat
  then modify (set_alertQueue (alertQueue w ++ [alert]))
  else modify (set_spawned (spawned w ++ [alert])).

Definition durationSatisfied (r : Rule.t) (a : Alert.t) : M bool :=
  if String.eqb (Rule.Duration r) "" || String.eqb (Rule.Duration r) "0"
  then mret true
  else match Go.ParseDuration (Rule.Duration r) with
       | None => mret true
       | Some d =>
           (* Require alert to have been firing for at least d *)
           t ← now;
           let elapsed := Go.Sub t (Alert.FiringAt a) in
           mret (d <=? elapsed)
       end.

Definition formatSendTime (t : Go.Time) : string := Go.Format_CST t.

Definition contains_id (ids : list N) (id : N) : bool :=
  existsb (N.eqb id) ids.

(** Every pair of [want] is a pair of [labels]. *)
Definition all_pairs_in (labels want : gmap string string) : bool :=
  forallb (fun kv => String.eqb (Go.index labels (fst kv)) (snd kv))
          (map_to_list want).

Definition matchRule (r : Rule.t) (a : Alert.t) (labels : gmap string string)
  : bool :=
  if negb (String.eqb (Rule.MatchSeverity r) "")
     && negb (String.eqb (Rule.MatchSeverity r) (Alert.Severity a))
  then false
  else
  let sources_ok :=
    if negb (String.eqb (Rule.DatasourceIDs r) "") then
      let '(ids, err) := Go.json_unmarshal_uints (Rule.DatasourceIDs r) in
      if negb err && (0 <? length ids)%nat
      then contains_id ids (Alert.SourceID a) else true
    else true in
  if negb sources_ok then false
  else
  if negb (String.eqb (Rule.MatchLabels r) "") then
    let '(want, err) := Go.json_unmarshal_map (Rule.MatchLabels r) in
    let want := default ∅ want in
    if negb err && (0 <? size want)%nat
    then all_pairs_in labels want else true
  else true.

Definition parseHM (s : string) : Z :=
  match Go.Sscanf_d_colon_d s with
  | None => -1
  | Some (h, m) =>
      if (h <? 0) || (23 <? h) || (m <? 0) || (59 <? m) then -1
      else h * 60 + m
  end.

(** Whether minute-of-day [hm] falls in one window; a window with a time
    that does not parse is passed over. *)
Definition window_covers (hm : Z) (w : window) : bool :=
  let startMin := parseHM (Start w) in
  let endMin := parseHM (End_ w) in
  if (startMin <? 0) || (endMin <? 0) then false
  else if startMin <=? endMin
       then (startMin <=? hm) && (hm <? endMin)
       else (startMin <=? hm) || (hm <? endMin).

Definition inExcludeWindow (r : Rule.t) : M bool :=
  if String.eqb (Rule.ExcludeWindows r) "" then mret false
  else
    let '(windows, err) := json_unmarshal_windows (Rule.ExcludeWindows r) in
    if err || (length windows =? 0)%nat then mret false
    else
      t ← now;
      let hm := Go.minute_of_day t in
      mret (existsb (window_covers hm) windows).

(** [labelsMatch]: labels contain all key-value pairs in want, and want
    is not empty. *)
Definition labelsMatch (labels want : gmap string string) : bool :=
  all_pairs_in labels want && (0 <? size want)%nat.

Definition updateSuppressionWindow (r : Rule.t) (labels : gmap string string)
  : M unit :=
  if String.eqb (Rule.Suppression r) "" then mret tt
  else
    let '(cfg, err) := json_unmarshal_suppression (Rule.Suppression r) in
    if err || String.eqb (sc_Duration cfg) "" then mret tt
    else if negb (labelsMatch labels (SourceLabels cfg)) then mret tt
    else match Go.ParseDuration (sc_Duration cfg) with
         | None => mret tt
         | Some d =>
             t ← now;
             w ← get;
             modify (set_suppressionWindows
                       (<[Rule.ID r := Go.Add t d]> (suppressionWindows w)))
         end.

Definition suppressed (r : Rule.t) (labels : gmap string string) : M bool :=
  if String.eqb (Rule.Suppression r) "" then mret false
  else
    let '(cfg, err) := json_unmarshal_suppression (Rule.Suppression r) in
    if err : bool then mret false
    else if (size (SuppressedLabels cfg) =? 0)%nat then mret false
    else
      w ← get;
      let endTime := default 0 (suppressionWindows w !! Rule.ID r) in
      t ← now;
      if Go.After t endTime then mret false
      else mret (labelsMatch labels (SuppressedLabels cfg)).

Definition annotationValue (alert : Alert.t) (key : string) : string :=
  if String.eqb (Alert.Annotations alert) "" then ""
  else
    let '(ann, err) := Go.json_unmarshal_map (Alert.Annotations alert) in
    if err : bool then "" else Go.index (default ∅ ann) key.

Definition recoveryAlreadySent (alertID : string) (chID : N) : M bool :=
  t ← now;
  count ← Count_sent alertID chID (Go.Add t (- (2 * Go.Minute)));
  mret (0 <? count).

Definition sendRateLimited (r : Rule.t) (alertID : string) (chID : N) : M bool :=
  if String.eqb (Rule.SendInterval r) "" || String.eqb (Rule.SendInterval r) "0"
  then mret false
  else match Go.ParseDuration (Rule.SendInterval r) with
       | None => mret false
       | Some d =>
           t ← now;
           count ← Count_sent alertID chID (Go.Add t (- d));
           mret (0 <? count)
       end.

(** *** Ticket gating *)

Definition same_alert (a : Alert.t) (b : Alert.t) : bool :=
  N.eqb (Alert.SourceID b) (Alert.SourceID a)
  && String.eqb (Alert.ExternalID b) (Alert.ExternalID a).

Definition ticket_of (r : Rule.t) (a : Alert.t) (j : JiraCreated.t) : bool :=
  N.eqb (JiraCreated.RuleID j) (Rule.ID r)
  && N.eqb (JiraCreated.SourceID j) (Alert.SourceID a)
  && String.eqb (JiraCreated.ExternalID j) (Alert.ExternalID a).

Definition truncate_summary (summary : string) : string :=
  if 255 <? Go.len summary then String.substring 0 252 summary +:+ "..."
  else summary.

Definition tryCreateJiraTicket (r : Rule.t) (alert : Alert.t)
    (title body : string) : M unit :=
  if negb (Rule.JiraEnabled r) || (Rule.JiraAfterN r <=? 0)
     || String.eqb (Rule.JiraConfig r) ""
  then mret tt
  else
    w ← get;
    let count := Z.of_nat (length (List.filter (same_alert alert) (alerts w))) in
    if count <? Rule.JiraAfterN r then mret tt
    else
      bad ← faulty;
      if negb bad && existsb (ticket_of r alert) (jira_created w)
      then mret tt (* already created *)
      else
        if json_unmarshal_jira_config (Rule.JiraConfig r) then mret tt
        else
          let summary := truncate_summary ("[Alert] " +:+ title) in
          res ← CreateIssue {| config := Rule.JiraConfig r;
                               summary := summary; description := body |};
          match res with
          | None => mret tt
          | Some key =>
              bad ← faulty;
              w ← get;
              if bad || existsb (ticket_of r alert) (jira_created w)
              then mret tt
              else modify (set_jira_created
                     (jira_created w ++
                      [{| JiraCreated.RuleID := Rule.ID r;
                          JiraCreated.SourceID := Alert.SourceID alert;
                          JiraCreated.ExternalID := Alert.ExternalID alert;
                          JiraCreated.JiraKey := key |}]))
          end.

(** *** Aggregation *)

Definition aggregationDimensionKeys (aggregateBy : string) : list string :=
  let dim := Go.ToLower aggregateBy in
  if String.eqb dim "hostname" then ["hostname"; "host"; "instance"]
  else if String.eqb dim "ip" then ["ip"; "instance"]
  else if String.eqb dim "port" then ["port"; "instance"]
  else [aggregateBy].

Definition excluded (excl : list string) (k : string) : bool :=
  existsb (String.eqb k) excl.

Definition typeFingerprint (labels : gmap string string) (aggregateBy : string)
  : string :=
  let excl := aggregationDimensionKeys aggregateBy in
  let copied : gmap string string :=
    list_to_map (List.filter (fun kv => negb (excluded excl (fst kv)))
                             (map_to_list labels)) in
  String.concat ""
    (List.map (fun kv => fst kv +:+ "=" +:+ snd kv +:+ ";")
              (Go.sorted_pairs copied)).

Definition aggregationKey (labels : gmap string string) (aggregateBy : string)
  : string :=
  let dim := Go.ToLower aggregateBy in
  if String.eqb dim "hostname" then
    if negb (String.eqb (Go.index labels "hostname") "")
    then Go.index labels "hostname"
    else if negb (String.eqb (Go.index labels "host") "")
    then Go.index labels "host"
    else if negb (String.eqb (Go.index labels "instance") "")
    then Go.before_colon (Go.index labels "instance")
    else Go.index labels "instance"
  else if String.eqb dim "ip" then
    if negb (String.eqb (Go.index labels "ip") "")
    then Go.index labels "ip"
    else Go.before_colon (Go.index labels "instance")
  else if String.eqb dim "port" then
    if negb (String.eqb (Go.index labels "port") "")
    then Go.index labels "port"
    else match Go.after_last_colon (Go.index labels "instance") with
         | Some t => t   (* empty when the colon is the last byte *)
         | None => ""
         end
  else Go.index labels aggregateBy.

Definition labelsSameType (a b : gmap string string) (aggregateBy : string)
  : bool :=
  let excl := aggregationDimensionKeys aggregateBy in
  forallb (fun kv => excluded excl (fst kv)
                     || String.eqb (Go.index b (fst kv)) (snd kv))
          (map_to_list a)
  && forallb (fun kv => excluded excl (fst kv)
                        || String.eqb (Go.index a (fst kv)) (Go.index b (fst kv)))
             (map_to_list b).

(** The part of a channel loop after the rate limit: the channel is
    read, the sender is called, and the outcome is recorded. *)
Definition deliver (alert : Alert.t) (title body : string) (chID : N) : M unit :=
  ch ← First_channel chID;
  match ch with
  | Some ch =>
      if Channel.Enabled ch then
        err ← Send {| channelType := Channel.Type_ ch;
                      configJSON := Channel.Config ch;
                      title := title; body := body; isRecovery := false |};
        match err with
        | Some e => Create_record (Alert.ID alert) chID false e
        | None => Create_record (Alert.ID alert) chID true ""
        end
      else Create_record (Alert.ID alert) chID false
                         "channel not found or disabled"
  | None => Create_record (Alert.ID alert) chID false
                          "channel not found or disabled"
  end.

(** The dispatch to one channel of a firing notification: one iteration
    of the channel loops of [ProcessAlert] and [sendAggregated]. *)
Definition dispatch (r : Rule.t) (alert : Alert.t) (title body : string)
    (chID : N) : M unit :=
  limited ← sendRateLimited r (Alert.ID alert) chID;
  if limited : bool then mret tt else deliver alert title body chID.

(** The keys gathered from one candidate of the aggregate window. *)
Definition candidate_key (r : Rule.t) (alert : Alert.t)
    (labels : gmap string string) (a : Alert.t) : option string :=
  if String.eqb (Alert.ID a) (Alert.ID alert) then None
  else match fst (Go.json_unmarshal_map (Alert.Labels a)) with
       | None => None
       | Some la =>
           if negb (matchRule r a la) then None
           else if negb (labelsSameType labels la (Rule.AggregateBy r)) then None
           else let k := aggregationKey la (Rule.AggregateBy r) in
                if String.eqb k "" then None else Some k
       end.

Definition aggStateKey (r : Rule.t) (typeFP : string) : string :=
  Go.FormatUint (Rule.ID r) +:+ "_" +:+ typeFP.

(** The alerts of the store that may be merged: firing since [since]. *)
Definition is_candidate (since : Go.Time) (a : Alert.t) : bool :=
  (since <=? Alert.FiringAt a) && String.eqb (Alert.Status a) "firing".

(** [keysSeen]: the key of the alert (its id when it has none) and the
    keys of the candidates of the same type. *)
Definition keys_seen (r : Rule.t) (alert : Alert.t)
    (labels : gmap string string) (candidates : list Alert.t) : gset string :=
  let aggKey := aggregationKey labels (Rule.AggregateBy r) in
  let aggKey := if String.eqb aggKey "" then Alert.ID alert else aggKey in
  {[ aggKey ]} ∪ list_to_set (omap (candidate_key r alert labels) candidates).

Definition dimName (r : Rule.t) : string :=
  if String.eqb (Rule.AggregateBy r) "" then "items" else Rule.AggregateBy r.

Definition aggTitle (r : Rule.t) (title : string) (keysSeen : gset string)
  : string :=
  title +:+ " (" +:+ pretty (size keysSeen) +:+ " " +:+ dimName r +:+ ")".

Definition aggBody (r : Rule.t) (body : string) (keysSeen : gset string)
  : string :=
  let keyList := merge_sort String.le (elements keysSeen) in
  body +:+ Go.LF +:+ Go.LF +:+ dimName r +:+ " list: " +:+ Go.Join keyList ", ".

(** The aggregate window of a rule: five minutes when it does not parse. *)
Definition aggregate_window (r : Rule.t) : Go.Duration :=
  default (5 * Go.Minute) (Go.ParseDuration (Rule.AggregateWindow r)).

Definition sendAggregated (r : Rule.t) (alert : Alert.t)
    (labels : gmap string string) (title body : string) (channelIDs : list N)
  : M unit :=
  let d := aggregate_window r in
  t ← now;
  let since := Go.Add t (- d) in
  bad ← faulty;
  w ← get;
  let candidates := List.filter (is_candidate since) (alerts w) in
  if bad || (length candidates =? 0)%nat then mret tt
  else
    let typeFP := typeFingerprint labels (Rule.AggregateBy r) in
    let keysSeen := keys_seen r alert labels candidates in
    let lastSent := default 0 (aggLastSent w !! aggStateKey r typeFP) in
    recent ← (if Go.IsZero lastSent then mret false
              else (t ← now; mret (Go.Sub t lastSent <? d)));
    if recent : bool then mret tt (* already sent in this window *)
    else
      for_each channelIDs
        (dispatch r alert (aggTitle r title keysSeen) (aggBody r body keysSeen)) ;;
      t ← now;
      w ← get;
      modify (set_aggLastSent (<[aggStateKey r typeFP := t]> (aggLastSent w))).

(** *** ProcessAlert *)

(** The channel ids of a notification: those carried by the alert for its
    threshold level, else those of the rule. *)
Definition resolve_channels (r : Rule.t) (alert : Alert.t) : list N :=
  let thChStr := annotationValue alert "threshold_channel_ids" in
  let channelIDs :=
    if negb (String.eqb thChStr "") then fst (Go.json_unmarshal_uints thChStr)
    else [] in
  if (length channelIDs =? 0)%nat
  then fst (Go.json_unmarshal_uints (Rule.ChannelIDs r))
  else channelIDs.

Definition send_time_line (sendAt : Go.Time) : string :=
  Go.LF +:+ Go.LF +:+ "发送时间: " +:+ formatSendTime sendAt.

(** The part of the recovery loop after the check for a recent send. *)
Definition deliver_recovery (alert : Alert.t) (title body : string) (chID : N)
  : M unit :=
  ch ← First_channel chID;
  match ch with
  | Some ch =>
      if Channel.Enabled ch then
        err ← Send {| channelType := Channel.Type_ ch;
                      configJSON := Channel.Config ch;
                      title := title; body := body; isRecovery := true |};
        match err with
        | Some e => Create_record (Alert.ID alert) chID false e
        | None => Create_record (Alert.ID alert) chID true ""
        end
      else mret tt
  | None => mret tt
  end.

(** One iteration of the channel loop of the recovery branch. *)
Definition recover (alert : Alert.t) (title body : string) (chID : N) : M unit :=
  already ← recoveryAlreadySent (Alert.ID alert) chID;
  if already : bool then mret tt else deliver_recovery alert title body chID.

(** The body of the loop over the rules. *)
Definition process_rule (alert : Alert.t) (labels : gmap string string)
    (r : Rule.t) : M unit :=
  updateSuppressionWindow r labels ;;
  if negb (matchRule r alert labels) then mret tt
  else
    let channelIDs := resolve_channels r alert in
    if (length channelIDs =? 0)%nat then mret tt
    else if String.eqb (Alert.Status alert) "resolved" && Rule.RecoveryNotify r
    then
      sendAt ← now;
      w ← get;
      let body := render (env w) r alert labels true sendAt
                  +:+ send_time_line sendAt in
      for_each channelIDs (recover alert "" body)
    else if negb (String.eqb (Alert.Status alert) "firing") then mret tt
    else
      ok ← durationSatisfied r alert;
      if negb ok then mret tt
      else
        excl ← inExcludeWindow r;
        if excl : bool then mret tt
        else
          sup ← suppressed r labels;
          if sup : bool then mret tt
          else
            sendAt ← now;
            w ← get;
            let body := render (env w) r alert labels false sendAt
                        +:+ send_time_line sendAt in
            let title := stripSystemAlertPrefix (Alert.Title alert) in
            let title := if String.eqb title "" then "Alert" else title in
            tryCreateJiraTicket r alert title body ;;
            if Rule.AggregationEnabled r
               && negb (String.eqb (Rule.AggregateBy r) "")
               && negb (String.eqb (Rule.AggregateWindow r) "")
            then sendAggregated r alert labels title body channelIDs
            else for_each channelIDs (dispatch r alert title body).

Definition ProcessAlert (alert : Alert.t) : M unit :=
  silenced ← IsSilenced (Alert.ID alert);
  if silenced : bool then mret tt
  else
    rules ← Find_enabled_rules;
    match rules with
    | None => mret tt
    | Some rules =>
        let labels :=
          default ∅ (fst (Go.json_unmarshal_map (Alert.Labels alert))) in
        for_each rules (process_rule alert labels)
    end.

End with_runtime.
End engine.

(** ** Package query: the value of a sample *)

Module query.

(** An element of the decoded [[]interface{}] of a sample. *)
Inductive any := AString (s : string) | ANumber (f : float) | AOther.

(** One series of a query result. *)
Record Series := {
  Metric : option (gmap string string);
  Value : list any
}.

Definition GetValue `{!Go.Runtime} (val : list any) : float :=
  if (length val <? 2)%nat then 0%float
  else match nth 1 val AOther with
       | AString s => Go.Sscanf_f s
       | _ => 0%float
       end.

End query.

(** ** Package scheduler: one evaluation of a rule *)

Module scheduler.
Import models world.

Record queryResult := {
  Metric : gmap string string;
  Value : float;
  Timestamp : Go.Time;
  AlertID : string;
  Severity : string;  (* severity level from threshold match *)
  MissCount : Z       (* consecutive evaluations where this series was
                         absent from query results *)
}.

Record queryState := {
  lastResults : gmap string queryResult;
  lastCheckTime : Go.Time
}.

(** The datasource of a rule, as far as an evaluation reads it. *)
Record Datasource := { ds_ID : N; ds_Type : string }.

(** resolveGracePeriod is how many consecutive absences before resolving
    an alert. *)
Definition resolveGracePeriod : Z := 3.

(** ThresholdLevel represents one level in a multi-threshold rule. *)
Record ThresholdLevel := {
  Operator : string;     (* >, <, >=, <=, ==, != *)
  th_Value : float;
  th_Severity : string;  (* critical, warning, info *)
  ChannelIDs : list N
}.

Class Runtime := {
  (** [json.Unmarshal] into a [[]ThresholdLevel] *)
  json_unmarshal_thresholds : string -> list ThresholdLevel * bool
}.

(** roundValue rounds a float64 to 2 decimal places. *)
Definition roundValue (v : float) : float :=
  PrimFloat.div (Go.Round (PrimFloat.mul v 100)) 100.

(** The comparison of one level. *)
Definition level_holds (l : ThresholdLevel) (value : float) : bool :=
  if String.eqb (Operator l) ">" then Go.fgt value (th_Value l)
  else if String.eqb (Operator l) ">=" then Go.fge value (th_Value l)
  else if String.eqb (Operator l) "<" then Go.flt value (th_Value l)
  else if String.eqb (Operator l) "<=" then Go.fle value (th_Value l)
  else if String.eqb (Operator l) "==" then Go.feq value (th_Value l)
  else if String.eqb (Operator l) "!=" then Go.fne value (th_Value l)
  else Go.fgt value (th_Value l) (* default to > *).

(** MatchThreshold evaluates value against threshold levels in order
    (first match wins). *)
Fixpoint MatchThreshold (levels : list ThresholdLevel) (value : float)
  : option ThresholdLevel :=
  match levels with
  | [] => None
  | l :: rest => if level_holds l value then Some l else MatchThreshold rest value
  end.

Definition formatMetric (metric : gmap string string) : string :=
  match metric !! "instance" with
  | Some instance => instance
  | None => match metric !! "__name__" with
            | Some name => name
            | None => "unknown"
            end
  end.

Section with_runtime.
Context `{!Go.Runtime, !engine.Runtime, !Runtime}.

(** ParseThresholds parses the rule's Thresholds JSON into a slice.
    Returns nil if empty or invalid. *)
Definition ParseThresholds (raw : string) : option (list ThresholdLevel) :=
  if String.eqb raw "" || String.eqb raw "[]" || String.eqb raw "null"
  then None
  else
    let '(levels, err) := json_unmarshal_thresholds raw in
    if err : bool then None
    else if (length levels =? 0)%nat then None
    else Some levels.

Definition parseInterval (s : string) : Go.Duration :=
  if String.eqb s "" then Go.Minute
  else match Go.ParseDuration s with
       | None => Go.Minute
       | Some d => if d <? Go.Minute then Go.Minute else d
       end.

(** What the threshold levels make of one value: [None] when levels are
    configured and none holds (the series is normal), else the severity
    and the annotations of the alert. *)
Definition grade (rule : Rule.t) (thresholds : option (list ThresholdLevel))
    (value : float) : option (string * gmap string string) :=
  let severity :=
    if String.eqb (Rule.MatchSeverity rule) "" then "warning"
    else Rule.MatchSeverity rule in
  let annotations : gmap string string :=
    {[ "value" := Go.Sprint_float value ]} in
  match thresholds with
  | None => Some (severity, annotations)
  | Some levels =>
      match MatchThreshold levels value with
      | None => None
      | Some matched =>
          let severity :=
            if String.eqb (th_Severity matched) "" then "warning"
            else th_Severity matched in
          let annotations :=
            if (0 <? length (ChannelIDs matched))%nat
            then <["threshold_channel_ids" :=
                     Go.Marshal_uints (ChannelIDs matched)]> annotations
            else annotations in
          Some (severity, annotations)
      end
  end.

Definition series_title (rule : Rule.t) (metric : gmap string string) : string :=
  Rule.Name rule +:+ ": " +:+ formatMetric metric.

Definition series_key (rule : Rule.t) (ds : Datasource) (i : nat)
    (metric : gmap string string) : string :=
  dedup.KeyForSeriesWithRule (ds_ID ds) (Rule.ID rule)
    (series_title rule metric) (Some metric) (Z.of_nat i).

(** The alert row is written: [true] when the write failed and the
    series is passed over. *)
Definition upsert (hadResult : bool) (alert : Alert.t) : M bool :=
  if negb hadResult then
    (* Check again: we may have set alertID from existingFiring above *)
    exists_ ← Find_by_id (Alert.ID alert);
    if negb (String.eqb (Alert.ID exists_) "") then
      let alert :=
        if negb (Go.IsZero (Alert.FiringAt exists_))
        then Alert.with_FiringAt (Alert.FiringAt exists_) alert else alert in
      let alert := Alert.with_CreatedAt (Alert.CreatedAt exists_) alert in
      Save_checked alert
    else
      res ← Create_checked alert;
      if fst res : bool then mret true
      else if snd res =? 0 then Save_checked alert
      else mret false
  else
    existing ← Find_by_id (Alert.ID alert);
    let alert :=
      if negb (String.eqb (Alert.ID existing) "")
      then Alert.with_CreatedAt (Alert.CreatedAt existing)
             (Alert.with_FiringAt (Alert.FiringAt existing) alert)
      else alert in
    Save_checked alert.

(** The body of the loop over the series of the result.  The loop
    carries the state of the rule and the keys met so far. *)
Definition observe (rule : Rule.t) (ds : Datasource)
    (thresholds : option (list ThresholdLevel))
    (acc : gmap string queryResult * gset string)
    (ir : nat * query.Series) : M (gmap string queryResult * gset string) :=
  let '(results, currentKeys) := acc in
  let '(i, r) := ir in
  let metric := default ∅ (query.Metric r) in
  let labels := Go.Marshal_map (Some metric) in
  let value := query.GetValue (query.Value r) in
  match grade rule thresholds value with
  | None => mret (results, currentKeys)
  | Some (severity, annotations) =>
      let title := series_title rule metric in
      let extKey := series_key rule ds i metric in
      let currentKeys := {[ extKey ]} ∪ currentKeys in
      let last := results !! extKey in
      let hadResult := bool_decide (is_Some last) in
      let lastAlertID := from_option AlertID "" last in
      let valueChanged :=
        match last with
        | None => true
        | Some l => Go.fne (roundValue (Value l)) (roundValue value)
        end in
      needsReprocess ←
        (if hadResult && negb valueChanged && negb (String.eqb lastAlertID "")
         then (t ← now;
               mret (60 * Go.Second <=?
                     Go.Sub t (from_option Timestamp 0 last)))
         else mret false);
      if valueChanged || needsReprocess then
        alertID ←
          (if String.eqb lastAlertID "" then
             existingFiring ← Find_firing (ds_ID ds) extKey;
             if negb (String.eqb (Alert.ID existingFiring) "")
             then mret (Alert.ID existingFiring)
             else new_uuid
           else mret lastAlertID);
        let annotationsJSON := Go.Marshal_map (Some annotations) in
        t ← now;
        let alert :=
          {| Alert.ID := alertID; Alert.SourceID := ds_ID ds;
             Alert.SourceType := ds_Type ds; Alert.ExternalID := extKey;
             Alert.Title := title; Alert.Severity := severity;
             Alert.Status := "firing"; Alert.FiringAt := t;
             Alert.ResolvedAt := None; Alert.Labels := labels;
             Alert.Annotations := annotationsJSON;
             Alert.CreatedAt := 0; Alert.UpdatedAt := 0 |} in
        failed ← upsert hadResult alert;
        if failed : bool then mret (results, currentKeys)
        else
          alert ← stored alert;
          engine.ProcessAlertAsync alert ;;
          t ← now;
          mret (<[extKey := {| Metric := metric; Value := value;
                               Timestamp := t; AlertID := alertID;
                               Severity := severity; MissCount := 0 |}]> results,
                currentKeys)
      else
        match last with
        | Some l =>
            if 0 <? MissCount l
            then (* Series reappeared after being absent *)
              mret (<[extKey := {| Metric := Metric l; Value := Value l;
                                   Timestamp := Timestamp l;
                                   AlertID := AlertID l;
                                   Severity := Severity l;
                                   MissCount := 0 |}]> results, currentKeys)
            else mret (results, currentKeys)
        | None => mret (results, currentKeys)
        end
  end.

Fixpoint observe_all (rule : Rule.t) (ds : Datasource)
    (thresholds : option (list ThresholdLevel))
    (acc : gmap string queryResult * gset string)
    (series : list (nat * query.Series))
  : M (gmap string queryResult * gset string) :=
  match series with
  | [] => mret acc
  | ir :: rest =>
      acc' ← observe rule ds thresholds acc ir;
      observe_all rule ds thresholds acc' rest
  end.

Definition missed (l : queryResult) : queryResult :=
  {| Metric := Metric l; Value := Value l; Timestamp := Timestamp l;
     AlertID := AlertID l; Severity := Severity l;
     MissCount := MissCount l + 1 |}.

(** The firing row of a series that stayed away is resolved and handed
    to the engine. *)
Definition resolve (alertID : string) : M unit :=
  if negb (String.eqb alertID "") then
    found ← First_by_id alertID;
    match found with
    | Some alert =>
        if String.eqb (Alert.Status alert) "firing" then
          t ← now;
          let alert :=
            Alert.with_ResolvedAt (Some t) (Alert.with_Status "resolved" alert) in
          Save alert ;;
          alert ← stored alert;
          (* Process resolved alert (recovery notification) asynchronously *)
          engine.ProcessAlertAsync alert
        else mret tt
    | None => mret tt
    end
  else mret tt.

(** The body of the loop over the state that checks for resolved
    alerts (keys that no longer appear in the result). *)
Definition scan_entry (currentKeys : gset string)
    (results : gmap string queryResult) (entry : string * queryResult)
  : M (gmap string queryResult) :=
  let '(extKey, lastResult) := entry in
  if bool_decide (extKey ∈ currentKeys) then mret results
  else
    let lastResult := missed lastResult in
    let results := <[extKey := lastResult]> results in
    if MissCount lastResult <? resolveGracePeriod then mret results
    else
      (* Exceeded grace period: actually resolve *)
      resolve (AlertID lastResult) ;;
      mret (delete extKey results).

Fixpoint scan_all (currentKeys : gset string)
    (results : gmap string queryResult) (entries : list (string * queryResult))
  : M (gmap string queryResult) :=
  match entries with
  | [] => mret results
  | e :: rest =>
      results' ← scan_entry currentKeys results e;
      scan_all currentKeys results' rest
  end.

(** [queryPrometheus] after the query: [result] is [None] when the query
    failed.  The state of the rule is passed in and returned. *)
Definition queryPrometheus (rule : Rule.t) (ds : Datasource)
    (result : option (list query.Series)) (state : queryState) : M queryState :=
  match result with
  | None => mret state
  | Some series =>
      let thresholds := ParseThresholds (Rule.Thresholds rule) in
      '(results, currentKeys) ←
        observe_all rule ds thresholds (lastResults state, ∅) (imap pair series);
      results ← scan_all currentKeys results (map_to_list results);
      t ← now;
      mret {| lastResults := results; lastCheckTime := t |}
  end.

End with_runtime.
End scheduler.

(** ** Package inbound: pushed alerts *)

Module inbound.
Import models world.

(** One alert of an Alertmanager payload. *)
Record PrometheusAlert := {
  pa_Status : string;
  pa_Labels : option (gmap string string);
  pa_Annotations : option (gmap string string);
  pa_StartsAt : string;
  pa_EndsAt : string
}.

(** One alert of a generic payload (Elasticsearch, Doris). *)
Record GenericAlert := {
  ga_Title : string;
  ga_Severity : string;
  ga_Status : string;
  ga_Labels : option (gmap string string);
  ga_Annotations : option (gmap string string);
  ga_StartsAt : string;
  ga_EndsAt : string
}.

Record PrometheusHandler := { SourceID : N; ph_SourceType : string }.
Record GenericHandler := { gh_SourceType : string }.

(** A request: the [source_id] query parameter and the decoded body,
    [None] when the body is not valid JSON. *)
Record Request (A : Type) := {
  source_id : string;
  alerts_of : option (list A)
}.
Arguments source_id {A}.
Arguments alerts_of {A}.

(** The answer: status code, and for 200 the numbers received and
    created. *)
Record Response := { code : Z; received : Z; created : Z }.

(** What both handlers derive from one pushed alert. *)
Record Pushed := {
  status : string;
  title : string;
  severity : string;
  firingAt : Go.Time;
  resolvedAt : option Go.Time;
  labelsJSON : string;
  annotationsJSON : string;
  externalID : string
}.

Section with_runtime.
Context `{!Go.Runtime, !engine.Runtime}.

Definition parse_resolvedAt (endsAt : string) : option Go.Time :=
  if negb (String.eqb endsAt "") then Go.Parse_RFC3339 endsAt else None.

Definition parse_firingAt (startsAt : string) : M Go.Time :=
  let firingAt :=
    if negb (String.eqb startsAt "")
    then default 0 (Go.Parse_RFC3339 startsAt) else 0 in
  if Go.IsZero firingAt then now else mret firingAt.

(** The part of the loop body that the two handlers have in common, from
    the lookup of the firing row to the call of the engine: [true] when
    a firing row was created. *)
Definition store_pushed (sourceID : N) (sourceType : string) (p : Pushed)
  : M bool :=
  (* Reuse same alert ID while previous alert with same (source_id,
     external_id) is still firing; only new ID after resolved. *)
  found ← First_firing sourceID (externalID p);
  if String.eqb (status p) "resolved" then
    match found with
    | Some alert =>
        let alert :=
          Alert.with_Annotations (annotationsJSON p)
            (Alert.with_Labels (labelsJSON p)
               (Alert.with_Title (title p)
                  (Alert.with_ResolvedAt (resolvedAt p)
                     (Alert.with_Status "resolved" alert)))) in
        Save alert ;;
        alert ← stored alert;
        engine.ProcessAlert alert ;; mret false
    | None =>
        id ← new_uuid;
        let alert :=
          {| Alert.ID := id; Alert.SourceID := sourceID;
             Alert.SourceType := sourceType; Alert.ExternalID := externalID p;
             Alert.Title := title p; Alert.Severity := severity p;
             Alert.Status := "resolved"; Alert.FiringAt := firingAt p;
             Alert.ResolvedAt := resolvedAt p; Alert.Labels := labelsJSON p;
             Alert.Annotations := annotationsJSON p;
             Alert.CreatedAt := 0; Alert.UpdatedAt := 0 |} in
        Create alert ;;
        alert ← stored alert;
        engine.ProcessAlert alert ;; mret false
    end
  else
    match found with
    | Some alert =>
        (* Existing firing: update in place (keep same ID) *)
        let alert :=
          Alert.with_Annotations (annotationsJSON p)
            (Alert.with_Labels (labelsJSON p)
               (Alert.with_FiringAt (firingAt p)
                  (Alert.with_Severity (severity p)
                     (Alert.with_Title (title p) alert)))) in
        Save alert ;;
        alert ← stored alert;
        engine.ProcessAlert alert ;; mret false
    | None =>
        (* No firing for this fingerprint: create new *)
        id ← new_uuid;
        let alert :=
          {| Alert.ID := id; Alert.SourceID := sourceID;
             Alert.SourceType := sourceType; Alert.ExternalID := externalID p;
             Alert.Title := title p; Alert.Severity := severity p;
             Alert.Status := "firing"; Alert.FiringAt := firingAt p;
             Alert.ResolvedAt := None; Alert.Labels := labelsJSON p;
             Alert.Annotations := annotationsJSON p;
             Alert.CreatedAt := 0; Alert.UpdatedAt := 0 |} in
        res ← Create_checked alert;
        if fst res : bool then mret false
        else (alert ← stored alert; engine.ProcessAlert alert ;; mret true)
    end.

(** The source id of a request: the handler's, unless the query
    parameter holds a non-zero number. *)
Definition request_source (configured : N) (query : string) : N :=
  if negb (String.eqb query "") && negb (N.eqb (Go.Sscanf_d query) 0)
  then Go.Sscanf_d query else configured.

Definition count_created (l : list bool) : Z :=
  Z.of_nat (length (List.filter id l)).

Fixpoint for_all {A} (l : list A) (body : A -> M bool) : M (list bool) :=
  match l with
  | [] => mret []
  | x :: rest => b ← body x; bs ← for_all rest body; mret (b :: bs)
  end.

(** *** PrometheusHandler *)

Definition prometheus_pushed (sourceID : N) (a : PrometheusAlert) : M Pushed :=
  let labelsJSON := Go.Marshal_map (pa_Labels a) in
  let annotationsJSON := Go.Marshal_map (pa_Annotations a) in
  let status :=
    if String.eqb (pa_Status a) "resolved" then "resolved" else "firing" in
  let resolvedAt := parse_resolvedAt (pa_EndsAt a) in
  firingAt ← parse_firingAt (pa_StartsAt a);
  let annotations := default ∅ (pa_Annotations a) in
  let labels := default ∅ (pa_Labels a) in
  let title := Go.index annotations "summary" in
  let title := if String.eqb title "" then Go.index annotations "alertname"
               else title in
  let title := if String.eqb title "" then "Alert" else title in
  let severity := Go.index labels "severity" in
  let severity := if String.eqb severity "" then "warning" else severity in
  (* Uniqueness: datasource + title + all labels *)
  mret {| status := status; title := title; severity := severity;
          firingAt := firingAt; resolvedAt := resolvedAt;
          labelsJSON := labelsJSON; annotationsJSON := annotationsJSON;
          externalID := dedup.Key sourceID title (pa_Labels a) |}.

Definition PrometheusHandler_alert (h : PrometheusHandler) (sourceID : N)
    (a : PrometheusAlert) : M bool :=
  p ← prometheus_pushed sourceID a;
  store_pushed sourceID (ph_SourceType h) p.

Definition PrometheusHandler_Serve (h : PrometheusHandler)
    (req : Request PrometheusAlert) : M Response :=
  match alerts_of req with
  | None => mret {| code := 400; received := 0; created := 0 |}
  | Some payload =>
      let sourceID := request_source (SourceID h) (source_id req) in
      let sourceID := if N.eqb sourceID 0 then 1%N else sourceID in
      made ← for_all payload (PrometheusHandler_alert h sourceID);
      mret {| code := 200; received := Z.of_nat (length payload);
              created := count_created made |}
  end.

(** *** GenericHandler *)

Definition generic_pushed (sourceID : N) (a : GenericAlert) : M Pushed :=
  let labelsJSON := Go.Marshal_map (ga_Labels a) in
  let annotationsJSON := Go.Marshal_map (ga_Annotations a) in
  let status := if String.eqb (ga_Status a) "" then "firing" else ga_Status a in
  let title := if String.eqb (ga_Title a) "" then "Alert" else ga_Title a in
  let severity :=
    if String.eqb (ga_Severity a) "" then "warning" else ga_Severity a in
  let resolvedAt := parse_resolvedAt (ga_EndsAt a) in
  firingAt ← parse_firingAt (ga_StartsAt a);
  let labelsMap := Some (default ∅ (ga_Labels a)) in
  mret {| status := status; title := title; severity := severity;
          firingAt := firingAt; resolvedAt := resolvedAt;
          labelsJSON := labelsJSON; annotationsJSON := annotationsJSON;
          externalID := dedup.Key sourceID title labelsMap |}.

Definition GenericHandler_alert (h : GenericHandler) (sourceID : N)
    (a : GenericAlert) : M bool :=
  p ← generic_pushed sourceID a;
  store_pushed sourceID (gh_SourceType h) p.

Definition GenericHandler_Serve (h : GenericHandler)
    (req : Request GenericAlert) : M Response :=
  match alerts_of req with
  | None => mret {| code := 400; received := 0; created := 0 |}
  | Some payload =>
      let sourceID := request_source 1 (source_id req) in
      made ← for_all payload (GenericHandler_alert h sourceID);
      mret {| code := 200; received := Z.of_nat (length payload);
              created := count_created made |}
  end.

End with_runtime.
End inbound.

(** ** A reference runtime

    Executable versions of the library functions, used to run the program
    on concrete inputs.  They follow Go on the inputs the examples use:
    JSON without escapes inside strings, durations and numbers without
    exponents, ASCII text, RFC 3339 instants with a numeric zone or [Z],
    and floats with an integral value.  The theorems of Part II do not
    depend on them: they hold for every runtime. *)

Module reference.

Definition dquote : ascii := ascii_of_nat 34.
Definition backslash : ascii := ascii_of_nat 92.

Definition is_digit (c : ascii) : bool :=
  let n := N_of_ascii c in (48 <=? n)%N && (n <=? 57)%N.

Definition digit_value (c : ascii) : Z := Z.of_N (N_of_ascii c) - 48.

(** The longest prefix made of digits, as a number with its length, and
    the rest. *)
Fixpoint digits (s : string) (acc : Z) (n : nat) : Z * nat * string :=
  match s with
  | String c r => if is_digit c then digits r (acc * 10 + digit_value c) (S n)
                  else (acc, n, s)
  | EmptyString => (acc, n, s)
  end.

Definition is_blank (c : ascii) : bool :=
  let n := N_of_ascii c in
  (n =? 32)%N || ((9 <=? n)%N && (n <=? 13)%N).

Fixpoint skip_blanks (s : string) : string :=
  match s with
  | String c r => if is_blank c then skip_blanks r else s
  | EmptyString => s
  end.

(** *** JSON *)

(** In the examples JSON texts are written with single quotes. *)
Fixpoint js (s : string) : string :=
  match s with
  | EmptyString => ""
  | String c r => String (if Ascii.eqb c "'" then dquote else c) (js r)
  end.

#[warnings="-register-all"]
Inductive json :=
| JNull
| JBool (b : bool)
| JNumber (negative : bool) (int_part frac_part : Z) (frac_digits : nat)
| JString (s : string)
| JArray (l : list json)
| JObject (l : list (string * json)).

Fixpoint until_quote (s : string) : option (string * string) :=
  match s with
  | EmptyString => None
  | String c r =>
      if Ascii.eqb c dquote then Some (EmptyString, r)
      else if Ascii.eqb c backslash then None
      else match until_quote r with
           | Some (a, b) => Some (String c a, b)
           | None => None
           end
  end.

Definition number (negative : bool) (s : string) : option (json * string) :=
  let '(i, n, r) := digits s 0 O in
  if (n =? 0)%nat then None
  else match r with
       | String "." r' =>
           let '(f, m, r'') := digits r' 0 O in
           if (m =? 0)%nat then None else Some (JNumber negative i f m, r'')
       | _ => Some (JNumber negative i 0 O, r)
       end.

Fixpoint value (fuel : nat) (s : string) : option (json * string) :=
  match fuel with
  | O => None
  | S fuel =>
      match skip_blanks s with
      | String "n" (String "u" (String "l" (String "l" r))) => Some (JNull, r)
      | String "t" (String "r" (String "u" (String "e" r))) =>
          Some (JBool true, r)
      | String "f" (String "a" (String "l" (String "s" (String "e" r)))) =>
          Some (JBool false, r)
      | String "[" r =>
          match skip_blanks r with
          | String "]" r' => Some (JArray [], r')
          | _ => elements fuel r []
          end
      | String "{" r =>
          match skip_blanks r with
          | String "}" r' => Some (JObject [], r')
          | _ => members fuel r []
          end
      | String "-" r => number true r
      | String c r =>
          if Ascii.eqb c dquote then
            match until_quote r with
            | Some (str, r') => Some (JString str, r')
            | None => None
            end
          else number false (String c r)
      | EmptyString => None
      end
  end
with elements (fuel : nat) (s : string) (acc : list json)
  : option (json * string) :=
  match fuel with
  | O => None
  | S fuel =>
      match value fuel s with
      | Some (v, r) =>
          match skip_blanks r with
          | String "," r' => elements fuel r' (acc ++ [v])
          | String "]" r' => Some (JArray (acc ++ [v]), r')
          | _ => None
          end
      | None => None
      end
  end
with members (fuel : nat) (s : string) (acc : list (string * json))
  : option (json * string) :=
  match fuel with
  | O => None
  | S fuel =>
      match skip_blanks s with
      | String c r =>
          if Ascii.eqb c dquote then
            match until_quote r with
            | Some (k, r') =>
                match skip_blanks r' with
                | String ":" r'' =>
                    match value fuel r'' with
                    | Some (v, r3) =>
                        match skip_blanks r3 with
                        | String "," r4 => members fuel r4 (acc ++ [(k, v)])
                        | String "}" r4 => Some (JObject (acc ++ [(k, v)]), r4)
                        | _ => None
                        end
                    | None => None
                    end
                | _ => None
                end
            | None => None
            end
          else None
      | EmptyString => None
      end
  end.

(** A whole text: one value and blanks. *)
Definition parse (s : string) : option json :=
  match value (S (String.length s)) s with
  | Some (v, r) => if String.eqb (skip_blanks r) "" then Some v else None
  | None => None
  end.

Definition field (k : string) (l : list (string * json)) : option json :=
  option_map snd (List.find (fun kv => String.eqb (fst kv) k) (rev l)).

(** Decoding into [map[string]string]: a member that is not a string is
    skipped and reported. *)
Definition string_members (l : list (string * json))
  : gmap string string * bool :=
  fold_left (fun acc kv =>
               match snd kv with
               | JString v => (<[fst kv := v]> (fst acc), snd acc)
               | JNull => acc
               | _ => (fst acc, true)
               end) l (∅, false).

Definition to_map (v : json) : option (gmap string string) * bool :=
  match v with
  | JNull => (None, false)
  | JObject l => let '(m, err) := string_members l in (Some m, err)
  | _ => (None, true)
  end.

Definition unmarshal_map (s : string) : option (gmap string string) * bool :=
  match parse s with
  | Some v => to_map v
  | None => (None, true)
  end.

(** Decoding into [[]uint]: an element that is not a natural number is
    left zero and reported. *)
Definition to_uints (v : json) : list N * bool :=
  match v with
  | JNull => ([], false)
  | JArray l =>
      fold_left (fun acc e =>
                   match e with
                   | JNumber false i _ O => (fst acc ++ [Z.to_N i], snd acc)
                   | _ => (fst acc ++ [0%N], true)
                   end) l ([], false)
  | _ => ([], true)
  end.

Definition unmarshal_uints (s : string) : list N * bool :=
  match parse s with
  | Some v => to_uints v
  | None => ([], true)
  end.

(** *** Numbers *)

(** The float of a decimal literal with at most 15 significant digits:
    both operands of the division are exact. *)
Definition float_of_decimal (negative : bool) (i f : Z) (n : nat) : float :=
  let x := PrimFloat.div (Go.float_of_Z (i * 10 ^ Z.of_nat n + f))
                         (Go.float_of_Z (10 ^ Z.of_nat n)) in
  if negative then PrimFloat.opp x else x.

Definition scan_float (s : string) : float :=
  match s with
  | String "-" r =>
      match number true r with
      | Some (JNumber neg i f n, _) => float_of_decimal neg i f n
      | _ => 0%float
      end
  | _ =>
      match number false s with
      | Some (JNumber neg i f n, _) => float_of_decimal neg i f n
      | _ => 0%float
      end
  end.

(** A float with an integral value below 2^53 prints as that integer. *)
Definition print_float (x : float) : string :=
  let z := Go.Z_of_float x in
  if PrimFloat.eqb (Go.float_of_Z z) x && (Z.abs z <? 2 ^ 53)
  then pretty z else "NaN".

(** An optional sign and digits, with the rest. *)
Definition signed (s : string) : option (Z * string) :=
  let '(neg, s') :=
    match s with
    | String "-" r => (true, r)
    | String "+" r => (false, r)
    | _ => (false, s)
    end in
  let '(v, n, r) := digits s' 0 O in
  if (n =? 0)%nat then None else Some (if neg : bool then - v else v, r).

Definition scan_hm (s : string) : option (Z * Z) :=
  match signed (skip_blanks s) with
  | Some (h, String ":" r) =>
      match signed (skip_blanks r) with
      | Some (m, _) =>
          if (Z.abs h <? 2 ^ 63) && (Z.abs m <? 2 ^ 63) then Some (h, m) else None
      | None => None
      end
  | _ => None
  end.

Definition scan_uint (s : string) : N :=
  let '(v, n, _) := digits (skip_blanks s) 0 O in
  if (n =? 0)%nat || (2 ^ 64 <=? v) then 0%N else Z.to_N v.

(** *** Durations *)

Definition unit_of (u : string) : option Z :=
  if String.eqb u "ns" then Some 1
  else if String.eqb u "us" then Some 1000
  else if String.eqb u "ms" then Some 1000000
  else if String.eqb u "s" then Some Go.Second
  else if String.eqb u "m" then Some Go.Minute
  else if String.eqb u "h" then Some Go.Hour
  else None.

(** The longest prefix without a digit or a period: the unit. *)
Fixpoint unit_text (s : string) : string * string :=
  match s with
  | String c r =>
      if is_digit c || Ascii.eqb c "." then (EmptyString, s)
      else let '(u, r') := unit_text r in (String c u, r')
  | EmptyString => (EmptyString, s)
  end.

(** The groups [digits[.digits]unit] of a duration, summed. *)
Fixpoint groups (fuel : nat) (s : string) (d : Z) : option Z :=
  match fuel with
  | O => None
  | S fuel =>
      match s with
      | EmptyString => Some d
      | _ =>
          let '(v, pre, r) := digits s 0 O in
          let '(f, post, r) :=
            match r with
            | String "." r' => digits r' 0 O
            | _ => (0, O, r)
            end in
          if (pre =? 0)%nat && (post =? 0)%nat then None
          else
            let '(u, r) := unit_text r in
            match unit_of u with
            | None => None
            | Some unit =>
                let d := d + v * unit + f * unit / 10 ^ Z.of_nat post in
                if 2 ^ 63 <? d then None else groups fuel r d
            end
      end
  end.

Definition parse_duration (s : string) : option Go.Duration :=
  let '(neg, s') :=
    match s with
    | String "-" r => (true, r)
    | String "+" r => (false, r)
    | _ => (false, s)
    end in
  if String.eqb s' "0" then Some 0
  else if String.eqb s' "" then None
  else match groups (String.length s') s' 0 with
       | Some d =>
           if neg : bool then Some (- d)
           else if 2 ^ 63 - 1 <? d then None else Some d
       | None => None
       end.

(** *** Instants of the civil calendar *)

Definition is_leap (y : Z) : bool :=
  ((y mod 4 =? 0) && negb (y mod 100 =? 0)) || (y mod 400 =? 0).

Definition days_in_month (y m : Z) : Z :=
  if m =? 2 then (if is_leap y then 29 else 28)
  else if (m =? 4) || (m =? 6) || (m =? 9) || (m =? 11) then 30 else 31.

(** Days from 0001-01-01 to the first day of year [y]. *)
Definition days_before_year (y : Z) : Z :=
  let p := y - 1 in 365 * p + p / 4 - p / 100 + p / 400.

Definition days_before_month (y m : Z) : Z :=
  fold_left (fun acc k => acc + days_in_month y (Z.of_nat k))
            (seq 1 (Z.to_nat m - 1)) 0.

Definition civil (y mo d h mi s : Z) : Go.Time :=
  (((days_before_year y + days_before_month y mo + (d - 1)) * 24 + h) * 60 + mi)
  * 60 * Go.Second + s * Go.Second.

(** Exactly [n] digits. *)
Definition fixed (n : nat) (s : string) : option (Z * string) :=
  let '(v, k, _) := digits (String.substring 0 n s) 0 O in
  if (k =? n)%nat
  then Some (v, String.substring n (String.length s - n) s) else None.

Definition expect (c : ascii) (s : string) : option string :=
  match s with
  | String c' r => if Ascii.eqb c c' then Some r else None
  | EmptyString => None
  end.

Definition zone (s : string) : option Z :=
  match s with
  | String "Z" EmptyString => Some 0
  | String sg r =>
      if Ascii.eqb sg "+" || Ascii.eqb sg "-" then
        '(h, r) ← fixed 2 r;
        r ← expect ":" r;
        '(m, r) ← fixed 2 r;
        if String.eqb r "" && (h <? 24) && (m <? 60)
        then Some ((if Ascii.eqb sg "-" then -1 else 1) * (h * 3600 + m * 60))
        else None
      else None
  | EmptyString => None
  end.

Definition parse_rfc3339 (s : string) : option Go.Time :=
  '(y, r) ← fixed 4 s;
  r ← expect "-" r;
  '(mo, r) ← fixed 2 r;
  r ← expect "-" r;
  '(d, r) ← fixed 2 r;
  r ← expect "T" r;
  '(h, r) ← fixed 2 r;
  r ← expect ":" r;
  '(mi, r) ← fixed 2 r;
  r ← expect ":" r;
  '(sec, r) ← fixed 2 r;
  '(frac, r) ←
    match r with
    | String "." r' =>
        let '(f, n, r'') := digits r' 0 O in
        if (n =? 0)%nat || (9 <? n)%nat then None
        else Some (f * 10 ^ Z.of_nat (9 - n), r'')
    | _ => Some (0, r)
    end;
  off ← zone r;
  if (1 <=? mo) && (mo <=? 12) && (1 <=? d) && (d <=? days_in_month y mo)
     && (h <? 24) && (mi <? 60) && (sec <? 60)
  then Some (civil y mo d h mi sec + frac - off * Go.Second)
  else None.

(** The year of a day number counted from 0001-01-01, found by search
    from an estimate, and the rest of the date. *)
Fixpoint year_from (fuel : nat) (y days : Z) : Z :=
  match fuel with
  | O => y
  | S fuel =>
      if days_before_year (y + 1) <=? days then year_from fuel (y + 1) days
      else y
  end.

Fixpoint month_from (fuel : nat) (y m days : Z) : Z * Z :=
  match fuel with
  | O => (m, days)
  | S fuel =>
      if days_in_month y m <=? days
      then month_from fuel y (m + 1) (days - days_in_month y m)
      else (m, days)
  end.

Definition two (n : Z) : string :=
  if n <? 10 then "0" +:+ pretty n else pretty n.

Definition four (n : Z) : string :=
  if n <? 10 then "000" +:+ pretty n
  else if n <? 100 then "00" +:+ pretty n
  else if n <? 1000 then "0" +:+ pretty n else pretty n.

Definition format_cst (t : Go.Time) : string :=
  let secs := t / Go.Second + 8 * 3600 in
  let days := secs / 86400 in
  let sod := secs mod 86400 in
  let y := year_from 12 (days / 366 + 1) days in
  let '(m, d) := month_from 12 y 1 (days - days_before_year y) in
  four y +:+ "-" +:+ two m +:+ "-" +:+ two (d + 1) +:+ " " +:+
  two (sod / 3600) +:+ ":" +:+ two (sod mod 3600 / 60) +:+ ":" +:+ two (sod mod 60).

(** *** Strings *)

Definition hex2 (n : N) : string :=
  String (hex.digit (Z.of_N (n / 16))) (String (hex.digit (Z.of_N (n mod 16))) "").

Definition escape (c : ascii) : string :=
  let n := N_of_ascii c in
  if Ascii.eqb c dquote || Ascii.eqb c backslash
  then String backslash (String c "")
  else if (n =? 10)%N then String backslash "n"
  else if (n =? 13)%N then String backslash "r"
  else if (n =? 9)%N then String backslash "t"
  else if (n <? 32)%N || Ascii.eqb c "<" || Ascii.eqb c ">" || Ascii.eqb c "&"
  then String backslash ("u00" +:+ hex2 n)
  else String c "".

Fixpoint escaped (s : string) : string :=
  match s with
  | EmptyString => ""
  | String c r => escape c +:+ escaped r
  end.

Definition quote (s : string) : string :=
  String dquote (escaped s) +:+ String dquote "".

Definition trim_space (s : string) : string :=
  String.rev (skip_blanks (String.rev (skip_blanks s))).

Definition lower (c : ascii) : ascii :=
  let n := N_of_ascii c in
  if (65 <=? n)%N && (n <=? 90)%N then ascii_of_N (n + 32) else c.

Fixpoint to_lower (s : string) : string :=
  match s with
  | EmptyString => ""
  | String c r => String (lower c) (to_lower r)
  end.

#[global] Instance go_runtime : Go.Runtime := {|
  Go.json_string := quote;
  Go.json_unmarshal_map := unmarshal_map;
  Go.json_unmarshal_uints := unmarshal_uints;
  Go.ParseDuration := parse_duration;
  Go.Sscanf_d_colon_d := scan_hm;
  Go.Parse_RFC3339 := parse_rfc3339;
  Go.Sprint_float := print_float;
  Go.Sscanf_f := scan_float;
  Go.Sscanf_d := scan_uint;
  Go.local_offset := fun _ => 8 * 3600;
  Go.Format_CST := format_cst;
  Go.TrimSpace := trim_space;
  Go.ToLower := to_lower
|}.

(** *** The shapes of the packages *)

Definition map_field (k : string) (l : list (string * json))
  : gmap string string * bool :=
  match field k l with
  | Some (JObject m) => string_members m
  | Some JNull | None => (∅, false)
  | Some _ => (∅, true)
  end.

Definition string_field (k : string) (l : list (string * json)) : string * bool :=
  match field k l with
  | Some (JString s) => (s, false)
  | Some JNull | None => ("", false)
  | Some _ => ("", true)
  end.

Definition unmarshal_suppression (s : string) : engine.suppressionConfig * bool :=
  match parse s with
  | Some (JObject l) =>
      let '(src, e1) := map_field "source_labels" l in
      let '(sup, e2) := map_field "suppressed_labels" l in
      let '(d, e3) := string_field "duration" l in
      ({| engine.SourceLabels := src; engine.SuppressedLabels := sup;
          engine.sc_Duration := d |}, e1 || e2 || e3)
  | Some JNull =>
      ({| engine.SourceLabels := ∅; engine.SuppressedLabels := ∅;
          engine.sc_Duration := "" |}, false)
  | _ =>
      ({| engine.SourceLabels := ∅; engine.SuppressedLabels := ∅;
          engine.sc_Duration := "" |}, true)
  end.

Definition to_window (v : json) : engine.window * bool :=
  match v with
  | JObject l =>
      let '(a, e1) := string_field "start" l in
      let '(b, e2) := string_field "end" l in
      ({| engine.Start := a; engine.End_ := b |}, e1 || e2)
  | JNull => ({| engine.Start := ""; engine.End_ := "" |}, false)
  | _ => ({| engine.Start := ""; engine.End_ := "" |}, true)
  end.

Definition unmarshal_windows (s : string) : list engine.window * bool :=
  match parse s with
  | Some (JArray l) =>
      (List.map (fun v => fst (to_window v)) l,
       existsb (fun v => snd (to_window v)) l)
  | Some JNull => ([], false)
  | _ => ([], true)
  end.

Definition unmarshal_jira_config (s : string) : bool :=
  match parse s with
  | Some (JObject l) => snd (string_members l)
  | Some JNull => false
  | _ => true
  end.

#[global] Instance engine_runtime : engine.Runtime := {|
  engine.json_unmarshal_suppression := unmarshal_suppression;
  engine.json_unmarshal_windows := unmarshal_windows;
  engine.json_unmarshal_jira_config := unmarshal_jira_config
|}.

Definition to_level (v : json) : scheduler.ThresholdLevel * bool :=
  match v with
  | JObject l =>
      let '(op, e1) := string_field "operator" l in
      let '(sev, e2) := string_field "severity" l in
      let '(x, e3) :=
        match field "value" l with
        | Some (JNumber neg i f n) => (float_of_decimal neg i f n, false)
        | Some JNull | None => (0%float, false)
        | Some _ => (0%float, true)
        end in
      let '(chs, e4) :=
        match field "channel_ids" l with
        | Some v => to_uints v
        | None => ([], false)
        end in
      ({| scheduler.Operator := op; scheduler.th_Value := x;
          scheduler.th_Severity := sev; scheduler.ChannelIDs := chs |},
       e1 || e2 || e3 || e4)
  | _ =>
      ({| scheduler.Operator := ""; scheduler.th_Value := 0;
          scheduler.th_Severity := ""; scheduler.ChannelIDs := [] |},
       negb match v with JNull => true | _ => false end)
  end.

Definition unmarshal_thresholds (s : string)
  : list scheduler.ThresholdLevel * bool :=
  match parse s with
  | Some (JArray l) =>
      (List.map (fun v => fst (to_level v)) l,
       existsb (fun v => snd (to_level v)) l)
  | Some JNull => ([], false)
  | _ => ([], true)
  end.

#[global] Instance scheduler_runtime : scheduler.Runtime := {|
  scheduler.json_unmarshal_thresholds := unmarshal_thresholds
|}.

End reference.

(** ** Package sender, continued: the retry loop, the two senders and the
    fallback renderer

    The senders talk to the network and to the token bucket; what they
    are given from outside (the decoders, the answer of the HTTP call) is
    a parameter.  A run-time panic is a result of its own. *)

Module delivery.
Import sender.

(** A call returns an error or [nil], or does not return. *)
Inductive Result (E : Type) :=
| returned (err : option E)
| panicked.
Arguments returned {E}.
Arguments panicked {E}.

(** *** Send: up to three attempts *)

Definition maxSendRetries : Z := 3.
Definition retryDelay : Go.Duration := Go.Second.

(** What a call of [Send] did: its result, the attempts it made and the
    arguments of its calls to [time.Sleep]. *)
Record Sending := {
  result : Result string;
  attempts : list Z;
  sleeps : list Go.Duration
}.

Section retry.

(** [sendTelegram] and [sendLark] as the loop sees them at an attempt:
    the arguments are the same at every attempt, the answer of the
    network is not. *)
Variable sendTelegram sendLark : Z -> Result string.

Definition unsupported (channelType : string) : string :=
  "unsupported channel type: " +:+ channelType.

Definition exhausted (lastErr : string) : string :=
  "send failed after " +:+ Go.Itoa maxSendRetries +:+ " attempts: " +:+ lastErr.

(** The loop from [attempt] on; [fuel] bounds the number of turns. *)
Fixpoint Send_from (fuel : nat) (attempt : Z) (channelType : string)
    (lastErr : string) (made : list Z) (slept : list Go.Duration) : Sending :=
  match fuel with
  | O => {| result := returned (Some (exhausted lastErr));
            attempts := made; sleeps := slept |}
  | S fuel' =>
      if attempt <=? maxSendRetries then
        let tried :=
          if String.eqb channelType "telegram" then Some (sendTelegram attempt)
          else if String.eqb channelType "lark" then Some (sendLark attempt)
          else None in
        match tried with
        | None =>
            {| result := returned (Some (unsupported channelType));
               attempts := made; sleeps := slept |}
        | Some panicked =>
            {| result := panicked; attempts := made ++ [attempt];
               sleeps := slept |}
        | Some (returned None) =>
            {| result := returned None; attempts := made ++ [attempt];
               sleeps := slept |}
        | Some (returned (Some e)) =>
            let slept :=
              if attempt <? maxSendRetries
              then slept ++ [retryDelay * attempt] else slept in
            Send_from fuel' (attempt + 1) channelType e (made ++ [attempt]) slept
        end
      else {| result := returned (Some (exhausted lastErr));
              attempts := made; sleeps := slept |}
  end.

Definition Send (channelType : string) : Sending :=
  Send_from (S (Z.to_nat maxSendRetries)) 1 channelType "" [] [].

End retry.

(** *** The senders *)

(** The answer of the HTTP client: an error of [client.Do], or a response
    with its status, and what [io.ReadAll] gives for its body, the bytes
    and the error. *)
Inductive HTTP :=
| request_error (e : string)
| response (status : Z) (body : string) (read_err : option string).

(** The errors that the senders build; [decode_error] tells whether
    [json.Unmarshal] reported the config. *)
Inductive SendError :=
| invalid_config (decode_error : bool)
| http_error (e : string)
| read_body_error (e : string)
| api_status (status : Z) (body : string)
| api_error (code : Z) (msg : string).

(** The card posted to a Lark webhook. *)
Record LarkCard := {
  webhook : string;
  header_template : string;
  header_title : string;
  content : string
}.

(** The message posted to the Telegram API. *)
Record TelegramMessage := {
  api_url : string;
  chat_id : string;
  text : string
}.

Class Runtime := {
  (** [json.Unmarshal] into a [LarkConfig]: the webhook URL left in the
      struct, and whether there was an error *)
  json_unmarshal_lark_config : string -> string * bool;
  (** [json.Unmarshal] into a [TelegramConfig]: token, chat id, error *)
  json_unmarshal_telegram_config : string -> string * string * bool;
  (** [json.Unmarshal] of the body of Lark's answer: code, message, error *)
  json_unmarshal_lark_answer : string -> Z * string * bool;
  (** [http.NewRequest(http.MethodPost, url, body)]: the error *)
  NewRequest : string -> option string
}.

(** [strings.TrimLeft(s, "\n\r\t ")]. *)
Definition in_cutset (c : ascii) : bool :=
  let n := N_of_ascii c in
  (n =? 10)%N || (n =? 13)%N || (n =? 9)%N || (n =? 32)%N.

Fixpoint TrimLeft (s : string) : string :=
  match s with
  | String c s' => if in_cutset c then TrimLeft s' else s
  | EmptyString => EmptyString
  end.

(** What [sendLark] did: its result, the limiter it leaves, and the card
    it gave to the HTTP client, if it came to that. *)
Record LarkSending := {
  lark_result : Result SendError;
  lark_limiter : larkRateLimiter;
  lark_posted : option LarkCard
}.

Section senders.
Context `{!Go.Runtime, !Runtime}.

(** The webhook URL that [sendLark] takes from the channel config: the
    config itself when it is a URL, else the field of the JSON object. *)
Definition lark_webhook (configJSON : string) : string + SendError :=
  let raw := Go.TrimSpace configJSON in
  if String.prefix "http://" raw || String.prefix "https://" raw then inl raw
  else
    let '(url, err) := json_unmarshal_lark_config configJSON in
    if err || String.eqb url "" then inr (invalid_config err) else inl url.

Definition lark_card (url title body : string) (isRecovery : bool) : LarkCard :=
  let content := TrimLeft body in
  {| webhook := url;
     header_template := if isRecovery then "green" else "red";
     header_title := if isRecovery then "恢复通知" else "告警通知";
     content := if String.eqb content "" then title else content |}.

(** The error that [sendLark] makes of the answer. *)
Definition lark_verdict (answer : HTTP) : option SendError :=
  match answer with
  | request_error e => Some (http_error e)
  | response _ _ (Some e) => Some (read_body_error e)
  | response status bb None =>
      if negb (status =? 200) then Some (api_status status bb)
      else
        let '(code, msg, err) := json_unmarshal_lark_answer bb in
        if negb err && negb (code =? 0) then Some (api_error code msg)
        else None
  end.

Definition sendLark (configJSON title body : string) (isRecovery : bool)
    (rl : larkRateLimiter) (now : Go.Time) (post : LarkCard -> HTTP)
  : LarkSending :=
  match lark_webhook configJSON with
  | inr e => {| lark_result := returned (Some e); lark_limiter := rl;
                lark_posted := None |}
  | inl url =>
      (* the log line slices the URL: cfg.WebhookURL[:50] *)
      if Go.len url <? 50
      then {| lark_result := panicked; lark_limiter := rl; lark_posted := None |}
      else
        let rl' := fst (acquire rl now) in
        let card := lark_card url title body isRecovery in
        match NewRequest url with
        | Some e => {| lark_result := returned (Some (http_error e));
                       lark_limiter := rl'; lark_posted := None |}
        | None => {| lark_result := returned (lark_verdict (post card));
                     lark_limiter := rl'; lark_posted := Some card |}
        end
  end.

Definition telegram_message (token chatID body : string) (isRecovery : bool)
  : TelegramMessage :=
  let header := if isRecovery then "恢复通知" else "告警通知" in
  {| api_url := "https://api.telegram.org/bot" +:+ token +:+ "/sendMessage";
     chat_id := chatID;
     text := if String.eqb body "" then header
             else header +:+ Go.LF +:+ TrimLeft body |}.

(** [sendTelegram]: the error, and the message given to the HTTP client,
    if it came to that.  The title is not used. *)
Definition sendTelegram (configJSON _title body : string) (isRecovery : bool)
    (post : TelegramMessage -> HTTP) : option SendError * option TelegramMessage :=
  let '(token, chatID, err) := json_unmarshal_telegram_config configJSON in
  if err || String.eqb token "" || String.eqb chatID ""
  then (Some (invalid_config err), None)
  else
    let msg := telegram_message token chatID body isRecovery in
    match NewRequest (api_url msg) with
    | Some e => (Some (http_error e), None)
    | None =>
        (match post msg with
         | request_error e => Some (http_error e)
         | response status bb _ =>
             if negb (status =? 200) then Some (api_status status bb) else None
         end, Some msg)
    end.

(** Whether a call of [Send] for a channel does not return: the type
    is [lark] and [sendLark] takes from the config a webhook URL of fewer
    than 50 bytes, which the slice of its first log line cannot hold. *)
Definition panics (channelType configJSON : string) : bool :=
  String.eqb channelType "lark"
  && match lark_webhook configJSON with
     | inl url => Go.len url <? 50
     | inr _ => false
     end.

(** The channels of a store to all of which [Send] returns. *)
Definition deliverable (chs : list models.Channel.t) : bool :=
  forallb (fun ch => negb (panics (models.Channel.Type_ ch)
                                  (models.Channel.Config ch))) chs.

(** The senders as the loop of [Send] calls them: the error of an
    attempt is known to the loop by its text ([describe]); the limiter,
    the clock and the network are those of the attempt. *)
Definition as_attempt (describe : SendError -> string) (r : Result SendError)
  : Result string :=
  match r with
  | returned e => returned (option_map describe e)
  | panicked => panicked
  end.

Definition lark_attempt (describe : SendError -> string)
    (configJSON title body : string) (isRecovery : bool)
    (limiter : Z -> larkRateLimiter) (clock : Z -> Go.Time)
    (network : Z -> LarkCard -> HTTP) (attempt : Z) : Result string :=
  as_attempt describe
    (lark_result (sendLark configJSON title body isRecovery (limiter attempt)
                           (clock attempt) (network attempt))).

Definition telegram_attempt (describe : SendError -> string)
    (configJSON title body : string) (isRecovery : bool)
    (network : Z -> TelegramMessage -> HTTP) (attempt : Z) : Result string :=
  returned (option_map describe
              (fst (sendTelegram configJSON title body isRecovery
                                 (network attempt)))).

End senders.

(** *** RenderBody: the substitution of placeholders *)

(** [bytes.ReplaceAll(s, old, new)] for a non-empty [old]: the
    occurrences are taken from left to right and do not overlap.  [skip]
    counts the bytes of an occurrence still to pass over. *)
Fixpoint replace_from (skip : nat) (old new s : string) : string :=
  match s with
  | EmptyString => EmptyString
  | String c s' =>
      match skip with
      | S k => replace_from k old new s'
      | O =>
          if String.prefix old s
          then new +:+ replace_from (String.length old - 1) old new s'
          else String c (replace_from 0 old new s')
      end
  end.

Definition ReplaceAll (s old new : string) : string := replace_from 0 old new s.

(** The class [\w] of the regular expression: ASCII letters, digits and
    the underscore. *)
Definition is_word (c : ascii) : bool :=
  let n := N_of_ascii c in
  ((48 <=? n) && (n <=? 57))%N || ((65 <=? n) && (n <=? 90))%N
  || ((97 <=? n) && (n <=? 122))%N || (n =? 95)%N.

(** The longest run of word bytes at the head of a text, and the rest. *)
Fixpoint word_run (s : string) : string * string :=
  match s with
  | String c s' =>
      if is_word c then let '(w, rest) := word_run s' in (String c w, rest)
      else (EmptyString, s)
  | EmptyString => (EmptyString, EmptyString)
  end.

Definition label_open : string := "{{.Labels.".
Definition label_close : string := "}}".

(** A match of [labelRe] at the head of [s]: the name of the label and
    the length of the match. *)
Definition label_at (s : string) : option (string * nat) :=
  if String.prefix label_open s then
    let '(name, rest) :=
      word_run (String.substring (String.length label_open)
                                 (String.length s - String.length label_open) s) in
    if negb (String.eqb name "") && String.prefix label_close rest
    then Some (name, (String.length label_open + String.length name
                      + String.length label_close)%nat)
    else None
  else None.

(** [labelRe.ReplaceAllFunc]: every match, from left to right, gives way
    to the value of the label, or to nothing when the label is missing. *)
Fixpoint replace_labels (skip : nat) (labels : gmap string string) (s : string)
  : string :=
  match s with
  | EmptyString => EmptyString
  | String c s' =>
      match skip with
      | S k => replace_labels k labels s'
      | O =>
          match label_at s with
          | Some (name, n) =>
              Go.index labels name +:+ replace_labels (n - 1) labels s'
          | None => String c (replace_labels 0 labels s')
          end
      end
  end.

Definition RenderBody (body : string) (labels : gmap string string)
    (alertID title severity : string) : string :=
  let out := ReplaceAll body "{{.AlertID}}" alertID in
  let out := ReplaceAll out "{{.Title}}" title in
  let out := ReplaceAll out "{{.Severity}}" severity in
  replace_labels 0 labels out.

(** The body that [resolveBody] renders when the store has no template. *)
Definition fallback_body : string :=
  "AlertID: {{.AlertID}}" +:+ Go.LF +:+ "Title: {{.Title}}" +:+ Go.LF +:+
  "Severity: {{.Severity}}".

End delivery.
(** ** The decoders of package sender, for the examples *)

Module delivery_reference.
Import reference.

Definition int_field (k : string) (l : list (string * json)) : Z * bool :=
  match field k l with
  | Some (JNumber negative i _ O) => (if negative then - i else i, false)
  | Some JNull | None => (0, false)
  | Some _ => (0, true)
  end.

Definition unmarshal_lark_config (s : string) : string * bool :=
  match parse s with
  | Some (JObject l) => string_field "webhook_url" l
  | Some JNull => ("", false)
  | _ => ("", true)
  end.

Definition unmarshal_telegram_config (s : string) : string * string * bool :=
  match parse s with
  | Some (JObject l) =>
      let '(token, e1) := string_field "token" l in
      let '(chat, e2) := string_field "chat_id" l in
      (token, chat, e1 || e2)
  | Some JNull => ("", "", false)
  | _ => ("", "", true)
  end.

Definition unmarshal_lark_answer (s : string) : Z * string * bool :=
  match parse s with
  | Some (JObject l) =>
      let '(code, e1) := int_field "code" l in
      let '(msg, e2) := string_field "msg" l in
      (code, msg, e1 || e2)
  | Some JNull => (0, "", false)
  | _ => (0, "", true)
  end.

(** [url.Parse] refuses a URL with a control byte. *)
Definition is_control (c : ascii) : bool :=
  let n := N_of_ascii c in ((n <? 32) || (n =? 127))%N.

Definition new_request (url : string) : option string :=
  if existsb is_control (list_ascii_of_string url)
  then Some ("parse " +:+ quote url +:+
             ": net/url: invalid control character in URL")
  else None.

#[global] Instance delivery_runtime : delivery.Runtime := {|
  delivery.json_unmarshal_lark_config := unmarshal_lark_config;
  delivery.json_unmarshal_telegram_config := unmarshal_telegram_config;
  delivery.json_unmarshal_lark_answer := unmarshal_lark_answer;
  delivery.NewRequest := new_request
|}.

End delivery_reference.
(* ================================================================== *)
(** * Part II. Properties                                              *)
(* ================================================================== *)

Module sha256_tests.

(** The two classic test vectors of the standard. *)
Example Sum256_empty :
  hex.EncodeToString (sha256.Sum256 (Go.bytes "")) =
  "e3b0c44298fc1c149afbf4c8996fb92427ae41e4649b934ca495991b7852b855".
Proof. vm_compute. reflexivity. Qed.

Example Sum256_abc :
  hex.EncodeToString (sha256.Sum256 (Go.bytes "abc")) =
  "ba7816bf8f01cfea414140de5dae2223b00361a396177a9cb410ff61f20015ad".
Proof. vm_compute. reflexivity. Qed.

(** A message of 56 bytes, whose padding spills into a second block. *)
Example Sum256_two_blocks :
  hex.EncodeToString (sha256.Sum256
    (Go.bytes "abcdbcdecdefdefgefghfghighijhijkijkljklmklmnlmnomnopnopq")) =
  "248d6a61d20638b8e5c026930c3e6039a33ce45964ff2167f6ecedd419db06c1".
Proof. vm_compute. reflexivity. Qed.

End sha256_tests.

(** ** The Lark token bucket *)

Module sender_spec.
Import sender.

(** An instant of the year 2025, in nanoseconds from the zero instant. *)
Definition T0 : Go.Time := 63900000000000000000.

(** The limiter after three calls made at the same instant from the
    initial state: the burst is used up. *)
Definition drained : larkRateLimiter :=
  fst (acquires larkLimiter [T0; T0; T0]).

Example drained_tokens : tokens drained = 0%float.
Proof. vm_compute. reflexivity. Qed.

(** The first call finds a full bucket whatever its instant: [lastTime]
    is the zero instant, and the elapsed time saturates. *)
Example first_acquire :
  acquire larkLimiter T0 =
  ({| tokens := 2; lastTime := T0; rate := 5; burst := 3 |}, None).
Proof. vm_compute. reflexivity. Qed.

(** C8, as stated, fails: a fourth call at the same instant takes the
    waiting branch (it sleeps 200ms for the missing token) and leaves
    the token count at -1, not at 0. *)
Lemma acquire_exhausted_leaves_minus_one :
  Go.flt (refill drained T0) 1 = true /\
  snd (acquire drained T0) = Some (200 * 1000000) /\
  tokens (fst (acquire drained T0)) = (-1)%float /\
  tokens (fst (acquire drained T0)) <> 0%float.
Proof.
  repeat split; try (vm_compute; reflexivity).
  intro H. apply (f_equal (fun x => PrimFloat.eqb x 0)) in H.
  vm_compute in H. discriminate.
Qed.

(** C8, amended: the bucket is refilled by [elapsed * rate] and clamped
    to [burst] (with rate 5, burst 3 and a full initial bucket); when the
    refilled count is below 1 the caller sleeps [(1 - tokens) / rate]
    seconds and the call leaves the count at -1 (it is set to 0 and then
    decremented like on the other branch); otherwise the call leaves the
    refilled count minus one. *)
Theorem acquire_spec (rl : larkRateLimiter) (now : Go.Time) :
  let elapsed := Go.Seconds (Go.Sub now (lastTime rl)) in
  let t := PrimFloat.add (tokens rl) (PrimFloat.mul elapsed (rate rl)) in
  let r := if Go.fgt t (burst rl) then burst rl else t in
  (rate larkLimiter = 5%float /\ burst larkLimiter = 3%float /\
   tokens larkLimiter = burst larkLimiter) /\
  refill rl now = r /\
  acquire rl now =
    if Go.flt r 1
    then ({| tokens := (-1)%float; lastTime := now;
             rate := rate rl; burst := burst rl |},
          Some (Go.Z_of_float
                  (PrimFloat.mul (PrimFloat.div (PrimFloat.sub 1 r) (rate rl))
                                 1e9%float)))
    else ({| tokens := PrimFloat.sub r 1; lastTime := now;
             rate := rate rl; burst := burst rl |}, None).
Proof.
  intros elapsed t r. split; [repeat split|]. split; [reflexivity|].
  unfold acquire. fold elapsed. change (refill rl now) with r.
  destruct (Go.flt r 1); reflexivity.
Qed.

End sender_spec.

(** ** Threshold levels *)

Module thresholds_spec.
Import scheduler.

(** The six operators of a level. *)
Definition operators : list string := [">"; ">="; "<"; "<="; "=="; "!="].

Lemma MatchThreshold_None (levels : list ThresholdLevel) (value : float) :
  MatchThreshold levels value = None <->
  forall l, l ∈ levels -> level_holds l value = false.
Proof.
  induction levels as [|l0 rest IH]; simpl.
  - split; [intros _ l Hl; inversion Hl | reflexivity].
  - destruct (level_holds l0 value) eqn:E.
    + split; [discriminate|]. intros H.
      rewrite (H l0) in E; [discriminate | left].
    + rewrite IH. split.
      * intros H l Hl. inversion Hl; subst; auto.
      * intros H l Hl. apply H. now right.
Qed.

Lemma MatchThreshold_Some (levels : list ThresholdLevel) (value : float)
    (l : ThresholdLevel) :
  MatchThreshold levels value = Some l <->
  exists i : nat,
    levels !! i = Some l /\ level_holds l value = true /\
    forall (j : nat) lj, (j < i)%nat -> levels !! j = Some lj ->
                         level_holds lj value = false.
Proof.
  induction levels as [|l0 rest IH]; simpl.
  - split; [discriminate | intros (i & Hi & _); destruct i; discriminate].
  - destruct (level_holds l0 value) eqn:E.
    + split.
      * intros [= <-]. exists 0%nat. repeat split; auto. intros j lj Hj. lia.
      * intros (i & Hi & Hl & Hlow). destruct i as [|i].
        -- simpl in Hi. congruence.
        -- rewrite (Hlow 0%nat l0) in E; [discriminate | lia | reflexivity].
    + rewrite IH. split.
      * intros (i & Hi & Hl & Hlow). exists (S i). repeat split; auto.
        intros [|j] lj Hj Hlj; simpl in Hlj.
        -- congruence.
        -- apply (Hlow j); [lia | assumption].
      * intros (i & Hi & Hl & Hlow). destruct i as [|i].
        -- simpl in Hi. congruence.
        -- exists i. repeat split; auto.
           intros j lj Hj Hlj. apply (Hlow (S j)); [lia | assumption].
Qed.

(** The comparison that each operator stands for. *)
Lemma level_holds_operator (l : ThresholdLevel) (value : float) :
  level_holds l value =
  (if decide (Operator l = ">=") then Go.fge value (th_Value l)
   else if decide (Operator l = "<") then Go.flt value (th_Value l)
   else if decide (Operator l = "<=") then Go.fle value (th_Value l)
   else if decide (Operator l = "==") then Go.feq value (th_Value l)
   else if decide (Operator l = "!=") then Go.fne value (th_Value l)
   else Go.fgt value (th_Value l)).
Proof.
  unfold level_holds.
  repeat match goal with
  | |- context [String.eqb ?a ?b] =>
      destruct (String.eqb_spec a b) as [->|?]
  end;
  repeat (case_decide; try congruence); reflexivity.
Qed.

Lemma level_holds_unknown (l : ThresholdLevel) (value : float) :
  Operator l ∉ operators -> level_holds l value = Go.fgt value (th_Value l).
Proof.
  intros H. rewrite level_holds_operator.
  repeat case_decide; try reflexivity; exfalso; apply H;
    match goal with E : Operator l = _ |- _ => rewrite E end;
    unfold operators; set_solver.
Qed.

Section with_runtime.
Context `{!scheduler.Runtime}.

Lemma ParseThresholds_None (raw : string) :
  ParseThresholds raw = None <->
  raw = "" \/ raw = "[]" \/ raw = "null" \/
  snd (json_unmarshal_thresholds raw) = true \/
  fst (json_unmarshal_thresholds raw) = [].
Proof.
  unfold ParseThresholds.
  destruct (String.eqb_spec raw "") as [->|H1]; simpl; [tauto|].
  destruct (String.eqb_spec raw "[]") as [->|H2]; simpl; [tauto|].
  destruct (String.eqb_spec raw "null") as [->|H3]; simpl; [tauto|].
  destruct (json_unmarshal_thresholds raw) as [levels [|]]; simpl.
  - tauto.
  - destruct levels; simpl.
    + tauto.
    + split; [discriminate|]. intros [?|[?|[?|[?|?]]]]; congruence.
Qed.

Lemma ParseThresholds_Some (raw : string) (levels : list ThresholdLevel) :
  ParseThresholds raw = Some levels ->
  levels = fst (json_unmarshal_thresholds raw) /\ levels <> [].
Proof.
  unfold ParseThresholds.
  destruct (_ || _); [discriminate|].
  destruct (json_unmarshal_thresholds raw) as [ls [|]]; [discriminate|].
  destruct ls; simpl; [discriminate|]. intros [= <-]. split; congruence.
Qed.

(** C3. An empty string, ["[]"], ["null"], a text that does not decode
    and an empty list all disable the thresholds ([ParseThresholds] yields
    nothing), and nothing else does; matching returns the level of the
    lowest index whose comparison [value OP level] holds, an operator
    outside the six behaving as [>], and returns nothing exactly when no
    comparison holds. *)
Theorem thresholds_first_match (raw : string) (levels : list ThresholdLevel)
    (value : float) :
  (ParseThresholds raw = None <->
   raw = "" \/ raw = "[]" \/ raw = "null" \/
   snd (json_unmarshal_thresholds raw) = true \/
   fst (json_unmarshal_thresholds raw) = []) /\
  (forall ls, ParseThresholds raw = Some ls ->
              ls = fst (json_unmarshal_thresholds raw) /\ ls <> []) /\
  (forall l, MatchThreshold levels value = Some l <->
     exists i : nat,
       levels !! i = Some l /\ level_holds l value = true /\
       forall (j : nat) lj, (j < i)%nat -> levels !! j = Some lj ->
                            level_holds lj value = false) /\
  (MatchThreshold levels value = None <->
   forall l, l ∈ levels -> level_holds l value = false) /\
  (forall l,
     level_holds l value =
     (if decide (Operator l = ">") then Go.fgt value (th_Value l)
      else if decide (Operator l = ">=") then Go.fge value (th_Value l)
      else if decide (Operator l = "<") then Go.flt value (th_Value l)
      else if decide (Operator l = "<=") then Go.fle value (th_Value l)
      else if decide (Operator l = "==") then Go.feq value (th_Value l)
      else if decide (Operator l = "!=") then Go.fne value (th_Value l)
      else Go.fgt value (th_Value l))) /\
  (forall l, Operator l ∉ operators ->
             level_holds l value = Go.fgt value (th_Value l)).
Proof.
  split; [apply ParseThresholds_None|].
  split; [apply ParseThresholds_Some|].
  split; [intros l; apply MatchThreshold_Some|].
  split; [apply MatchThreshold_None|].
  split; [|intros l; apply level_holds_unknown].
  intros l. rewrite level_holds_operator.
  repeat (case_decide; try congruence); reflexivity.
Qed.

End with_runtime.

(** *** Scenario S2 of the specification, run with the reference runtime *)

Import reference.

Definition S2_thresholds : string :=
  js "[{'operator':'>=','value':90,'severity':'critical','channel_ids':[7]},{'operator':'>=','value':80,'severity':'warning','channel_ids':[3]}]".

Definition S2_grades (value : float) : option (string * list N) :=
  match ParseThresholds S2_thresholds with
  | Some levels =>
      option_map (fun l => (th_Severity l, ChannelIDs l))
                 (MatchThreshold levels value)
  | None => None
  end.

Example S2_critical : S2_grades 95 = Some ("critical", [7%N]).
Proof. vm_compute. reflexivity. Qed.

Example S2_warning : S2_grades 85 = Some ("warning", [3%N]).
Proof. vm_compute. reflexivity. Qed.

Example S2_normal : S2_grades 70 = None.
Proof. vm_compute. reflexivity. Qed.

Example thresholds_disabled :
  ParseThresholds "" = None /\ ParseThresholds "[]" = None /\
  ParseThresholds "null" = None /\ ParseThresholds "[ ]" = None /\
  ParseThresholds "{oops" = None.
Proof. vm_compute. repeat split. Qed.

(** The statement at the levels of scenario S2, and at a level whose
    operator is none of the six. *)
Lemma thresholds_first_match_witness :
  let critical := {| Operator := ">="; th_Value := 90;
                     th_Severity := "critical"; ChannelIDs := [7%N] |} in
  let warning := {| Operator := ">="; th_Value := 80;
                    th_Severity := "warning"; ChannelIDs := [3%N] |} in
  let odd := {| Operator := "=>"; th_Value := 90;
                th_Severity := "critical"; ChannelIDs := [] |} in
  [critical; warning] <> [] /\
  (exists i : nat,
     [critical; warning] !! i = Some warning /\
     level_holds warning 85 = true /\
     forall (j : nat) lj, (j < i)%nat -> [critical; warning] !! j = Some lj ->
                          level_holds lj 85 = false) /\
  level_holds odd 95 = Go.fgt 95 (th_Value odd).
Proof.
  intros critical warning odd.
  destruct (thresholds_first_match S2_thresholds [critical; warning] 85)
    as (_ & Hparse & Hsome & _).
  destruct (thresholds_first_match "" [] 95) as (_ & _ & _ & _ & _ & Hodd).
  split; [|split].
  - apply (Hparse [critical; warning]). vm_compute. reflexivity.
  - apply (Hsome warning). vm_compute. reflexivity.
  - apply (Hodd odd). unfold operators. simpl. intros Hin.
    repeat (apply elem_of_cons in Hin as [Hin|Hin]; [discriminate|]).
    inversion Hin.
Defined.

End thresholds_spec.

(** ** The fingerprint *)

Module dedup_spec.
Import dedup.

(** *** The digest is 64 lowercase hexadecimal digits *)

Definition lower_hex (c : ascii) : bool :=
  let n := N_of_ascii c in
  ((48 <=? n)%N && (n <=? 57)%N) || ((97 <=? n)%N && (n <=? 102)%N).

Lemma digit_lower_hex (n : Z) : lower_hex (hex.digit n) = true.
Proof.
  unfold hex.digit. generalize (Z.to_nat n) as k. intros k.
  do 16 (destruct k as [|k]; [vm_compute; reflexivity|]).
  reflexivity.
Qed.

Lemma EncodeToString_lower_hex (bs : list Z) :
  Forall (fun c => lower_hex c = true)
         (list_ascii_of_string (hex.EncodeToString bs)).
Proof.
  induction bs as [|b bs IH]; simpl; [constructor|].
  repeat constructor; auto using digit_lower_hex.
Qed.

Lemma EncodeToString_length (bs : list Z) :
  String.length (hex.EncodeToString bs) = (2 * length bs)%nat.
Proof. induction bs as [|b bs IH]; simpl; [reflexivity | rewrite IH; lia]. Qed.

Lemma round_length (st : list Z) (kw : Z * Z) :
  length (sha256.round st kw) = length st.
Proof.
  unfold sha256.round.
  do 9 (destruct st as [|? st]; [reflexivity|]). reflexivity.
Qed.

Lemma rounds_length (kws : list (Z * Z)) (st : list Z) :
  length (fold_left sha256.round kws st) = length st.
Proof.
  revert st. induction kws as [|kw kws IH]; intros st; simpl; [reflexivity|].
  rewrite IH. apply round_length.
Qed.

Lemma compress_length (h block : list Z) :
  length (sha256.compress h block) = length h.
Proof.
  unfold sha256.compress.
  rewrite length_map, length_combine, rounds_length. lia.
Qed.

Lemma Sum256_length (msg : list Z) : length (sha256.Sum256 msg) = 32%nat.
Proof.
  unfold sha256.Sum256.
  set (blocks := sha256.chunks _ _ _).
  assert (H : forall h, length (fold_left sha256.compress blocks h) = length h).
  { induction blocks as [|b bl IH]; intros h; simpl; [reflexivity|].
    rewrite IH. apply compress_length. }
  generalize (H sha256.H0).
  generalize (fold_left sha256.compress blocks sha256.H0) as l.
  intros l Hl. change (length sha256.H0) with 8%nat in Hl.
  do 9 (destruct l as [|? l]; try discriminate Hl). reflexivity.
Qed.

Lemma digest_shape (payload : string) :
  String.length (digest payload) = 64%nat /\
  Forall (fun c => lower_hex c = true) (list_ascii_of_string (digest payload)).
Proof.
  unfold digest. split.
  - rewrite EncodeToString_length, Sum256_length. reflexivity.
  - apply EncodeToString_lower_hex.
Qed.

(** *** The labels are written in key order *)

#[local] Instance key_le_trans : Transitive Go.key_le.
Proof. intros p q r. unfold Go.key_le. apply transitivity. Qed.

#[local] Instance key_le_total : Total Go.key_le.
Proof. intros p q. unfold Go.key_le. apply total, _. Qed.

(** A list of pairs is the canonical form of a map when it holds the
    pairs of the map, each key once, in the order of the keys. *)
Definition canonical (pairs : list (string * string))
    (labels : gmap string string) : Prop :=
  pairs ≡ₚ map_to_list labels /\
  StronglySorted Go.key_le pairs /\
  NoDup (List.map fst pairs).

Lemma sorted_pairs_canonical (labels : gmap string string) :
  canonical (Go.sorted_pairs labels) labels.
Proof.
  unfold canonical, Go.sorted_pairs. split; [|split].
  - apply merge_sort_Permutation.
  - apply StronglySorted_merge_sort; apply _.
  - change (NoDup (merge_sort Go.key_le (map_to_list labels)).*1).
    rewrite merge_sort_Permutation. apply NoDup_fst_map_to_list.
Qed.

(** Two canonical forms of one map are the same list. *)
Lemma canonical_unique (labels : gmap string string)
    (l1 l2 : list (string * string)) :
  canonical l1 labels -> canonical l2 labels -> l1 = l2.
Proof.
  intros (P1 & S1 & N1) (P2 & S2 & N2).
  apply (StronglySorted_unique_strong Go.key_le); auto.
  - intros [k1 v1] [k2 v2] H1 H2 L12 L21. unfold Go.key_le in *. simpl in *.
    assert (k1 = k2) as -> by (apply (anti_symm String.le); assumption).
    f_equal.
    rewrite P1 in H1. rewrite P2 in H2.
    apply elem_of_map_to_list in H1, H2. congruence.
  - rewrite P1, P2. reflexivity.
Qed.

(** *** The map rebuilt in key order is the map *)

Lemma rebuilt_lookup (labels : gmap string string) (ks : list string)
    (acc : gmap string string) (k : string) :
  fold_left (fun acc k => <[k := Go.index labels k]> acc) ks acc !! k =
  if decide (k ∈ ks) then Some (Go.index labels k) else acc !! k.
Proof.
  revert acc. induction ks as [|k0 ks IH]; intros acc; cbn [fold_left].
  - destruct (decide (k ∈ [])) as [H|]; [inversion H | reflexivity].
  - rewrite IH. destruct (decide (k ∈ ks)) as [Hin|Hnin].
    + rewrite decide_True by (now right). reflexivity.
    + destruct (decide (k = k0)) as [->|Hne].
      * rewrite decide_True by (now left). apply lookup_insert_eq.
      * rewrite decide_False by (intros H; inversion H; subst; tauto).
        apply lookup_insert_ne. congruence.
Qed.

Lemma labelsSorted_id (labels : gmap string string) :
  labelsSorted labels = labels.
Proof.
  apply map_eq. intros k. unfold labelsSorted. rewrite rebuilt_lookup.
  rewrite lookup_empty. unfold sorted_keys.
  case_decide as H.
  - rewrite merge_sort_Permutation in H.
    apply list_elem_of_fmap in H as ([k' v] & -> & H). simpl.
    apply elem_of_map_to_list in H. unfold Go.index. rewrite H. reflexivity.
  - destruct (labels !! k) as [v|] eqn:E; [|reflexivity].
    exfalso. apply H. rewrite merge_sort_Permutation.
    apply list_elem_of_fmap. exists (k, v). split; [reflexivity|].
    now apply elem_of_map_to_list.
Qed.

Section with_runtime.
Context `{!Go.Runtime}.

(** The JSON object written from a list of pairs, in the order of the
    list. *)
Definition object_of (pairs : list (string * string)) : string :=
  "{" +:+ Go.Join (List.map Go.member pairs) "," +:+ "}".

(** The result index counts when it is not negative and the labels name
    neither an instance nor a job. *)
Definition index_counts (labels : gmap string string) (resultIndex : Z) : Prop :=
  0 <= resultIndex /\ Go.index labels "instance" = "" /\
  Go.index labels "job" = "".

Lemma suffix_spec (labels : gmap string string) (resultIndex : Z) :
  suffix labels resultIndex =
  if decide (index_counts labels resultIndex)
  then "|" +:+ Go.Itoa resultIndex else "".
Proof.
  unfold suffix, anonymous, index_counts.
  destruct (Z.leb_spec 0 resultIndex);
    destruct (String.eqb_spec (Go.index labels "instance") "");
    destruct (String.eqb_spec (Go.index labels "job") ""); simpl;
    case_decide; try reflexivity; try tauto; try lia.
Qed.

(** C5. The fingerprint is the 64 lowercase hexadecimal digits of the
    SHA-256 digest of [sourceId | [ruleId |] title | JSON(labels)], the
    labels being written once each in the order of their keys, followed
    by [| resultIndex] exactly when the index is not negative and both
    the instance and the job label are empty; it depends on the labels
    only through their key-value pairs, so the order in which a label
    map was filled does not matter. *)
Theorem fingerprint_canonical (sourceID ruleID : N) (title : string)
    (labels : option (gmap string string)) (resultIndex : Z) :
  let m := default ∅ labels in
  let tail :=
    if decide (index_counts m resultIndex)
    then "|" +:+ Go.Itoa resultIndex else "" in
  (exists pairs,
     canonical pairs m /\
     KeyForSeriesWithRule sourceID ruleID title labels resultIndex =
       digest ((Go.FormatUint sourceID +:+ "|" +:+ Go.FormatUint ruleID +:+ "|"
                +:+ title +:+ "|" +:+ object_of pairs) +:+ tail) /\
     keyWithDisambiguator sourceID title labels resultIndex =
       digest ((Go.FormatUint sourceID +:+ "|" +:+ title +:+ "|"
                +:+ object_of pairs) +:+ tail) /\
     Key sourceID title labels =
       digest ((Go.FormatUint sourceID +:+ "|" +:+ title +:+ "|"
                +:+ object_of pairs) +:+ "")) /\
  (forall payload,
     String.length (digest payload) = 64%nat /\
     Forall (fun c => lower_hex c = true)
            (list_ascii_of_string (digest payload))) /\
  (forall m' : gmap string string,
     (forall k, m' !! k = m !! k) ->
     KeyForSeriesWithRule sourceID ruleID title (Some m') resultIndex =
       KeyForSeriesWithRule sourceID ruleID title labels resultIndex /\
     keyWithDisambiguator sourceID title (Some m') resultIndex =
       keyWithDisambiguator sourceID title labels resultIndex) /\
  (forall l1 l2 : list (string * string),
     NoDup (List.map fst l1) -> l1 ≡ₚ l2 ->
     KeyForSeriesWithRule sourceID ruleID title (Some (list_to_map l1))
       resultIndex =
     KeyForSeriesWithRule sourceID ruleID title (Some (list_to_map l2))
       resultIndex /\
     keyWithDisambiguator sourceID title (Some (list_to_map l1)) resultIndex =
     keyWithDisambiguator sourceID title (Some (list_to_map l2)) resultIndex).
Proof.
  intros m tail. split; [|split; [|split]].
  - exists (Go.sorted_pairs m). split; [apply sorted_pairs_canonical|].
    unfold KeyForSeriesWithRule, keyWithDisambiguator, Key, keyWithDisambiguator.
    fold m. rewrite labelsSorted_id, !suffix_spec. fold tail.
    repeat split; reflexivity.
  - apply digest_shape.
  - intros m' Hm. assert (m' = m) as -> by (now apply map_eq).
    unfold KeyForSeriesWithRule, keyWithDisambiguator. simpl. fold m.
    split; reflexivity.
  - intros l1 l2 Hnd Hperm.
    rewrite (list_to_map_proper l1 l2 Hnd Hperm). split; reflexivity.
Qed.

End with_runtime.

(** *** Digests checked against an independent SHA-256 *)

Import reference.

Example Key_webhook :
  Key 1 "Alert" (Some {[ "job" := "api" ]}) =
  "d0d0449fb77a27b6274c3aa87f4fbe2653e4cc3e9d720e88ed2faa3b919abccf".
Proof. vm_compute. reflexivity. Qed.

(** An anonymous series: the result index 3 is part of the payload
    [1|2|cpu: unknown|{...}|3]. *)
Example Key_anonymous_series :
  KeyForSeriesWithRule 1 2 "cpu: unknown"
    (Some {[ "env" := "prod"; "app" := "x" ]}) 3 =
  "39bc6cb14e217a88092e4afe89d4011e9aa3f8b6575e4ba1738811c53694def7".
Proof. vm_compute. reflexivity. Qed.

(** With an instance label the index does not count. *)
Example Key_named_series :
  KeyForSeriesWithRule 1 2 "cpu: h1" (Some {[ "instance" := "h1" ]}) 3 =
  KeyForSeriesWithRule 1 2 "cpu: h1" (Some {[ "instance" := "h1" ]}) 0.
Proof. vm_compute. reflexivity. Qed.

(** Two orders of insertion, one fingerprint. *)
Example Key_insertion_order :
  Key 1 "Alert" (Some (<["a" := "1"]> (<["b" := "2"]> ∅))) =
  Key 1 "Alert" (Some (<["b" := "2"]> (<["a" := "1"]> ∅))).
Proof. vm_compute. reflexivity. Qed.

(** The statement at two lists that hold the same pairs in two orders. *)
Lemma fingerprint_canonical_witness :
  let l1 := [("job", "api"); ("env", "prod")] in
  let l2 := [("env", "prod"); ("job", "api")] in
  KeyForSeriesWithRule 1 2 "cpu: unknown" (Some (list_to_map l1)) 0 =
  KeyForSeriesWithRule 1 2 "cpu: unknown" (Some (list_to_map l2)) 0 /\
  keyWithDisambiguator 1 "cpu: unknown" (Some (list_to_map l1)) 0 =
  keyWithDisambiguator 1 "cpu: unknown" (Some (list_to_map l2)) 0.
Proof.
  intros l1 l2.
  destruct (fingerprint_canonical 1 2 "cpu: unknown" None 0)
    as (_ & _ & _ & Hperm).
  apply (Hperm l1 l2).
  - apply (bool_decide_unpack _). vm_compute. exact I.
  - apply perm_swap.
Defined.

End dedup_spec.

(** ** Reasoning about the state monad *)

Module world_facts.
Import world.

(** [m] run from [w] ends in a world related to [w]. *)
Definition preserves {A} (R : relation World) (m : M A) : Prop :=
  forall w, R w (exec m w).

(** The relation of two worlds that agree on one component. *)
Definition keeps {X} (f : World -> X) : relation World :=
  fun w w' => f w' = f w.

#[global] Instance keeps_preorder {X} (f : World -> X) : PreOrder (keeps f).
Proof.
  split; [intros w; reflexivity|].
  intros w1 w2 w3 H12 H23. unfold keeps in *. congruence.
Qed.

Lemma preserves_ret {A} (R : relation World) `{!Reflexive R} (x : A) :
  preserves R (mret x).
Proof. intros w. apply reflexivity. Qed.

Lemma preserves_bind {A B} (R : relation World) `{!Transitive R}
    (m : M A) (f : A -> M B) :
  preserves R m -> (forall x, preserves R (f x)) -> preserves R (m ≫= f).
Proof.
  intros Hm Hf w. specialize (Hm w). unfold exec in *.
  unfold mbind, M_bind. destruct (m w) as [x w']. simpl in *.
  etransitivity; [exact Hm | apply Hf].
Qed.

Lemma preserves_for_each {A} (R : relation World) `{!PreOrder R}
    (l : list A) (body : A -> M unit) :
  (forall x, preserves R (body x)) -> preserves R (for_each l body).
Proof.
  intros Hb. induction l as [|x l IH]; simpl.
  - apply preserves_ret, _.
  - apply preserves_bind; [apply _ | apply Hb | intros _; exact IH].
Qed.

(** Running a bind, step by step. *)
Lemma run_bind {A B} (m : M A) (f : A -> M B) (w : World) :
  (m ≫= f) w = f (fst (m w)) (snd (m w)).
Proof. unfold mbind, M_bind. destruct (m w); reflexivity. Qed.

Lemma exec_bind {A B} (m : M A) (f : A -> M B) (w : World) :
  exec (m ≫= f) w = exec (f (eval m w)) (exec m w).
Proof. unfold exec, eval. rewrite run_bind. reflexivity. Qed.

Lemma eval_bind {A B} (m : M A) (f : A -> M B) (w : World) :
  eval (m ≫= f) w = eval (f (eval m w)) (exec m w).
Proof. unfold exec, eval. rewrite run_bind. reflexivity. Qed.

(** Only the clock was read between two worlds. *)
Definition advances (w w' : World) : Prop :=
  (ticks w <= ticks w')%nat /\ w' = set_ticks (ticks w') w.

Lemma set_ticks_same (w : World) : set_ticks (ticks w) w = w.
Proof. destruct w; reflexivity. Qed.

#[global] Instance advances_preorder : PreOrder advances.
Proof.
  split.
  - intros w. split; [lia | symmetry; apply set_ticks_same].
  - intros w1 w2 w3 [L12 E12] [L23 E23]. split; [lia|].
    rewrite E23, E12. reflexivity.
Qed.

(** Nothing was sent and nothing was recorded between two worlds, and
    the clock did not go back. *)
Definition quiet (w w' : World) : Prop :=
  sent w' = sent w /\ send_records w' = send_records w /\
  env w' = env w /\ (ticks w <= ticks w')%nat.

#[global] Instance quiet_preorder : PreOrder quiet.
Proof.
  split.
  - intros w. repeat split; lia.
  - intros w1 w2 w3 (A1 & B1 & C1 & D1) (A2 & B2 & C2 & D2).
    repeat split; try congruence; lia.
Qed.

Lemma advances_quiet (w w' : World) : advances w w' -> quiet w w'.
Proof. intros [L E]. rewrite E. repeat split; simpl; lia. Qed.

End world_facts.


#[export] Hint Unfold
  world.now world.new_uuid world.faulty world.Send world.CreateIssue
  world.get world.modify
  world.First_firing world.Find_firing world.Find_by_id world.First_by_id
  world.stored world.Save world.Save_checked world.Create world.Create_checked
  world.Count_sent world.Create_record world.First_channel
  world.Find_enabled_rules world.Count_silences
  engine.IsSilenced engine.ProcessAlertAsync engine.durationSatisfied
  engine.inExcludeWindow engine.updateSuppressionWindow engine.suppressed
  engine.recoveryAlreadySent engine.sendRateLimited engine.tryCreateJiraTicket
  engine.deliver engine.deliver_recovery engine.dispatch engine.recover engine.sendAggregated engine.process_rule
  engine.ProcessAlert : program.

(** Frame goals: a relation between the worlds before and after holds
    across every step of a program; [leaf] proves it of the primitive
    steps. *)
Ltac frame_with leaf :=
  repeat first
    [ apply world_facts.preserves_ret; apply _
    | apply world_facts.preserves_bind; [apply _ | | intros ?]
    | apply world_facts.preserves_for_each; [apply _ | intros ?]
    | match goal with
      | |- world_facts.preserves _ (if ?b then _ else _) => destruct b
      | |- world_facts.preserves _ (match ?x with _ => _ end) => destruct x
      end
    | progress autounfold with program
    | leaf ].

Ltac frame := frame_with ltac:(intros ?; reflexivity).

Ltac frame_advances :=
  frame_with ltac:(intros ?;
                   first [ apply (reflexivity (R := world_facts.advances))
                         | split; [simpl; lia | reflexivity] ]).

Ltac frame_quiet :=
  frame_with ltac:(intros ?; repeat split; simpl; first [reflexivity | lia]).

(** ** The engine leaves the alerts of the store alone *)

Module engine_frame.
Import models world world_facts engine.

Section with_runtime.
Context `{!Go.Runtime, !engine.Runtime}.

Lemma ProcessAlert_keeps_alerts (alert : Alert.t) :
  preserves (keeps alerts) (ProcessAlert alert).
Proof. frame. Qed.

Lemma ProcessAlert_keeps_env (alert : Alert.t) :
  preserves (keeps env) (ProcessAlert alert).
Proof. frame. Qed.

Lemma dispatch_keeps_aggLastSent r alert title body chID :
  preserves (keeps aggLastSent) (dispatch r alert title body chID).
Proof. frame. Qed.

End with_runtime.
End engine_frame.

(** ** The gates of the engine *)

Module engine_gates.
Import models world world_facts engine.

Section with_runtime.
Context `{!Go.Runtime, !engine.Runtime}.

(** The gates read the clock and nothing else. *)
Lemma durationSatisfied_advances r a : preserves advances (durationSatisfied r a).
Proof. frame_advances. Qed.

Lemma inExcludeWindow_advances r : preserves advances (inExcludeWindow r).
Proof. frame_advances. Qed.

Lemma suppressed_advances r labels : preserves advances (suppressed r labels).
Proof. frame_advances. Qed.

Lemma sendRateLimited_advances r id ch :
  preserves advances (sendRateLimited r id ch).
Proof. frame_advances. Qed.

Lemma recoveryAlreadySent_advances id ch :
  preserves advances (recoveryAlreadySent id ch).
Proof. frame_advances. Qed.

Lemma updateSuppressionWindow_quiet r labels :
  preserves quiet (updateSuppressionWindow r labels).
Proof. frame_quiet. Qed.

(** A dispatch never turns the clock back. *)
Definition later_than (w w' : World) : Prop := (ticks w <= ticks w')%nat.

#[global] Instance later_than_preorder : PreOrder later_than.
Proof. split; [intros w | intros w1 w2 w3]; unfold later_than; lia. Qed.

Lemma dispatches_advance r alert title body channelIDs :
  preserves later_than (for_each channelIDs (dispatch r alert title body)).
Proof.
  frame_with ltac:(intros ?; unfold later_than, exec; simpl; lia).
Qed.

(** *** The exclude windows *)

Lemma parseHM_range (s : string) :
  parseHM s = -1 \/ 0 <= parseHM s < 1440.
Proof.
  unfold parseHM. destruct (Go.Sscanf_d_colon_d s) as [[h m]|]; [|now left].
  destruct (Z.ltb_spec h 0), (Z.ltb_spec 23 h), (Z.ltb_spec m 0),
    (Z.ltb_spec 59 m); simpl; try (now left). right. lia.
Qed.

Lemma parseHM_parsed (s : string) :
  parseHM s <> -1 <->
  exists h m, Go.Sscanf_d_colon_d s = Some (h, m) /\
              0 <= h <= 23 /\ 0 <= m <= 59 /\ parseHM s = h * 60 + m.
Proof.
  unfold parseHM. destruct (Go.Sscanf_d_colon_d s) as [[h m]|].
  - destruct (Z.ltb_spec h 0), (Z.ltb_spec 23 h), (Z.ltb_spec m 0),
      (Z.ltb_spec 59 m); simpl;
      (split; [intros Hne; try congruence
              | intros (h' & m' & [= <- <-] & ? & ? & ?); try lia]).
    exists h, m. repeat split; lia.
  - split; [congruence | intros (h & m & ? & _); discriminate].
Qed.

Lemma window_covers_spec (hm : Z) (w : window) :
  let s := parseHM (Start w) in
  let e := parseHM (End_ w) in
  (s < 0 \/ e < 0 -> window_covers hm w = false) /\
  (0 <= s -> 0 <= e -> s <= e -> (window_covers hm w = true <-> s <= hm < e)) /\
  (0 <= s -> 0 <= e -> e < s -> (window_covers hm w = true <-> s <= hm \/ hm < e)).
Proof.
  intros s e. unfold window_covers. fold s e.
  destruct (Z.ltb_spec s 0), (Z.ltb_spec e 0), (Z.leb_spec s e),
    (Z.leb_spec s hm), (Z.ltb_spec hm e); simpl;
    repeat split; intros; try lia; try reflexivity; try discriminate; auto.
Qed.

(** The decision of the gate at an instant. *)
Definition excluded_at (r : Rule.t) (t : Go.Time) : bool :=
  if String.eqb (Rule.ExcludeWindows r) "" then false
  else
    let '(windows, err) := json_unmarshal_windows (Rule.ExcludeWindows r) in
    if err || (length windows =? 0)%nat then false
    else existsb (window_covers (Go.minute_of_day t)) windows.

Lemma inExcludeWindow_eval (r : Rule.t) (w : World) :
  eval (inExcludeWindow r) w = excluded_at r (clock (env w) (ticks w)).
Proof.
  unfold inExcludeWindow, excluded_at.
  destruct (String.eqb _ _); [reflexivity|].
  destruct (json_unmarshal_windows _) as [ws err].
  destruct (err || _); reflexivity.
Qed.

Lemma excluded_at_spec (r : Rule.t) (t : Go.Time) :
  excluded_at r t = true <->
  Rule.ExcludeWindows r <> "" /\
  snd (json_unmarshal_windows (Rule.ExcludeWindows r)) = false /\
  exists w, w ∈ fst (json_unmarshal_windows (Rule.ExcludeWindows r)) /\
            window_covers (Go.minute_of_day t) w = true.
Proof.
  unfold excluded_at.
  destruct (String.eqb_spec (Rule.ExcludeWindows r) "") as [E|E].
  { split; [discriminate | intros (? & _); congruence]. }
  destruct (json_unmarshal_windows _) as [ws err]. simpl.
  destruct err; simpl.
  { split; [discriminate | intros (_ & ? & _); congruence]. }
  destruct ws as [|w0 ws]; simpl.
  { split; [discriminate | intros (_ & _ & w & Hw & _); inversion Hw]. }
  change (window_covers (Go.minute_of_day t) w0
          || existsb (window_covers (Go.minute_of_day t)) ws)
    with (existsb (window_covers (Go.minute_of_day t)) (w0 :: ws)).
  rewrite existsb_exists. split.
  - intros (w & Hin & Hc). repeat split; auto. exists w.
    split; [now apply list_elem_of_In | assumption].
  - intros (_ & _ & w & Hin & Hc). exists w.
    split; [now apply list_elem_of_In | assumption].
Qed.

(** The world in which [process_rule] reads the gate of the exclude
    windows: the suppression window of the rule was refreshed and the
    duration of the rule was checked. *)
Definition at_gate (alert : Alert.t) (labels : gmap string string)
    (r : Rule.t) (w : World) : World :=
  exec (durationSatisfied r alert) (exec (updateSuppressionWindow r labels) w).

(** Each of the two steps before the gate reads the clock at most once,
    and neither touches the outside. *)
Lemma updateSuppressionWindow_reads (r : Rule.t) (labels : gmap string string)
    (w : World) :
  let w1 := exec (updateSuppressionWindow r labels) w in
  env w1 = env w /\ (ticks w <= ticks w1 <= ticks w + 1)%nat.
Proof.
  unfold updateSuppressionWindow, exec.
  destruct (String.eqb _ _); [simpl; split; [reflexivity|lia]|].
  destruct (json_unmarshal_suppression _) as [cfg err].
  destruct (err || _); [simpl; split; [reflexivity|lia]|].
  destruct (negb _); [simpl; split; [reflexivity|lia]|].
  destruct (Go.ParseDuration _); simpl; split; (reflexivity || lia).
Qed.

Lemma durationSatisfied_reads (r : Rule.t) (a : Alert.t) (w : World) :
  let w1 := exec (durationSatisfied r a) w in
  env w1 = env w /\ (ticks w <= ticks w1 <= ticks w + 1)%nat.
Proof.
  unfold durationSatisfied, exec.
  destruct (_ || _); [simpl; split; [reflexivity|lia]|].
  destruct (Go.ParseDuration _); simpl; split; (reflexivity || lia).
Qed.

Lemma at_gate_reading (alert : Alert.t) (labels : gmap string string)
    (r : Rule.t) (w : World) :
  env (at_gate alert labels r w) = env w /\
  (ticks w <= ticks (at_gate alert labels r w) <= ticks w + 2)%nat.
Proof.
  unfold at_gate.
  destruct (updateSuppressionWindow_reads r labels w) as [E1 T1].
  destruct (durationSatisfied_reads r alert
              (exec (updateSuppressionWindow r labels) w)) as [E2 T2].
  cbv zeta in E1, T1, E2, T2. split; [congruence | lia].
Qed.

(** A firing alert met by a rule whose gate holds when [process_rule]
    reads it: nothing is sent and nothing is recorded. *)
Lemma process_rule_excluded (alert : Alert.t) (labels : gmap string string)
    (r : Rule.t) (w : World) :
  Alert.Status alert = "firing" ->
  eval (inExcludeWindow r) (at_gate alert labels r w) = true ->
  quiet w (exec (process_rule alert labels r) w).
Proof.
  intros Hfiring Hin. unfold at_gate in Hin. unfold process_rule.
  rewrite exec_bind.
  pose proof (updateSuppressionWindow_quiet r labels w) as Q1.
  set (w1 := exec (updateSuppressionWindow r labels) w) in *.
  destruct (matchRule r alert labels); simpl; [|exact Q1].
  destruct (_ =? _)%nat; simpl; [exact Q1|].
  rewrite Hfiring. simpl.
  rewrite exec_bind.
  pose proof (advances_quiet _ _ (durationSatisfied_advances r alert w1)) as Q2.
  set (w2 := exec (durationSatisfied r alert) w1) in *.
  assert (Q12 : quiet w w2) by (etransitivity; eassumption).
  destruct (eval (durationSatisfied r alert) w1); simpl; [|exact Q12].
  rewrite exec_bind.
  pose proof (advances_quiet _ _ (inExcludeWindow_advances r w2)) as Q3.
  rewrite Hin.
  simpl. etransitivity; [exact Q12 | exact Q3].
Qed.

(** C9. For a window [{start, end}] and the local minute of the day
    [hm]: a time that does not scan as [h:m] with [h] in 0..23 and [m] in
    0..59 makes the window ignored; when [start <= end] the window is
    [start <= hm < end], empty when [start = end]; when [start > end] it
    wraps midnight, [hm >= start] or [hm < end].  The gate of a rule, read
    in any world, holds exactly when its windows decode and one of them
    covers the local minute of that reading of the clock.
    [process_rule] reads the gate after it refreshed the suppression
    window and checked the duration, that is at one of the three
    readings of the clock that follow; when the gate holds at that
    reading, a firing alert produces no sender call and no send record
    for that rule; and processing an alert never changes the persisted
    alerts. *)
Theorem exclude_window_gate (r : Rule.t) (win : window) (hm : Z)
    (alert : Alert.t) (labels : gmap string string) (w : World) :
  let s := parseHM (Start win) in
  let e := parseHM (End_ win) in
  (forall text, parseHM text = -1 \/ 0 <= parseHM text < 1440) /\
  (forall text,
     parseHM text <> -1 <->
     exists h m, Go.Sscanf_d_colon_d text = Some (h, m) /\
                 0 <= h <= 23 /\ 0 <= m <= 59 /\ parseHM text = h * 60 + m) /\
  (s < 0 \/ e < 0 -> window_covers hm win = false) /\
  (0 <= s -> 0 <= e -> s <= e -> (window_covers hm win = true <-> s <= hm < e)) /\
  (0 <= s -> s = e -> window_covers hm win = false) /\
  (0 <= s -> 0 <= e -> e < s ->
   (window_covers hm win = true <-> s <= hm \/ hm < e)) /\
  (forall w0 : World,
     eval (inExcludeWindow r) w0 = true <->
     Rule.ExcludeWindows r <> "" /\
     snd (json_unmarshal_windows (Rule.ExcludeWindows r)) = false /\
     exists w', w' ∈ fst (json_unmarshal_windows (Rule.ExcludeWindows r)) /\
        window_covers (Go.minute_of_day (clock (env w0) (ticks w0))) w' = true) /\
  (env (at_gate alert labels r w) = env w /\
   (ticks w <= ticks (at_gate alert labels r w) <= ticks w + 2)%nat) /\
  (Alert.Status alert = "firing" ->
   eval (inExcludeWindow r) (at_gate alert labels r w) = true ->
   sent (exec (process_rule alert labels r) w) = sent w /\
   send_records (exec (process_rule alert labels r) w) = send_records w) /\
  alerts (exec (ProcessAlert alert) w) = alerts w.
Proof.
  intros s e.
  destruct (window_covers_spec hm win) as (W1 & W2 & W3). fold s e in W1, W2, W3.
  split; [apply parseHM_range|].
  split; [apply parseHM_parsed|].
  split; [exact W1|]. split; [exact W2|].
  split. { intros Hs He. destruct (window_covers hm win) eqn:E; [|reflexivity].
           assert (s <= hm < e) by (apply W2; [lia | lia | lia | reflexivity]).
           lia. }
  split; [exact W3|].
  split. { intros w0. rewrite inExcludeWindow_eval. apply excluded_at_spec. }
  split; [apply at_gate_reading|].
  split.
  - intros Hf Hin.
    destruct (process_rule_excluded alert labels r w Hf Hin) as (A & B & _).
    split; assumption.
  - apply engine_frame.ProcessAlert_keeps_alerts.
Qed.

End with_runtime.
End engine_gates.

(** ** The send interval *)

Module engine_rate.
Import models world world_facts engine.




Lemma count_positive {A} (f : A -> bool) (l : list A) :
  (0 <? Z.of_nat (length (List.filter f l))) = existsb f l.
Proof.
  induction l as [|x l IH]; simpl; [reflexivity|].
  destruct (f x); simpl; [|exact IH].
  apply Z.ltb_lt. lia.
Qed.

Section with_runtime.
Context `{!Go.Runtime, !engine.Runtime}.




Lemma sendRateLimited_unparsed (r : Rule.t) (alertID : string) (chID : N)
    (w : World) :
  Go.ParseDuration (Rule.SendInterval r) = None ->
  sendRateLimited r alertID chID w = (false, w).
Proof.
  intros Hd. unfold sendRateLimited. rewrite Hd.
  destruct (_ || _); reflexivity.
Qed.


(** C10. A duration field that is neither empty nor ["0"] and does not
    parse opens its gate: the duration gate is satisfied whatever the
    time the alert has been firing, and the send interval throttles
    nothing, so that the dispatch goes on to the channel. *)
Theorem malformed_durations_fail_open (r : Rule.t) (a : Alert.t) (chID : N)
    (w : World) :
  (Rule.Duration r <> "" -> Rule.Duration r <> "0" ->
   Go.ParseDuration (Rule.Duration r) = None ->
   durationSatisfied r a w = (true, w)) /\
  (Rule.SendInterval r <> "" -> Rule.SendInterval r <> "0" ->
   Go.ParseDuration (Rule.SendInterval r) = None ->
   sendRateLimited r (Alert.ID a) chID w = (false, w) /\
   forall title body,
     dispatch r a title body chID w = deliver a title body chID w).
Proof.
  split.
  - intros _ _ Hd. unfold durationSatisfied. rewrite Hd.
    destruct (_ || _); reflexivity.
  - intros _ _ Hd. split; [now apply sendRateLimited_unparsed|].
    intros title body. unfold dispatch. rewrite run_bind.
    rewrite sendRateLimited_unparsed by exact Hd. reflexivity.
Qed.


(** One firing dispatch of a rule: an alert, the title and the body of
    its notification, and a channel. *)
Record Job := {
  job_alert : Alert.t;
  job_title : string;
  job_body : string;
  job_channel : N
}.

(** Firing dispatches of one rule, run one after the other. *)
Definition dispatches (r : Rule.t) (jobs : list Job) : M unit :=
  for_each jobs (fun j => dispatch r (job_alert j) (job_title j) (job_body j)
                                   (job_channel j)).









End with_runtime.

Section throttle.
Context `{!Go.Runtime, !engine.Runtime, !delivery.Runtime}.


End throttle.
End engine_rate.
(** ** Concrete worlds *)

Module scenarios.
Import models world engine reference thresholds_spec.

(** An instant of the year 2025, 10:00:00 in the local zone (UTC+8). *)
Definition T0 : Go.Time := civil 2025 3 1 2 0 0.

Definition ms : Go.Duration := 1000000.

(** An outside in which the clock gains a millisecond at each reading,
    the store works, and every send and every ticket succeeds. *)
Definition calm : Env :=
  {| clock := fun n => T0 + Z.of_nat n * ms;
     uuid := fun n => "uuid-" +:+ pretty n;
     fault := fun _ => false;
     transport := fun _ _ => None;
     tracker := fun _ _ => Some "OPS-1";
     render := fun _ a _ _ _ => "Title: " +:+ Alert.Title a |}.

(** The same outside with every transport down. *)
Definition offline : Env :=
  {| clock := clock calm; uuid := uuid calm; fault := fault calm;
     transport := fun _ _ => Some "send failed after 3 attempts";
     tracker := tracker calm; render := render calm |}.

(** The same outside with a clock that starts later. *)
Definition later (d : Go.Duration) (e : Env) : Env :=
  {| clock := fun n => clock e n + d; uuid := uuid e; fault := fault e;
     transport := transport e; tracker := tracker e; render := render e |}.

Definition with_env (e : Env) (w : World) : World :=
  {| env := e; alerts := alerts w; rules := rules w; channels := channels w;
     send_records := send_records w; silences := silences w;
     jira_created := jira_created w;
     suppressionWindows := suppressionWindows w; aggLastSent := aggLastSent w;
     alertQueue := alertQueue w; spawned := spawned w; ticks := ticks w;
     minted := minted w; inspected := inspected w; sent := sent w;
     issues := issues w |}.

Definition world_of (e : Env) (rs : list Rule.t) (chs : list Channel.t)
    (als : list Alert.t) : World :=
  {| env := e; alerts := als; rules := rs; channels := chs;
     send_records := []; silences := []; jira_created := [];
     suppressionWindows := ∅; aggLastSent := ∅; alertQueue := [];
     spawned := []; ticks := 0; minted := 0; inspected := 0; sent := [];
     issues := [] |}.

(** A rule that matches every alert and routes to the given channels;
    the arguments are the fields that the scenarios vary. *)
Definition rule (id : N) (channelIDs : string) (recovery : bool)
    (duration sendInterval excludeWindows : string) (aggregateBy : string)
  : Rule.t :=
  {| Rule.ID := id; Rule.Name := "rule"; Rule.Description := "";
     Rule.Enabled := true; Rule.Priority := 0; Rule.DatasourceIDs := "";
     Rule.QueryExpression := "up == 0"; Rule.MatchLabels := "";
     Rule.MatchSeverity := ""; Rule.ChannelIDs := channelIDs;
     Rule.TemplateID := None; Rule.CheckInterval := "1m";
     Rule.Duration := duration; Rule.ExcludeWindows := excludeWindows;
     Rule.RecoveryNotify := recovery; Rule.SendInterval := sendInterval;
     Rule.AggregationEnabled := negb (String.eqb aggregateBy "");
     Rule.AggregateBy := aggregateBy; Rule.AggregateWindow := "5m";
     Rule.Suppression := ""; Rule.Thresholds := "";
     Rule.JiraEnabled := false; Rule.JiraAfterN := 3; Rule.JiraConfig := "" |}.

Definition channel (id : N) (enabled : bool) : Channel.t :=
  {| Channel.ID := id; Channel.Type_ := "lark";
     Channel.Config :=
       "https://open.larksuite.com/open-apis/bot/v2/hook/0a1b2c3d-0000-4000-8000-0123456789ab";
     Channel.Enabled := enabled |}.

Definition alert (id status : string) (firingAt : Go.Time)
    (labels : gmap string string) : Alert.t :=
  {| Alert.ID := id; Alert.SourceID := 1; Alert.SourceType := "prometheus";
     Alert.ExternalID := dedup.Key 1 "disk full" (Some labels);
     Alert.Title := "disk full"; Alert.Severity := "warning";
     Alert.Status := status; Alert.FiringAt := firingAt;
     Alert.ResolvedAt := None; Alert.Labels := Go.Marshal_map (Some labels);
     Alert.Annotations := "{}"; Alert.CreatedAt := firingAt;
     Alert.UpdatedAt := firingAt |}.

(** What a scenario looks at: the calls to the senders and the log. *)
Definition outcome (w : World) : list (bool * string) * list (N * bool * string) :=
  (List.map (fun c => (isRecovery c, title c)) (sent w),
   List.map (fun r => (AlertSendRecord.ChannelID r, AlertSendRecord.Success r,
                       AlertSendRecord.Error r)) (send_records w)).

End scenarios.

(** ** Recovery and aggregated dispatch *)

Module engine_dispatch.
Import models world world_facts engine.

Section with_runtime.
Context `{!Go.Runtime, !engine.Runtime}.

(** *** The recovery branch, channel by channel *)

(** What one iteration of the recovery loop leaves, case by case. *)
Lemma recover_cases (alert : Alert.t) (title body : string) (chID : N)
    (w : World) :
  let t := clock (env w) (ticks w) in
  let w1 := set_ticks (S (ticks w)) w in
  let w' := exec (recover alert title body chID) w in
  let already :=
    existsb (record_matches (Alert.ID alert) chID (t - 2 * Go.Minute))
            (send_records w) in
  let found :=
    if fault (env w) (inspected w) then None
    else List.find (fun c => N.eqb (Channel.ID c) chID) (channels w) in
  (already = true -> w' = w1) /\
  (already = false ->
   match found with
   | None => w' = set_inspected (S (inspected w)) w1
   | Some ch =>
       if Channel.Enabled ch then
         let call := {| channelType := Channel.Type_ ch;
                        configJSON := Channel.Config ch;
                        title := title; body := body; isRecovery := true |} in
         sent w' = sent w ++ [call] /\
         send_records w' = send_records w ++
           [{| AlertSendRecord.AlertID := Alert.ID alert;
               AlertSendRecord.ChannelID := chID;
               AlertSendRecord.Success :=
                 bool_decide (transport (env w) (length (sent w)) call = None);
               AlertSendRecord.Error :=
                 default "" (transport (env w) (length (sent w)) call);
               AlertSendRecord.CreatedAt := clock (env w) (S (ticks w)) |}]
       else w' = set_inspected (S (inspected w)) w1
   end).
Proof.
  intros t w1 w' already found.
  assert (Hgate : recoveryAlreadySent (Alert.ID alert) chID w = (already, w1)).
  { unfold recoveryAlreadySent, already.
    rewrite <- engine_rate.count_positive. reflexivity. }
  unfold w', recover, exec. rewrite run_bind, Hgate. simpl.
  split; intros Ha; rewrite Ha; [reflexivity|].
  unfold deliver_recovery. rewrite run_bind.
  change (fst (First_channel chID w1)) with found.
  change (snd (First_channel chID w1)) with (set_inspected (S (inspected w)) w1).
  destruct found as [ch|]; [|reflexivity].
  destruct (Channel.Enabled ch); [|reflexivity].
  rewrite run_bind. simpl.
  destruct (transport (env w) (length (sent w)) _); simpl; split; reflexivity.
Qed.

(** *** The aggregated dispatch *)

Lemma dispatches_keep_aggLastSent r alert title body channelIDs :
  preserves (keeps aggLastSent)
            (for_each channelIDs (dispatch r alert title body)).
Proof. frame. Qed.

Lemma dispatches_keep_env r alert title body channelIDs :
  preserves (keeps env) (for_each channelIDs (dispatch r alert title body)).
Proof. frame. Qed.

(** The last step of an aggregated dispatch: the clock is recorded for
    the pair. *)
Definition finish (key : string) (w : World) : World :=
  set_aggLastSent (<[key := clock (env w) (ticks w)]> (aggLastSent w))
                  (set_ticks (S (ticks w)) w).

(** The world that an aggregated dispatch leaves, branch by branch. *)
Lemma sendAggregated_run (r : Rule.t) (alert : Alert.t)
    (labels : gmap string string) (title body : string)
    (channelIDs : list N) (w : World) :
  let d := aggregate_window r in
  let key := aggStateKey r (typeFingerprint labels (Rule.AggregateBy r)) in
  let lastSent := default 0 (aggLastSent w !! key) in
  let candidates :=
    List.filter (is_candidate (clock (env w) (ticks w) - d)) (alerts w) in
  let keysSeen := keys_seen r alert labels candidates in
  let w1 := set_inspected (S (inspected w)) (set_ticks (S (ticks w)) w) in
  let w2 := if Go.IsZero lastSent then w1
            else set_ticks (S (S (ticks w))) w1 in
  exec (sendAggregated r alert labels title body channelIDs) w =
  if fault (env w) (inspected w) || (length candidates =? 0)%nat then w1
  else if negb (Go.IsZero lastSent)
          && (Go.Sub (clock (env w) (S (ticks w))) lastSent <? d)
       then w2
       else finish key
              (exec (for_each channelIDs
                       (dispatch r alert (aggTitle r title keysSeen)
                                 (aggBody r body keysSeen))) w2).
Proof.
  destruct w as [e al rs chs recs sil jira supp agg q sp tk mi ins st iss].
  unfold sendAggregated, exec, now, faulty, get, mbind, M_bind, finish.
  cbn -[for_each dispatch aggTitle aggBody keys_seen is_candidate
        aggregate_window typeFingerprint aggStateKey Go.Sub Go.IsZero].
  unfold Go.Add.
  change (clock e tk + - aggregate_window r)
    with (clock e tk - aggregate_window r).
  destruct (_ || _); [reflexivity|].
  destruct (Go.IsZero _); cbn -[for_each dispatch aggTitle aggBody keys_seen
        is_candidate aggregate_window typeFingerprint aggStateKey Go.Sub].
  - destruct (for_each _ _ _); reflexivity.
  - destruct (_ <? _); [reflexivity|].
    destruct (for_each _ _ _); reflexivity.
Qed.

(** The aggregated dispatch, by its branches.  With [d] the aggregate
    window of the rule and [lastSent] the instant recorded for
    [(ruleId, typeFingerprint)]: when
    an instant is recorded and [now - lastSent < d], the aggregated
    dispatch calls no sender, writes no record and leaves the recorded
    instant; otherwise, when the store returns candidates, the channels
    are dispatched and the clock is then recorded for the pair, whatever
    the senders returned. *)
Theorem aggregated_dedup (r : Rule.t) (alert : Alert.t)
    (labels : gmap string string) (title body : string)
    (channelIDs : list N) (w : World) :
  let d := aggregate_window r in
  let key := aggStateKey r (typeFingerprint labels (Rule.AggregateBy r)) in
  let lastSent := default 0 (aggLastSent w !! key) in
  let since := clock (env w) (ticks w) - d in
  let candidates := List.filter (is_candidate since) (alerts w) in
  let w' := exec (sendAggregated r alert labels title body channelIDs) w in
  (lastSent <> 0 -> Go.Sub (clock (env w) (S (ticks w))) lastSent < d ->
   sent w' = sent w /\ send_records w' = send_records w /\
   aggLastSent w' = aggLastSent w) /\
  (fault (env w) (inspected w) = false -> candidates <> [] ->
   lastSent = 0 \/ d <= Go.Sub (clock (env w) (S (ticks w))) lastSent ->
   exists n : nat,
     (ticks w < n)%nat /\
     aggLastSent w' = <[key := clock (env w) n]> (aggLastSent w)).
Proof.
  intros d key lastSent since candidates w'.
  pose proof (sendAggregated_run r alert labels title body channelIDs w) as Run.
  cbv zeta in Run. fold d key lastSent since candidates w' in Run.
  split.
  - intros Hnz Hrecent. rewrite Run.
    destruct (_ || _); [repeat split|].
    unfold Go.IsZero. destruct (Z.eqb_spec lastSent 0) as [E|_]; [congruence|].
    rewrite (proj2 (Z.ltb_lt _ _) Hrecent). repeat split.
  - intros Hok Hcand Hold. rewrite Run, Hok.
    destruct candidates as [|c0 cs]; [congruence|].
    cbn [orb length Nat.eqb].
    assert (Hnot : negb (Go.IsZero lastSent)
                   && (Go.Sub (clock (env w) (S (ticks w))) lastSent <? d)
                   = false).
    { unfold Go.IsZero. destruct (Z.eqb_spec lastSent 0) as [E|E];
        [reflexivity|]. simpl. apply Z.ltb_ge.
      destruct Hold; [congruence | assumption]. }
    rewrite Hnot.
    set (w2 := if Go.IsZero lastSent then _ else _).
    assert (Hw2 : env w2 = env w /\ aggLastSent w2 = aggLastSent w /\
                 (ticks w < ticks w2)%nat).
    { unfold w2. destruct (Go.IsZero lastSent); simpl; repeat split; lia. }
    destruct Hw2 as (E2 & A2 & T2).
    match goal with
    | |- context [exec (for_each channelIDs (dispatch r alert ?a ?b)) w2] =>
        pose proof (dispatches_keep_aggLastSent r alert a b channelIDs w2) as KA;
        pose proof (dispatches_keep_env r alert a b channelIDs w2) as KE;
        pose proof (engine_gates.dispatches_advance r alert a b channelIDs w2)
          as KT;
        set (w3 := exec (for_each channelIDs (dispatch r alert a b)) w2) in *
    end.
    unfold keeps, engine_gates.later_than in KA, KE, KT.
    exists (ticks w3). split; [lia|].
    unfold finish. simpl. rewrite KA, KE, A2, E2. reflexivity.
Qed.

End with_runtime.
End engine_dispatch.

(** ** The engine on concrete worlds *)

Module engine_examples.
Import models world world_facts engine reference scenarios.

Definition host (h : string) : gmap string string :=
  {[ "hostname" := h; "job" := "node" ]}.

(** An alert that has been firing for ten minutes, and the same alert
    once resolved. *)
Definition firing_alert : Alert.t :=
  alert "a-1" "firing" (T0 - 10 * Go.Minute) (host "h1").
Definition resolved_alert : Alert.t :=
  alert "a-1" "resolved" (T0 - 10 * Go.Minute) (host "h1").

(** *** Recovery to a disabled channel (C6) *)

Definition recovery_rule : Rule.t := rule 1 "[7]" true "" "" "" "".

Definition disabled_world : World :=
  world_of calm [recovery_rule] [channel 7 false] [resolved_alert].

(** C6 at its failing input.  The channel of the rule is disabled.  A
    resolved alert goes through the recovery branch and leaves no send
    record at all, where the claim has a failure record; the firing
    branch of the same function, on the same store, writes that
    record. *)
Lemma recovery_to_disabled_channel_unrecorded :
  outcome (exec (ProcessAlert resolved_alert) disabled_world) = ([], []) /\
  outcome (exec (ProcessAlert firing_alert) disabled_world) =
    ([], [(7%N, false, "channel not found or disabled")]).
Proof. vm_compute. split; reflexivity. Qed.

(** With the channel enabled the recovery is sent once, flagged as a
    recovery, and recorded; a second rule with the same channel finds the
    record and sends nothing (scenario S6). *)
Example S6_recovery_cross_rule :
  outcome (exec (ProcessAlert resolved_alert)
             (world_of calm [recovery_rule; rule 2 "[7]" true "" "" "" ""]
                       [channel 7 true] [resolved_alert])) =
  ([(true, "")], [(7%N, true, "")]).
Proof. vm_compute. reflexivity. Qed.

(** A failed recovery send is recorded with the text of the error. *)
Example recovery_failure_recorded :
  outcome (exec (ProcessAlert resolved_alert)
             (world_of offline [recovery_rule] [channel 7 true]
                       [resolved_alert])) =
  ([(true, "")], [(7%N, false, "send failed after 3 attempts")]).
Proof. vm_compute. reflexivity. Qed.

(** *** The aggregated dispatch when every send fails (C7) *)

Definition aggregating_rule : Rule.t := rule 1 "[7]" false "" "" "" "hostname".

Definition alert_h1 : Alert.t := alert "a-1" "firing" (T0 - Go.Minute) (host "h1").
Definition alert_h2 : Alert.t := alert "a-2" "firing" (T0 - Go.Minute) (host "h2").

Definition offline_world : World :=
  world_of offline [aggregating_rule] [channel 7 true] [alert_h1; alert_h2].

Definition type_key : string := "1_job=node;".

Example type_key_of_alert :
  aggStateKey aggregating_rule (typeFingerprint (host "h1") "hostname") = type_key.
Proof. vm_compute. reflexivity. Qed.

(** C7 at its failing input.  The channel is enabled and its webhook is
    well formed, but every transport is down: the aggregated dispatch of
    the first alert calls the sender once, records a failure and no
    success, and yet the instant of the dispatch is recorded for the
    pair, where the claim records it on success only; the alert of the
    second host, processed within the window, is then skipped without
    any call, so that no notification of the type went out in the
    window.  With the transports up the same two alerts give one
    successful notification, and the instant is recorded as well. *)
Lemma failed_aggregate_advances_last_sent :
  let w1 := exec (ProcessAlert alert_h1) offline_world in
  let w2 := exec (ProcessAlert alert_h2) w1 in
  let v1 := exec (ProcessAlert alert_h1) (with_env calm offline_world) in
  delivery.deliverable (channels offline_world) = true /\
  aggLastSent offline_world !! type_key = None /\
  outcome w1 = ([(false, "disk full (2 hostname)")],
                [(7%N, false, "send failed after 3 attempts")]) /\
  aggLastSent w1 !! type_key = Some (T0 + 4 * ms) /\
  outcome w2 = outcome w1 /\
  outcome v1 = ([(false, "disk full (2 hostname)")], [(7%N, true, "")]) /\
  aggLastSent v1 !! type_key = Some (T0 + 4 * ms).
Proof. vm_compute. repeat split; reflexivity. Qed.

(** Scenario S5 with two hosts: one notification names both, and the
    second alert sends nothing more. *)
Example S5_aggregation :
  let w := world_of calm [aggregating_rule] [channel 7 true]
                    [alert_h1; alert_h2] in
  let w1 := exec (ProcessAlert alert_h1) w in
  List.map (fun c => (title c, body c)) (sent w1) =
    [("disk full (2 hostname)",
      "Title: disk full" +:+ Go.LF +:+ Go.LF +:+
      "发送时间: 2025-03-01 10:00:00" +:+ Go.LF +:+ Go.LF +:+
      "hostname list: h1, h2")] /\
  sent (exec (ProcessAlert alert_h2) w1) = sent w1.
Proof. vm_compute. split; reflexivity. Qed.

(** The skip inside the window, at the world left by the failed
    dispatch. *)
Lemma aggregated_dedup_witness :
  let w1 := exec (ProcessAlert alert_h1) offline_world in
  let w' := exec (sendAggregated aggregating_rule alert_h2 (host "h2")
                    "disk full" "body" [7%N]) w1 in
  sent w' = sent w1 /\ send_records w' = send_records w1 /\
  aggLastSent w' = aggLastSent w1.
Proof.
  intros w1 w'.
  apply (proj1 (engine_dispatch.aggregated_dedup aggregating_rule alert_h2
                  (host "h2") "disk full" "body" [7%N] w1)).
  - vm_compute. discriminate.
  - vm_compute. reflexivity.
Defined.

(** *** The send interval (C4, scenario S3) *)

Definition paced_rule : Rule.t := rule 1 "[7]" false "" "5m" "" "".

Definition paced_world : World :=
  world_of calm [paced_rule] [channel 7 true] [firing_alert].

(** The world after a first notification, seen 90 seconds later. *)
Definition ninety_seconds_later : World :=
  with_env (later (90 * Go.Second) calm)
           (exec (ProcessAlert firing_alert) paced_world).

Example S3_first_send :
  outcome (exec (ProcessAlert firing_alert) paced_world) =
  ([(false, "disk full")], [(7%N, true, "")]).
Proof. vm_compute. reflexivity. Qed.

Example S3_second_send_throttled :
  outcome (exec (ProcessAlert firing_alert) ninety_seconds_later) =
  ([(false, "disk full")], [(7%N, true, "")]).
Proof. vm_compute. reflexivity. Qed.

(** Another alert under the same rule is not held back. *)
Example other_alert_not_throttled :
  outcome (exec (ProcessAlert (alert "a-2" "firing" (T0 - 10 * Go.Minute)
                                 (host "h2")))
             ninety_seconds_later) =
  ([(false, "disk full"); (false, "disk full")],
   [(7%N, true, ""); (7%N, true, "")]).
Proof. vm_compute. reflexivity. Qed.

(** The same alert dispatched three times in a row to the same channel. *)
Definition thrice : list engine_rate.Job :=
  let job := {| engine_rate.job_alert := firing_alert;
                engine_rate.job_title := "disk full";
                engine_rate.job_body := "body";
                engine_rate.job_channel := 7 |} in
  [job; job; job].


Example three_dispatches_one_record :
  outcome (exec (engine_rate.dispatches paced_rule thrice) paced_world) =
  ([(false, "disk full")], [(7%N, true, "")]).
Proof. vm_compute. reflexivity. Qed.





(** *** Malformed durations (C10) *)

Definition sloppy_rule : Rule.t := rule 1 "[7]" false "5 minutes" "soon" "" "".

(** The alert started firing one second ago and was notified a moment
    ago; the rule asks for five minutes of firing and for an interval,
    but both in words that do not parse: the alert is notified, and
    notified again. *)
Example malformed_rule_sends :
  let just_fired := alert "a-1" "firing" (T0 - Go.Second) (host "h1") in
  let w := world_of calm [sloppy_rule] [channel 7 true] [just_fired] in
  outcome (exec (ProcessAlert just_fired) (exec (ProcessAlert just_fired) w)) =
  ([(false, "disk full"); (false, "disk full")],
   [(7%N, true, ""); (7%N, true, "")]).
Proof. vm_compute. reflexivity. Qed.

Lemma malformed_durations_witness :
  let w := world_of calm [sloppy_rule] [channel 7 true] [firing_alert] in
  durationSatisfied sloppy_rule firing_alert w = (true, w) /\
  sendRateLimited sloppy_rule (Alert.ID firing_alert) 7 w = (false, w).
Proof.
  intros w.
  destruct (engine_rate.malformed_durations_fail_open sloppy_rule firing_alert
              7 w) as [Hd Hs].
  split.
  - apply Hd; [discriminate | discriminate | vm_compute; reflexivity].
  - apply Hs; [discriminate | discriminate | vm_compute; reflexivity].
Defined.

(** *** Exclude windows (C9) *)

(** An outside whose clock starts at 23:30 local time and gains a
    millisecond at each reading. *)
Definition night : Env := later (13 * Go.Hour + 30 * Go.Minute) calm.

Definition quiet_nights : string := js "[{'start':'22:00','end':'08:00'}]".

Definition night_rule : Rule.t := rule 1 "[7]" false "" "" quiet_nights "".

Example parseHM_tests :
  parseHM "22:00" = 22 * 60 /\ parseHM "08:30" = 8 * 60 + 30 /\
  parseHM "00:00" = 0 /\ parseHM "invalid" = -1 /\ parseHM "24:00" = -1 /\
  parseHM "12:60" = -1.
Proof. vm_compute. repeat split; reflexivity. Qed.

(** A window that wraps midnight, one that does not, an empty one, and
    one whose end does not parse. *)
Example window_tests :
  let covers a b hm := window_covers hm {| Start := a; End_ := b |} in
  covers "22:00" "08:00" (23 * 60 + 30) = true /\
  covers "22:00" "08:00" (7 * 60 + 59) = true /\
  covers "22:00" "08:00" (8 * 60) = false /\
  covers "22:00" "08:00" (12 * 60) = false /\
  covers "09:00" "17:00" (9 * 60) = true /\
  covers "09:00" "17:00" (17 * 60) = false /\
  covers "00:00" "00:00" 0 = false /\
  covers "09:00" "25:00" (10 * 60) = false.
Proof. vm_compute. repeat split; reflexivity. Qed.

Example night_is_excluded :
  let w := world_of night [night_rule] [channel 7 true] [firing_alert] in
  Go.minute_of_day (clock night 0) = 23 * 60 + 30 /\
  outcome (exec (ProcessAlert firing_alert) w) = ([], []) /\
  outcome (exec (ProcessAlert firing_alert) (with_env calm w)) =
    ([(false, "disk full")], [(7%N, true, "")]).
Proof. vm_compute. repeat split; reflexivity. Qed.

Lemma exclude_window_witness :
  let w := world_of night [night_rule] [channel 7 true] [firing_alert] in
  let w' := exec (process_rule firing_alert (host "h1") night_rule) w in
  sent w' = sent w /\ send_records w' = send_records w.
Proof.
  intros w w'.
  refine (proj1 (proj2 (proj2 (proj2 (proj2 (proj2 (proj2 (proj2 (proj2
            (engine_gates.exclude_window_gate night_rule
               {| Start := "22:00"; End_ := "08:00" |} 0 firing_alert
               (host "h1") w))))))))) _ _).
  - reflexivity.
  - vm_compute. reflexivity.
Defined.

End engine_examples.

(** ** Pushed alerts *)

Module inbound_spec.
Import models world world_facts inbound.

(** The row that the update in place writes over the firing row [old]:
    the title, the severity, the instant of firing, the labels and the
    annotations come from the payload, the stamp from the store. *)
Definition updated (old : Alert.t) (p : Pushed) (stamp : Go.Time) : Alert.t :=
  {| Alert.ID := Alert.ID old; Alert.SourceID := Alert.SourceID old;
     Alert.SourceType := Alert.SourceType old;
     Alert.ExternalID := Alert.ExternalID old;
     Alert.Title := title p; Alert.Severity := severity p;
     Alert.Status := Alert.Status old; Alert.FiringAt := firingAt p;
     Alert.ResolvedAt := Alert.ResolvedAt old; Alert.Labels := labelsJSON p;
     Alert.Annotations := annotationsJSON p;
     Alert.CreatedAt := Alert.CreatedAt old; Alert.UpdatedAt := stamp |}.

Lemma least_id_in (l : list Alert.t) (a : Alert.t) :
  least_id l = Some a -> a ∈ l.
Proof.
  revert a. induction l as [|b l IH]; intros a; simpl; [discriminate|].
  destruct (least_id l) as [c|].
  - destruct (String.leb _ _); intros [= <-]; [left | right; now apply IH].
  - intros [= <-]. left.
Qed.

Lemma First_firing_found (sourceID : N) (externalID : string) (w : World)
    (old : Alert.t) :
  eval (First_firing sourceID externalID) w = Some old ->
  fault (env w) (inspected w) = false /\ old ∈ alerts w /\
  is_firing sourceID externalID old = true.
Proof.
  unfold First_firing, eval, faulty, get, mbind, M_bind. simpl.
  destruct (fault (env w) (inspected w)); [discriminate|].
  intros Hl. apply least_id_in in Hl.
  apply list_elem_of_In, filter_In in Hl as [Hin Hf].
  repeat split; [now apply list_elem_of_In | assumption].
Qed.

Lemma has_id_refl (a : Alert.t) : has_id (Alert.ID a) a = true.
Proof. apply String.eqb_refl. Qed.

Lemma find_replace_row (a : Alert.t) (l : list Alert.t) :
  existsb (has_id (Alert.ID a)) l = true ->
  List.find (has_id (Alert.ID a)) (replace_row a l) = Some a.
Proof.
  induction l as [|b l IH]; simpl; [discriminate|].
  destruct (has_id (Alert.ID a) b) eqn:E; simpl.
  - intros _. rewrite has_id_refl. reflexivity.
  - intros H. rewrite E. apply IH, H.
Qed.

Lemma replace_row_other (a b : Alert.t) (l : list Alert.t) :
  has_id (Alert.ID a) b = false -> b ∈ l -> b ∈ replace_row a l.
Proof.
  intros Hb Hin. unfold replace_row. apply list_elem_of_In, in_map_iff.
  exists b. rewrite Hb. split; [reflexivity | now apply list_elem_of_In].
Qed.

Section with_runtime.
Context `{!Go.Runtime, !engine.Runtime}.

(** The update in place of [store_pushed]. *)
Lemma store_pushed_update (sourceID : N) (sourceType : string) (p : Pushed)
    (w : World) (old : Alert.t) :
  status p <> "resolved" ->
  eval (First_firing sourceID (externalID p)) w = Some old ->
  alerts (exec (store_pushed sourceID sourceType p) w) =
    replace_row (updated old p (clock (env w) (ticks w))) (alerts w) /\
  eval (store_pushed sourceID sourceType p) w = false.
Proof.
  intros Hst Hfound.
  destruct (First_firing_found _ _ _ _ Hfound) as (Hok & Hin & _).
  assert (Hex : existsb (has_id (Alert.ID old)) (alerts w) = true).
  { apply existsb_exists. exists old.
    split; [now apply list_elem_of_In | apply has_id_refl]. }
  unfold store_pushed, exec, eval. rewrite run_bind.
  fold (eval (First_firing sourceID (externalID p)) w). rewrite Hfound.
  destruct (String.eqb_spec (status p) "resolved") as [E|_]; [congruence|].
  set (w0 := snd (First_firing sourceID (externalID p) w)).
  assert (Hw0 : alerts w0 = alerts w /\ env w0 = env w /\ ticks w0 = ticks w).
  { unfold w0, First_firing, faulty, get, mbind, M_bind. simpl. auto. }
  destruct Hw0 as (A0 & E0 & T0).
  rewrite !run_bind.
  set (new := Alert.with_Annotations _ _).
  set (w1 := snd (Save new w0)).
  assert (A1 : alerts w1 =
               replace_row (updated old p (clock (env w) (ticks w))) (alerts w)).
  { unfold w1, Save, now, modify, mbind, M_bind, save_row. simpl.
    rewrite Hex. reflexivity. }
  set (w2 := snd (stored new w1)).
  assert (A2 : alerts w2 = alerts w1) by reflexivity.
  match goal with
  | |- context [engine.ProcessAlert ?a w2] =>
      pose proof (engine_frame.ProcessAlert_keeps_alerts a w2) as KA
  end.
  unfold keeps, exec in KA. unfold mret, M_ret. cbn [fst snd].
  split; [|reflexivity].
  rewrite KA, A2, A1. reflexivity.
Qed.

(** What the handlers take as the instant of firing: the parsed
    [startsAt] when there is one and it is not the zero instant, else the
    clock. *)
Lemma parse_firingAt_run (startsAt : string) (w : World) :
  let parsed :=
    if String.eqb startsAt "" then 0
    else default 0 (Go.Parse_RFC3339 startsAt) in
  parse_firingAt startsAt w =
  if parsed =? 0 then (clock (env w) (ticks w), set_ticks (S (ticks w)) w)
  else (parsed, w).
Proof.
  unfold parse_firingAt, Go.IsZero.
  destruct (String.eqb startsAt ""); simpl; [reflexivity|].
  destruct (_ =? 0); reflexivity.
Qed.

(** The update in place of a pushed firing alert.  [derive] is what a
    handler computes from the payload; the lookup is made in the world
    that this computation leaves. *)
Definition updates_in_place (sourceID : N) (sourceType : string)
    (derive : M Pushed) (w : World) (old : Alert.t) : Prop :=
  let p := eval derive w in
  let w0 := exec derive w in
  let w' := exec (p ← derive; store_pushed sourceID sourceType p) w in
  let new := updated old p (clock (env w0) (ticks w0)) in
  status p <> "resolved" ->
  eval (First_firing sourceID (externalID p)) w0 = Some old ->
  old ∈ alerts w /\
  alerts w' = replace_row new (alerts w) /\
  length (alerts w') = length (alerts w) /\
  List.find (has_id (Alert.ID old)) (alerts w') = Some new /\
  Alert.ID new = Alert.ID old /\
  Alert.FiringAt new = firingAt p /\
  Alert.Title new = title p /\ Alert.Severity new = severity p /\
  Alert.Labels new = labelsJSON p /\
  Alert.Annotations new = annotationsJSON p.

(** The instant of firing that a handler derives from [startsAt]. *)
Definition derived_firingAt (startsAt : string) (w : World) : Go.Time :=
  let parsed := if String.eqb startsAt "" then 0
                else default 0 (Go.Parse_RFC3339 startsAt) in
  if parsed =? 0 then clock (env w) (ticks w) else parsed.

(** The update in place, field by field.  When a firing payload
    arrives and the lookup finds a
    firing row for its [(sourceId, externalId)], both handlers update
    that row in place: no row is added, the row keeps its id (and its
    source, external id, status and creation stamp), and its title,
    severity, labels and annotations are those derived from the payload;
    its [firingAt] is not kept: it becomes the instant derived from the
    payload, the parsed [startsAt], or the clock when [startsAt] is
    absent, does not parse or is the zero instant. *)
Theorem webhook_firing_updates_in_place (ph : PrometheusHandler)
    (gh : GenericHandler) (sourceID : N) (pa : PrometheusAlert)
    (ga : GenericAlert) (w : World) (old : Alert.t) :
  (PrometheusHandler_alert ph sourceID pa =
     (p ← prometheus_pushed sourceID pa;
      store_pushed sourceID (ph_SourceType ph) p) /\
   updates_in_place sourceID (ph_SourceType ph)
     (prometheus_pushed sourceID pa) w old /\
   firingAt (eval (prometheus_pushed sourceID pa) w) =
     derived_firingAt (pa_StartsAt pa) w) /\
  (GenericHandler_alert gh sourceID ga =
     (p ← generic_pushed sourceID ga;
      store_pushed sourceID (gh_SourceType gh) p) /\
   updates_in_place sourceID (gh_SourceType gh)
     (generic_pushed sourceID ga) w old /\
   firingAt (eval (generic_pushed sourceID ga) w) =
     derived_firingAt (ga_StartsAt ga) w).
Proof.
  assert (Hupd : forall (sourceType : string) (derive : M Pushed),
    alerts (exec derive w) = alerts w ->
    updates_in_place sourceID sourceType derive w old).
  { intros sourceType derive Hkeep. unfold updates_in_place.
    set (p := eval derive w). set (w0 := exec derive w).
    set (w' := exec (derive ≫= _) w). set (new := updated old p _).
    intros Hst Hfound.
    destruct (First_firing_found _ _ _ _ Hfound) as (_ & Hin & _).
    destruct (store_pushed_update sourceID sourceType p w0 old Hst Hfound)
      as [Hal _].
    assert (Hw' : alerts w' = replace_row new (alerts w)).
    { unfold w'. rewrite exec_bind. fold p w0. rewrite Hal.
      unfold w0. rewrite Hkeep. reflexivity. }
    unfold w0 in Hin. rewrite Hkeep in Hin.
    split; [exact Hin|]. split; [exact Hw'|].
    split; [rewrite Hw'; apply length_map|].
    split; [|repeat split].
    rewrite Hw'. apply (find_replace_row new).
    apply existsb_exists. exists old.
    split; [now apply list_elem_of_In | exact (has_id_refl old)]. }
  assert (Hpf : forall startsAt,
    alerts (exec (parse_firingAt startsAt) w) = alerts w).
  { intros s. unfold exec. rewrite parse_firingAt_run.
    destruct (_ =? 0); reflexivity. }
  assert (Hfa : forall startsAt,
    eval (parse_firingAt startsAt) w = derived_firingAt startsAt w).
  { intros s. unfold eval, derived_firingAt. rewrite parse_firingAt_run. simpl.
    destruct (_ =? 0); reflexivity. }
  split.
  - split; [reflexivity|]. split.
    + apply Hupd. unfold prometheus_pushed. rewrite exec_bind. apply Hpf.
    + unfold prometheus_pushed. rewrite eval_bind. apply Hfa.
  - split; [reflexivity|]. split.
    + apply Hupd. unfold generic_pushed. rewrite exec_bind. apply Hpf.
    + unfold generic_pushed. rewrite eval_bind. apply Hfa.
Qed.

End with_runtime.
End inbound_spec.

(** ** Pushed alerts on concrete worlds *)

Module inbound_examples.
Import models world engine reference scenarios inbound inbound_spec.

Definition elastic : GenericHandler := {| gh_SourceType := "elasticsearch" |}.

(** A generic payload without [starts_at]. *)
Definition disk_full : GenericAlert :=
  {| ga_Title := "disk full"; ga_Severity := ""; ga_Status := "firing";
     ga_Labels := Some {[ "host" := "db1" ]}; ga_Annotations := None;
     ga_StartsAt := ""; ga_EndsAt := "" |}.

Definition push : Request GenericAlert :=
  {| source_id := ""; alerts_of := Some [disk_full] |}.

Definition alertmanager : PrometheusHandler :=
  {| SourceID := 1; ph_SourceType := "prometheus" |}.

(** An Alertmanager payload that, like Alertmanager, carries the start of
    the alert. *)
Definition disk_full_since (startsAt : string) : PrometheusAlert :=
  {| pa_Status := "firing";
     pa_Labels := Some {[ "alertname" := "DiskFull"; "severity" := "critical" ]};
     pa_Annotations := Some {[ "summary" := "disk full" ]};
     pa_StartsAt := startsAt; pa_EndsAt := "0001-01-01T00:00:00Z" |}.

Definition pushed_since (startsAt : string) : Request PrometheusAlert :=
  {| source_id := "3"; alerts_of := Some [disk_full_since startsAt] |}.

Definition empty_world : World := world_of calm [] [] [].

(** The store after a first push, seen 90 seconds later. *)
Definition once : World :=
  with_env (later (90 * Go.Second) calm)
           (exec (GenericHandler_Serve elastic push) empty_world).

Definition rows (w : World) : list (string * string * Go.Time) :=
  List.map (fun a => (Alert.ID a, Alert.Status a, Alert.FiringAt a)) (alerts w).

(** C1 at its failing input.  The same firing payload, without
    [starts_at], pushed twice, 90 seconds apart: the second push finds
    the firing row and updates it in place (one row, the same id, nothing
    created), but writes the instant of that push into [firingAt], where
    the claim keeps the instant of the first push, as the update of the
    scheduler does for its own rows.  An Alertmanager payload pushed
    again with another [startsAt] moves [firingAt] to that instant. *)
Lemma repeated_push_moves_firingAt :
  rows once = [("uuid-0", "firing", T0)] /\
  eval (GenericHandler_Serve elastic push) once =
    {| code := 200; received := 1; created := 0 |} /\
  rows (exec (GenericHandler_Serve elastic push) once) =
    [("uuid-0", "firing", T0 + 90 * Go.Second + 3 * ms)] /\
  let first :=
    exec (PrometheusHandler_Serve alertmanager
            (pushed_since "2025-03-01T01:50:00Z")) empty_world in
  rows first = [("uuid-0", "firing", T0 - 10 * Go.Minute)] /\
  rows (exec (PrometheusHandler_Serve alertmanager
                (pushed_since "2025-03-01T01:55:00Z")) first) =
    [("uuid-0", "firing", T0 - 5 * Go.Minute)].
Proof. vm_compute. repeat split; reflexivity. Qed.

(** With the same [startsAt] the second push leaves [firingAt] as it
    was, and severity, labels and annotations follow the payload. *)
Example same_startsAt_same_firingAt :
  let first :=
    exec (PrometheusHandler_Serve alertmanager
            (pushed_since "2025-03-01T01:50:00Z")) empty_world in
  rows (exec (PrometheusHandler_Serve alertmanager
                (pushed_since "2025-03-01T01:50:00Z")) first) = rows first.
Proof. vm_compute. reflexivity. Qed.

(** Ingest, then resolve: the row is resolved in place; a further
    resolved push adds a resolved row and leaves the first one alone. *)
Example ingest_then_resolve :
  let resolved :=
    {| source_id := "";
       alerts_of := Some [
         {| ga_Title := "disk full"; ga_Severity := ""; ga_Status := "resolved";
            ga_Labels := Some {[ "host" := "db1" ]}; ga_Annotations := None;
            ga_StartsAt := ""; ga_EndsAt := "2025-03-01T02:05:00Z" |}] |} in
  let w1 := exec (GenericHandler_Serve elastic resolved) once in
  let w2 := exec (GenericHandler_Serve elastic resolved) w1 in
  List.map (fun a => (Alert.ID a, Alert.Status a, Alert.ResolvedAt a)) (alerts w1) =
    [("uuid-0", "resolved", Some (T0 + 5 * Go.Minute))] /\
  List.map (fun a => (Alert.ID a, Alert.Status a)) (alerts w2) =
    [("uuid-0", "resolved"); ("uuid-1", "resolved")].
Proof. vm_compute. split; reflexivity. Qed.

(** The update in place at the second push of the generic payload:
    the row found keeps its place and its id, and its [firingAt] is the
    one derived from the payload. *)
Lemma webhook_update_witness :
  let old := default Alert.zero (head (alerts once)) in
  let derive := generic_pushed 1 disk_full in
  let p := eval derive once in
  let w0 := exec derive once in
  let w' := exec (p ← derive;
                  store_pushed 1 (gh_SourceType elastic) p) once in
  let new := updated old p (clock (env w0) (ticks w0)) in
  length (alerts w') = length (alerts once) /\
  List.find (has_id (Alert.ID old)) (alerts w') = Some new /\
  Alert.FiringAt new = firingAt p.
Proof.
  intros old derive p w0 w' new.
  pose proof (proj1 (proj2 (proj2 (webhook_firing_updates_in_place
    alertmanager elastic 1 (disk_full_since "") disk_full once old))))
    as Hupd.
  unfold updates_in_place in Hupd.
  destruct Hupd as (_ & _ & Hlen & Hfind & _ & Hfiring & _).
  - vm_compute. discriminate.
  - vm_compute. reflexivity.
  - split; [exact Hlen | split; [exact Hfind | exact Hfiring]].
Defined.

(** What the moved [firingAt] costs.  A rule asks for two minutes of
    firing before it notifies.  The payload is pushed every 90 seconds:
    at the third push the alert has been firing for three minutes, but
    its [firingAt] is the instant of that push, and nothing is sent.  The
    same row with the [firingAt] of the first push is notified. *)
Definition patient_rule : Rule.t := rule 1 "[7]" false "2m" "" "" "".

Definition pushed_thrice : World :=
  let w0 := world_of calm [patient_rule] [channel 7 true] [] in
  let w1 := exec (GenericHandler_Serve elastic push) w0 in
  let w2 := exec (GenericHandler_Serve elastic push)
                 (with_env (later (90 * Go.Second) calm) w1) in
  exec (GenericHandler_Serve elastic push)
       (with_env (later (180 * Go.Second) calm) w2).

Example repush_starves_duration :
  List.map (fun a => (Alert.ID a, Alert.Status a)) (alerts pushed_thrice) =
    [("uuid-0", "firing")] /\
  (forall a, a ∈ alerts pushed_thrice ->
             T0 + 180 * Go.Second <= Alert.FiringAt a) /\
  outcome pushed_thrice = ([], []) /\
  outcome (exec (ProcessAlert
                   (Alert.with_FiringAt T0
                      (default Alert.zero (head (alerts pushed_thrice)))))
                pushed_thrice) =
    ([(false, "disk full")], [(7%N, true, "")]).
Proof.
  split; [vm_compute; reflexivity|].
  split.
  - intros a Ha.
    assert (E : List.map Alert.FiringAt (alerts pushed_thrice) =
                [T0 + 180 * Go.Second + 8 * ms]) by (vm_compute; reflexivity).
    destruct (alerts pushed_thrice) as [|a0 [|a1 l]]; try discriminate.
    apply list_elem_of_singleton in Ha. subst a.
    injection E as E. rewrite E. vm_compute. discriminate.
  - split; vm_compute; reflexivity.
Qed.

End inbound_examples.

(** ** The grace period of the scheduler *)

Module scheduler_spec.
Import models world world_facts scheduler.

Section with_runtime.
Context `{!Go.Runtime, !engine.Runtime, !scheduler.Runtime}.

(** A key met in this evaluation is passed over by the scan. *)
Lemma scan_entry_present (currentKeys : gset string)
    (results : gmap string queryResult) (extKey : string) (l : queryResult)
    (w : World) :
  extKey ∈ currentKeys ->
  scan_entry currentKeys results (extKey, l) w = (results, w).
Proof.
  intros Hin. unfold scan_entry. rewrite bool_decide_eq_true_2 by exact Hin.
  reflexivity.
Qed.

(** A key that stayed away fewer than [resolveGracePeriod] times in a
    row keeps its entry, with one more miss, and nothing is resolved. *)
Lemma scan_entry_waiting (currentKeys : gset string)
    (results : gmap string queryResult) (extKey : string) (l : queryResult)
    (w : World) :
  extKey ∉ currentKeys -> MissCount l + 1 < resolveGracePeriod ->
  scan_entry currentKeys results (extKey, l) w =
  (<[extKey := missed l]> results, w).
Proof.
  intros Hout Hlt. unfold scan_entry.
  rewrite bool_decide_eq_false_2 by exact Hout.
  simpl. rewrite (proj2 (Z.ltb_lt _ _) Hlt). reflexivity.
Qed.

(** When the count reaches [resolveGracePeriod] the entry is deleted and
    the alert is resolved: the firing row, if the store still has it,
    gets the status resolved and the instant of resolution, and is handed
    to the engine. *)
Lemma scan_entry_expired (currentKeys : gset string)
    (results : gmap string queryResult) (extKey : string) (l : queryResult)
    (w : World) :
  extKey ∉ currentKeys -> resolveGracePeriod <= MissCount l + 1 ->
  scan_entry currentKeys results (extKey, l) w =
  (delete extKey results, exec (resolve (AlertID l)) w).
Proof.
  intros Hout Hge. unfold scan_entry.
  rewrite bool_decide_eq_false_2 by exact Hout.
  simpl. rewrite (proj2 (Z.ltb_ge _ _) Hge).
  rewrite run_bind. unfold mret, M_ret, exec.
  rewrite delete_insert_eq. reflexivity.
Qed.

(** The scan changes the alerts of the store only when it resolves. *)
Lemma scan_entry_quiet (currentKeys : gset string)
    (results : gmap string queryResult) (extKey : string) (l : queryResult)
    (w : World) :
  MissCount l + 1 < resolveGracePeriod ->
  exec (scan_entry currentKeys results (extKey, l)) w = w.
Proof.
  intros Hlt. unfold exec.
  destruct (decide (extKey ∈ currentKeys)) as [Hin|Hout].
  - rewrite scan_entry_present by exact Hin. reflexivity.
  - rewrite scan_entry_waiting by assumption. reflexivity.
Qed.

End with_runtime.

(** *** Five evaluations, one minute apart *)

Import reference scenarios.

Definition prometheus : Datasource := {| ds_ID := 1; ds_Type := "prometheus" |}.

Definition up_rule : Rule.t := rule 1 "[7]" true "" "" "" "".

(** The series of one host with its sample value. *)
Definition sample (v : string) : query.Series :=
  {| query.Metric := Some {[ "instance" := "h1:9100"; "job" := "node" ]};
     query.Value := [query.ANumber 1740794400; query.AString v] |}.

(** The evaluation of minute [k]: the state of the rule and the world
    before, the series of the query result, the state and the world
    after. *)
Definition evaluation (e : Env) (k : Z) (result : list query.Series)
    (sw : queryState * World) : queryState * World :=
  queryPrometheus up_rule prometheus (Some result) (fst sw)
    (with_env (later (k * Go.Minute) e) (snd sw)).

Definition start (e : Env) : queryState * World :=
  ({| lastResults := ∅; lastCheckTime := 0 |},
   world_of e [up_rule] [channel 7 true] []).

(** What the examples look at: alert id and miss count of each entry of
    the state, id and status of each row, and the alerts handed to the
    engine. *)
Definition view (sw : queryState * World)
  : list (string * Z) * list (string * string) * list (string * string) :=
  (List.map (fun kv => (AlertID (snd kv), MissCount (snd kv)))
            (map_to_list (lastResults (fst sw))),
   List.map (fun a => (Alert.ID a, Alert.Status a)) (alerts (snd sw)),
   List.map (fun a => (Alert.ID a, Alert.Status a)) (alertQueue (snd sw))).

(** Scenario S1: present, present, absent, absent, present.  The miss
    counter goes 0, 0, 1, 2 and back to 0; nothing is resolved. *)
Example S1_grace_period_flap :
  let s1 := evaluation calm 0 [sample "95"] (start calm) in
  let s2 := evaluation calm 1 [sample "95"] s1 in
  let s3 := evaluation calm 2 [] s2 in
  let s4 := evaluation calm 3 [] s3 in
  let s5 := evaluation calm 4 [sample "95"] s4 in
  fst (fst (view s2)) = [("uuid-0", 0)] /\
  fst (fst (view s3)) = [("uuid-0", 1)] /\
  fst (fst (view s4)) = [("uuid-0", 2)] /\
  fst (fst (view s5)) = [("uuid-0", 0)] /\
  snd (fst (view s5)) = [("uuid-0", "firing")] /\
  Forall (fun a => snd a = "firing") (snd (view s5)).
Proof. vm_compute. repeat split; repeat constructor. Qed.

(** Three absences in a row resolve the alert: the entry is deleted, the
    row is resolved, and the resolved alert is handed to the engine. *)
Example three_absences_resolve :
  let s1 := evaluation calm 0 [sample "95"] (start calm) in
  let s4 := evaluation calm 3 [] (evaluation calm 2 []
              (evaluation calm 1 [] s1)) in
  view s4 = ([], [("uuid-0", "resolved")],
             [("uuid-0", "firing"); ("uuid-0", "resolved")]).
Proof. vm_compute. reflexivity. Qed.

(** An outside like [calm] in which the second inspected store call
    fails: the write of the alert row at the fourth evaluation below. *)
Definition one_failed_write : Env :=
  {| clock := clock calm; uuid := uuid calm; fault := fun n => (n =? 1)%nat;
     transport := transport calm; tracker := tracker calm;
     render := render calm |}.

(** C2 at its failing input.  The series is present, absent twice,
    present again with another value while the write of the alert row
    fails, and absent once more.  At its reappearance the miss counter
    stays at 2 instead of going back to 0, and the single absence that
    follows resolves the alert, which was never absent three evaluations
    in a row.  With a store that works the same evaluations reset the
    counter and resolve nothing. *)
Lemma failed_write_keeps_miss_count :
  let run e :=
    let s1 := evaluation e 0 [sample "95"] (start e) in
    let s2 := evaluation e 1 [] s1 in
    let s3 := evaluation e 2 [] s2 in
    let s4 := evaluation e 3 [sample "96"] s3 in
    let s5 := evaluation e 4 [] s4 in
    (fst (fst (view s3)), fst (fst (view s4)), view s5) in
  run one_failed_write =
    ([("uuid-0", 2)], [("uuid-0", 2)],
     ([], [("uuid-0", "resolved")],
      [("uuid-0", "firing"); ("uuid-0", "resolved")])) /\
  run calm =
    ([("uuid-0", 2)], [("uuid-0", 0)],
     ([("uuid-0", 1)], [("uuid-0", "firing")],
      [("uuid-0", "firing"); ("uuid-0", "firing")])).
Proof. vm_compute. split; reflexivity. Qed.

(** Scenario S2 on a query result: 95 is critical for channel 7, 85 a
    warning for channel 3, and the series at 70 is not firing. *)
Example S2_threshold_grading :
  let graded :=
    rule 1 "[1]" false "" "" "" "" in
  let levels := ParseThresholds thresholds_spec.S2_thresholds in
  option_map (fun g => (fst g, map_to_list (snd g))) (grade graded levels 95) =
    Some ("critical", [("value", "95"); ("threshold_channel_ids", "[7]")]) /\
  option_map (fun g => (fst g, map_to_list (snd g))) (grade graded levels 85) =
    Some ("warning", [("value", "85"); ("threshold_channel_ids", "[3]")]) /\
  grade graded levels 70 = None.
Proof. vm_compute. repeat split; reflexivity. Qed.

End scheduler_spec.

(** ** The entry of the engine: silences, rule loading, rule matching *)

Module engine_entry.
Import models world world_facts engine.

(** A silence of the alert that has not run out at instant [t]. *)
Definition silences_at (id : string) (t : Go.Time) (s : AlertSilence.t) : Prop :=
  AlertSilence.AlertID s = id /\ t < AlertSilence.SilenceUntil s.

(** The three filters of a rule.  A filter that is empty, that does not
    decode, or that decodes to nothing lets every alert through. *)
Definition severity_passes (r : Rule.t) (a : Alert.t) : Prop :=
  Rule.MatchSeverity r = "" \/ Rule.MatchSeverity r = Alert.Severity a.

Definition source_passes `{!Go.Runtime} (r : Rule.t) (a : Alert.t) : Prop :=
  let decoded := Go.json_unmarshal_uints (Rule.DatasourceIDs r) in
  Rule.DatasourceIDs r = "" \/ snd decoded = true \/ fst decoded = [] \/
  Alert.SourceID a ∈ fst decoded.

Definition labels_pass `{!Go.Runtime} (r : Rule.t) (labels : gmap string string)
  : Prop :=
  let decoded := Go.json_unmarshal_map (Rule.MatchLabels r) in
  let want := default ∅ (fst decoded) in
  Rule.MatchLabels r = "" \/ snd decoded = true \/ want = ∅ \/
  forall k v, want !! k = Some v -> Go.index labels k = v.

Lemma count_silences_positive (id : string) (t : Go.Time)
    (l : list AlertSilence.t) :
  existsb (fun s => String.eqb (AlertSilence.AlertID s) id
                    && (t <? AlertSilence.SilenceUntil s)) l = true <->
  exists s, s ∈ l /\ silences_at id t s.
Proof.
  rewrite existsb_exists. unfold silences_at. split.
  - intros (s & Hin & Hs). exists s.
    apply andb_true_iff in Hs as [E L].
    apply String.eqb_eq in E. apply Z.ltb_lt in L.
    split; [now apply list_elem_of_In | split; assumption].
  - intros (s & Hin & E & L). exists s.
    split; [now apply list_elem_of_In|].
    apply andb_true_iff. split; [now apply String.eqb_eq | now apply Z.ltb_lt].
Qed.

Lemma all_pairs_in_spec (labels want : gmap string string) :
  all_pairs_in labels want = true <->
  forall k v, want !! k = Some v -> Go.index labels k = v.
Proof.
  unfold all_pairs_in. rewrite forallb_forall. split.
  - intros H k v Hkv. apply String.eqb_eq.
    apply (H (k, v)), list_elem_of_In, elem_of_map_to_list, Hkv.
  - intros H [k v] Hin. apply String.eqb_eq. simpl. apply H.
    apply elem_of_map_to_list, list_elem_of_In, Hin.
Qed.

Lemma size_positive (m : gmap string string) :
  (0 <? size m)%nat = false <-> m = ∅.
Proof.
  rewrite Nat.ltb_ge. split.
  - intros H. apply map_size_empty_iff. lia.
  - intros ->. rewrite map_size_empty. lia.
Qed.

Lemma contains_id_spec (ids : list N) (id : N) :
  contains_id ids id = true <-> id ∈ ids.
Proof.
  unfold contains_id. rewrite existsb_exists. split.
  - intros (x & Hin & E). apply N.eqb_eq in E. subst.
    now apply list_elem_of_In.
  - intros Hin. exists id. split; [now apply list_elem_of_In | apply N.eqb_refl].
Qed.

Section with_runtime.
Context `{!Go.Runtime, !engine.Runtime}.

(** [IsSilenced] answers [true] exactly when the table holds a silence of
    the alert that ends after the reading of the clock; [ProcessAlert]
    then returns at once, and so it does when the rules cannot be read.
    In both cases nothing is sent, recorded or remembered: the world is
    the one before, but for the reading of the clock and the store call
    made. *)
Theorem silenced_alert_is_dropped (alert : Alert.t) (w : World) :
  let t := clock (env w) (ticks w) in
  let silenced := exists s, s ∈ silences w /\ silences_at (Alert.ID alert) t s in
  (eval (IsSilenced (Alert.ID alert)) w = true <-> silenced) /\
  (silenced -> exec (ProcessAlert alert) w = set_ticks (S (ticks w)) w) /\
  (~ silenced -> fault (env w) (inspected w) = true ->
   exec (ProcessAlert alert) w =
   set_inspected (S (inspected w)) (set_ticks (S (ticks w)) w)).
Proof.
  intros t silenced.
  assert (Hev : eval (IsSilenced (Alert.ID alert)) w = true <-> silenced).
  { unfold IsSilenced, eval, now, Count_silences, get, mbind, mret, M_bind,
      M_ret. simpl. fold t.
    rewrite engine_rate.count_positive. apply count_silences_positive. }
  assert (Hw : exec (IsSilenced (Alert.ID alert)) w = set_ticks (S (ticks w)) w)
    by reflexivity.
  split; [exact Hev|]. split.
  - intros Hs. apply Hev in Hs. unfold ProcessAlert. rewrite exec_bind.
    rewrite Hs, Hw. reflexivity.
  - intros Hs Hfault. unfold ProcessAlert. rewrite exec_bind, Hw.
    destruct (eval (IsSilenced (Alert.ID alert)) w) eqn:E;
      [exfalso; apply Hs, Hev; reflexivity|].
    rewrite exec_bind.
    unfold Find_enabled_rules, eval, exec, faulty, get, mbind, mret, M_bind,
      M_ret. simpl. rewrite Hfault. reflexivity.
Qed.

(** A rule matches an alert exactly when its three filters let the alert
    through: the severity, the datasource ids and the labels.  A rule
    without filters matches every alert. *)
Theorem matchRule_filters (r : Rule.t) (a : Alert.t)
    (labels : gmap string string) :
  (matchRule r a labels = true <->
   severity_passes r a /\ source_passes r a /\ labels_pass r labels) /\
  (Rule.MatchSeverity r = "" -> Rule.DatasourceIDs r = "" ->
   Rule.MatchLabels r = "" -> matchRule r a labels = true).
Proof.
  assert (Hsev : negb (String.eqb (Rule.MatchSeverity r) "")
                 && negb (String.eqb (Rule.MatchSeverity r) (Alert.Severity a))
                 = false <-> severity_passes r a).
  { unfold severity_passes.
    destruct (String.eqb_spec (Rule.MatchSeverity r) "");
      destruct (String.eqb_spec (Rule.MatchSeverity r) (Alert.Severity a));
      simpl; split; auto; try discriminate. intros [?|?]; congruence. }
  assert (Hsrc :
    (if negb (String.eqb (Rule.DatasourceIDs r) "") then
       let '(ids, err) := Go.json_unmarshal_uints (Rule.DatasourceIDs r) in
       if negb err && (0 <? length ids)%nat
       then contains_id ids (Alert.SourceID a) else true
     else true) = true <-> source_passes r a).
  { unfold source_passes.
    destruct (String.eqb_spec (Rule.DatasourceIDs r) "") as [E|E]; simpl;
      [split; auto|].
    destruct (Go.json_unmarshal_uints (Rule.DatasourceIDs r)) as [ids err].
    cbn [fst snd]. destruct err; cbn [negb andb]; [split; auto|].
    destruct (0 <? length ids)%nat eqn:El.
    - rewrite contains_id_spec. split; [auto|].
      intros [?|[?|[->|?]]]; try congruence; try assumption. discriminate.
    - apply Nat.ltb_ge in El. destruct ids; [split; auto | simpl in El; lia]. }
  assert (Hlab :
    (if negb (String.eqb (Rule.MatchLabels r) "") then
       let '(want, err) := Go.json_unmarshal_map (Rule.MatchLabels r) in
       let want := default ∅ want in
       if negb err && (0 <? size want)%nat
       then all_pairs_in labels want else true
     else true) = true <-> labels_pass r labels).
  { unfold labels_pass.
    destruct (String.eqb_spec (Rule.MatchLabels r) "") as [E|E]; simpl;
      [split; auto|].
    destruct (Go.json_unmarshal_map (Rule.MatchLabels r)) as [want err].
    simpl. destruct err; simpl; [split; auto|].
    destruct (0 <? size (default ∅ want))%nat eqn:Esz; simpl.
    - rewrite all_pairs_in_spec. split; [auto|].
      intros [?|[?|[Hw|?]]]; try congruence; try assumption.
      rewrite Hw, map_size_empty in Esz. discriminate.
    - apply size_positive in Esz. split; auto. }
  assert (Hiff : matchRule r a labels = true <->
            severity_passes r a /\ source_passes r a /\ labels_pass r labels).
  { rewrite <- Hsev, <- Hsrc, <- Hlab. unfold matchRule. cbv zeta.
    destruct (negb (String.eqb (Rule.MatchSeverity r) "")
              && negb (String.eqb (Rule.MatchSeverity r) (Alert.Severity a)));
      [split; [discriminate | intros (? & _); discriminate]|].
    match goal with
    | |- (if negb ?b then false else _) = true <-> _ => destruct b
    end; cbn [negb].
    - tauto.
    - split; [discriminate | intros (_ & ? & _); discriminate]. }
  split; [exact Hiff|].
  intros Es Ed El. apply Hiff.
  repeat split; left; assumption.
Qed.

End with_runtime.

(** *** A silenced alert and a rule with filters, run *)

Import reference scenarios engine_examples.

Definition silenced_world : World :=
  let w := world_of calm [recovery_rule] [channel 7 true] [firing_alert] in
  {| env := env w; alerts := alerts w; rules := rules w; channels := channels w;
     send_records := send_records w;
     silences := [{| AlertSilence.AlertID := "a-1";
                     AlertSilence.SilenceUntil := T0 + Go.Hour |}];
     jira_created := jira_created w;
     suppressionWindows := suppressionWindows w; aggLastSent := aggLastSent w;
     alertQueue := alertQueue w; spawned := spawned w; ticks := ticks w;
     minted := minted w; inspected := inspected w; sent := sent w;
     issues := issues w |}.

Lemma silenced_alert_witness :
  exec (ProcessAlert firing_alert) silenced_world =
  set_ticks (S (ticks silenced_world)) silenced_world.
Proof.
  apply (proj1 (proj2 (silenced_alert_is_dropped firing_alert silenced_world))).
  exists {| AlertSilence.AlertID := "a-1";
            AlertSilence.SilenceUntil := T0 + Go.Hour |}.
  split; [left|]. split; [reflexivity | vm_compute; reflexivity].
Defined.

(** Without the silence the same alert is notified. *)
Example unsilenced_alert_is_sent :
  outcome (exec (ProcessAlert firing_alert)
             (world_of calm [recovery_rule] [channel 7 true] [firing_alert])) =
  ([(false, "disk full")], [(7%N, true, "")]).
Proof. vm_compute. reflexivity. Qed.

Lemma matchRule_filters_witness :
  matchRule recovery_rule firing_alert (host "h1") = true.
Proof.
  apply (proj2 (matchRule_filters recovery_rule firing_alert (host "h1")));
    reflexivity.
Defined.

End engine_entry.
(** ** Suppression windows and the notification queue *)

Module engine_suppression.
Import models world world_facts engine engine_entry.

Lemma labelsMatch_spec (labels want : gmap string string) :
  labelsMatch labels want = true <->
  want <> ∅ /\ forall k v, want !! k = Some v -> Go.index labels k = v.
Proof.
  unfold labelsMatch. rewrite andb_true_iff, all_pairs_in_spec.
  destruct (0 <? size want)%nat eqn:E.
  - split; [intros [H _]; split; [|exact H] | intros [_ H]; auto].
    intros ->. rewrite map_size_empty in E. discriminate.
  - apply size_positive in E. split; [intros [_ ?]; discriminate|].
    intros [? _]. contradiction.
Qed.

Section with_runtime.
Context `{!Go.Runtime, !engine.Runtime}.

(** The suppression of a rule as its text decodes. *)
Definition suppression_of (r : Rule.t) : suppressionConfig :=
  fst (json_unmarshal_suppression (Rule.Suppression r)).

(** The text of the suppression is there, decodes and names a duration
    that parses to [d]. *)
Definition suppression_configured (r : Rule.t) (d : Go.Duration) : Prop :=
  Rule.Suppression r <> "" /\
  snd (json_unmarshal_suppression (Rule.Suppression r)) = false /\
  sc_Duration (suppression_of r) <> "" /\
  Go.ParseDuration (sc_Duration (suppression_of r)) = Some d.

Lemma updateSuppressionWindow_run (r : Rule.t) (labels : gmap string string)
    (d : Go.Duration) (w : World) :
  suppression_configured r d ->
  updateSuppressionWindow r labels w =
  if labelsMatch labels (SourceLabels (suppression_of r))
  then (tt, set_suppressionWindows
              (<[Rule.ID r := clock (env w) (ticks w) + d]>
                 (suppressionWindows w))
              (set_ticks (S (ticks w)) w))
  else (tt, w).
Proof.
  intros (Hne & Hok & Hd & Hp). unfold updateSuppressionWindow, suppression_of in *.
  destruct (String.eqb_spec (Rule.Suppression r) ""); [contradiction|].
  destruct (json_unmarshal_suppression (Rule.Suppression r)) as [cfg err].
  simpl in *. subst err. simpl.
  destruct (String.eqb_spec (sc_Duration cfg) ""); [contradiction|].
  destruct (labelsMatch labels (SourceLabels cfg)); simpl; [|reflexivity].
  rewrite Hp. reflexivity.
Qed.

Lemma suppressed_eval (r : Rule.t) (labels : gmap string string) (w : World) :
  Rule.Suppression r <> "" ->
  snd (json_unmarshal_suppression (Rule.Suppression r)) = false ->
  eval (suppressed r labels) w =
  negb (size (SuppressedLabels (suppression_of r)) =? 0)%nat
  && negb (default 0 (suppressionWindows w !! Rule.ID r)
           <? clock (env w) (ticks w))
  && labelsMatch labels (SuppressedLabels (suppression_of r)).
Proof.
  intros Hne Hok. unfold suppressed, suppression_of in *.
  destruct (String.eqb_spec (Rule.Suppression r) ""); [contradiction|].
  destruct (json_unmarshal_suppression (Rule.Suppression r)) as [cfg err].
  simpl in *. subst err.
  destruct (size (SuppressedLabels cfg) =? 0)%nat; [reflexivity|].
  unfold eval, get, now, mbind, mret, M_bind, M_ret, Go.After. simpl.
  destruct (_ <? _); reflexivity.
Qed.

(** An alert whose labels hold the source labels of a rule opens the
    suppression window of the rule: its end is the reading of the clock
    plus the duration.  From then on an alert is suppressed for that rule
    exactly when the rule names suppressed labels, the alert holds them
    all, and the clock has not passed the end of the window.  An alert
    that does not hold the source labels leaves the windows as they were,
    and a rule whose window was never opened suppresses nothing once the
    clock is past the zero instant. *)
Theorem suppression_window_opens (r : Rule.t) (d : Go.Duration)
    (source labels : gmap string string) (w : World) :
  suppression_configured r d ->
  let cfg := suppression_of r in
  let t0 := clock (env w) (ticks w) in
  let w1 := exec (updateSuppressionWindow r source) w in
  (labelsMatch source (SourceLabels cfg) = true ->
   suppressionWindows w1 = <[Rule.ID r := t0 + d]> (suppressionWindows w) /\
   (eval (suppressed r labels) w1 = true <->
    SuppressedLabels cfg <> ∅ /\
    (forall k v, SuppressedLabels cfg !! k = Some v -> Go.index labels k = v) /\
    clock (env w) (S (ticks w)) <= t0 + d)) /\
  (labelsMatch source (SourceLabels cfg) = false -> w1 = w) /\
  (suppressionWindows w !! Rule.ID r = None -> 0 < t0 ->
   eval (suppressed r labels) w = false).
Proof.
  intros Hcfg cfg t0 w1.
  pose proof (updateSuppressionWindow_run r source d w Hcfg) as Hrun.
  destruct Hcfg as (Hne & Hok & _ & _).
  fold cfg in Hrun. split; [|split].
  - intros Hm. rewrite Hm in Hrun.
    unfold w1, exec. rewrite Hrun. cbn [snd]. split; [reflexivity|].
    rewrite suppressed_eval by assumption. fold cfg.
    rewrite !andb_true_iff, labelsMatch_spec, !negb_true_iff.
    cbn [suppressionWindows set_suppressionWindows set_ticks env ticks].
    rewrite lookup_insert_eq. cbn [default from_option]. fold t0.
    rewrite Z.ltb_ge, Nat.eqb_neq.
    split.
    + intros ((_ & Hle) & Hw & Hall). repeat split; assumption.
    + intros (Hw & Hall & Hle). repeat split; try assumption.
      intros Hz. apply Hw, map_size_empty_iff, Hz.
  - intros Hm. rewrite Hm in Hrun. unfold w1, exec. rewrite Hrun. reflexivity.
  - intros Hnone Hpos. rewrite suppressed_eval by assumption.
    unfold Go.Time in *. rewrite Hnone. cbn [default from_option]. fold t0.
    rewrite (proj2 (Z.ltb_lt 0 t0) Hpos).
    destruct (negb _); reflexivity.
Qed.

(** An alert handed to [ProcessAlertAsync] is never lost and the queue
    never grows past its capacity: with fewer than 500 alerts waiting the
    alert joins the queue, else it goes to a task of its own; nothing
    else changes. *)
Theorem queue_bounded_nothing_lost (alert : Alert.t) (w : World) :
  let w' := exec (ProcessAlertAsync alert) w in
  ((length (alertQueue w) <= queue_capacity)%nat ->
   (length (alertQueue w') <= queue_capacity)%nat) /\
  ((length (alertQueue w) < queue_capacity)%nat ->
   w' = set_alertQueue (alertQueue w ++ [alert]) w) /\
  ((queue_capacity <= length (alertQueue w))%nat ->
   w' = set_spawned (spawned w ++ [alert]) w) /\
  alertQueue w' ++ spawned w' ≡ₚ alert :: alertQueue w ++ spawned w.
Proof.
  intros w'. unfold w', ProcessAlertAsync, exec, get, modify, mbind, M_bind.
  simpl.
  destruct (Nat.ltb_spec (length (alertQueue w)) queue_capacity) as [Hlt|Hge];
    simpl.
  - split; [intros _; rewrite length_app; simpl; lia|].
    split; [reflexivity|]. split; [lia|].
    rewrite <- app_assoc. simpl. symmetry. apply Permutation_middle.
  - split; [intros Hle; exact Hle|].
    split; [lia|]. split; [reflexivity|].
    rewrite app_assoc, <- Permutation_cons_append. reflexivity.
Qed.

End with_runtime.

(** *** A suppression window, run *)

Import reference scenarios engine_examples.

(** A rule that stays quiet about disks for ten minutes after a host was
    reported down. *)
Definition quiet_after_down : Rule.t :=
  let r := rule 1 "[7]" false "" "" "" "" in
  {| Rule.ID := Rule.ID r; Rule.Name := Rule.Name r;
     Rule.Description := Rule.Description r; Rule.Enabled := Rule.Enabled r;
     Rule.Priority := Rule.Priority r; Rule.DatasourceIDs := Rule.DatasourceIDs r;
     Rule.QueryExpression := Rule.QueryExpression r;
     Rule.MatchLabels := Rule.MatchLabels r;
     Rule.MatchSeverity := Rule.MatchSeverity r;
     Rule.ChannelIDs := Rule.ChannelIDs r; Rule.TemplateID := Rule.TemplateID r;
     Rule.CheckInterval := Rule.CheckInterval r; Rule.Duration := Rule.Duration r;
     Rule.ExcludeWindows := Rule.ExcludeWindows r;
     Rule.RecoveryNotify := Rule.RecoveryNotify r;
     Rule.SendInterval := Rule.SendInterval r;
     Rule.AggregationEnabled := Rule.AggregationEnabled r;
     Rule.AggregateBy := Rule.AggregateBy r;
     Rule.AggregateWindow := Rule.AggregateWindow r;
     Rule.Suppression :=
       js "{'source_labels':{'alertname':'HostDown'},'suppressed_labels':{'job':'node'},'duration':'10m'}";
     Rule.Thresholds := Rule.Thresholds r; Rule.JiraEnabled := Rule.JiraEnabled r;
     Rule.JiraAfterN := Rule.JiraAfterN r; Rule.JiraConfig := Rule.JiraConfig r |}.

Definition host_down : gmap string string :=
  {[ "alertname" := "HostDown"; "hostname" := "h1" ]}.

Lemma suppression_window_witness :
  let w := world_of calm [quiet_after_down] [channel 7 true] [firing_alert] in
  let w1 := exec (updateSuppressionWindow quiet_after_down host_down) w in
  suppressionWindows w1 = <[1%N := T0 + 10 * Go.Minute]> (suppressionWindows w) /\
  eval (suppressed quiet_after_down (host "h1")) w1 = true.
Proof.
  intros w w1.
  destruct (suppression_window_opens quiet_after_down (10 * Go.Minute)
              host_down (host "h1") w) as (Hopen & _).
  - repeat split; try discriminate; vm_compute; reflexivity.
  - destruct Hopen as [Hend Hsup]; [vm_compute; reflexivity|].
    split; [exact Hend|]. apply Hsup. split; [|split].
    + intros E. apply (f_equal size) in E. vm_compute in E. discriminate.
    + intros k v Hkv.
      assert (Hk : (k, v) ∈ [("job", "node")]).
      { change [("job", "node")]
          with (map_to_list (SuppressedLabels (suppression_of quiet_after_down))).
        now apply elem_of_map_to_list. }
      apply list_elem_of_singleton in Hk. injection Hk as -> ->.
      vm_compute. reflexivity.
    + vm_compute. discriminate.
Defined.

(** The disk alert of the host is not notified while the window is
    open: the only record is that of the alert that opened it.  When no
    host was reported down the disk alert is notified. *)
Example suppressed_during_window :
  let w := world_of calm [quiet_after_down] [channel 7 true] [firing_alert] in
  let down := alert "a-0" "firing" (T0 - Go.Minute) host_down in
  let notified w := List.map AlertSendRecord.AlertID (send_records w) in
  notified (exec (ProcessAlert firing_alert) (exec (ProcessAlert down) w)) =
    ["a-0"] /\
  notified (exec (ProcessAlert firing_alert) w) = ["a-1"].
Proof. vm_compute. split; reflexivity. Qed.

Lemma queue_bounded_witness :
  let w := world_of calm [] [] [] in
  (length (alertQueue (exec (ProcessAlertAsync firing_alert) w)) <= 500)%nat.
Proof.
  intros w.
  apply (proj1 (queue_bounded_nothing_lost firing_alert w)).
  vm_compute. lia.
Defined.

End engine_suppression.
(** ** Tickets and aggregation classes *)

Module engine_tickets.
Import models world world_facts engine engine_entry.

Lemma length_append (s1 s2 : string) :
  String.length (s1 +:+ s2) = (String.length s1 + String.length s2)%nat.
Proof. induction s1 as [|c s1 IH]; simpl; [reflexivity | now rewrite IH]. Qed.

Lemma length_substring_0 (m : nat) (s : string) :
  String.length (String.substring 0 m s) = Nat.min m (String.length s).
Proof.
  revert s. induction m as [|m IH]; intros [|c s]; simpl; try reflexivity.
  now rewrite IH.
Qed.

(** The records of the tickets of a rule for an alert. *)
Definition tickets (r : Rule.t) (alert : Alert.t) (w : World)
  : list JiraCreated.t :=
  List.filter (ticket_of r alert) (jira_created w).

(** How often the alert (its source and external id) is in the store. *)
Definition occurrences (alert : Alert.t) (w : World) : Z :=
  Z.of_nat (length (List.filter (same_alert alert) (alerts w))).

Lemma filter_snoc {A} (f : A -> bool) (l : list A) (x : A) :
  List.filter f (l ++ [x]) = List.filter f l ++ (if f x then [x] else []).
Proof. rewrite List.filter_app. reflexivity. Qed.

Lemma filter_nil_existsb {A} (f : A -> bool) (l : list A) :
  existsb f l = false -> List.filter f l = [].
Proof.
  induction l as [|x l IH]; simpl; [reflexivity|].
  destruct (f x); simpl; [discriminate | exact IH].
Qed.

Section with_runtime.
Context `{!Go.Runtime, !engine.Runtime}.

(** The summary of a ticket never exceeds 255 bytes: a longer one is cut
    to its first 252 bytes and three dots. *)
Theorem summary_fits (s : string) :
  Go.len (truncate_summary s) <= 255 /\
  (Go.len s <= 255 -> truncate_summary s = s) /\
  (255 < Go.len s ->
   truncate_summary s = String.substring 0 252 s +:+ "..." /\
   Go.len (truncate_summary s) = 255).
Proof.
  unfold truncate_summary, Go.len.
  destruct (Z.ltb_spec 255 (Z.of_nat (String.length s))) as [Hlong|Hshort].
  - rewrite length_append, length_substring_0.
    change (String.length "...") with 3%nat.
    repeat split; lia.
  - repeat split; lia.
Qed.

(** The gates of [tryCreateJiraTicket] that read the rule and the count
    of the alert. *)
Definition ticket_gated (r : Rule.t) (alert : Alert.t) (w : World) : bool :=
  negb (Rule.JiraEnabled r) || (Rule.JiraAfterN r <=? 0)
  || String.eqb (Rule.JiraConfig r) ""
  || (occurrences alert w <? Rule.JiraAfterN r).

Definition ticket_call (r : Rule.t) (title body : string) : IssueCall :=
  {| config := Rule.JiraConfig r;
     summary := truncate_summary ("[Alert] " +:+ title);
     description := body |}.

Definition ticket_record (r : Rule.t) (alert : Alert.t) (key : string)
  : JiraCreated.t :=
  {| JiraCreated.RuleID := Rule.ID r;
     JiraCreated.SourceID := Alert.SourceID alert;
     JiraCreated.ExternalID := Alert.ExternalID alert;
     JiraCreated.JiraKey := key |}.

(** The world that [tryCreateJiraTicket] leaves, branch by branch. *)
Lemma tryCreateJiraTicket_run (r : Rule.t) (alert : Alert.t)
    (title body : string) (w : World) :
  exec (tryCreateJiraTicket r alert title body) w =
  if ticket_gated r alert w then w
  else
    let on_record := existsb (ticket_of r alert) (jira_created w) in
    let w1 := set_inspected (S (inspected w)) w in
    if negb (fault (env w) (inspected w)) && on_record then w1
    else if json_unmarshal_jira_config (Rule.JiraConfig r) then w1
    else
      let w2 := set_issues (issues w ++ [ticket_call r title body]) w1 in
      match tracker (env w) (length (issues w)) (ticket_call r title body) with
      | None => w2
      | Some key =>
          let w3 := set_inspected (S (S (inspected w))) w2 in
          if fault (env w) (S (inspected w)) || on_record then w3
          else set_jira_created
                 (jira_created w ++ [ticket_record r alert key]) w3
      end.
Proof.
  unfold tryCreateJiraTicket, ticket_gated, occurrences.
  destruct (negb (Rule.JiraEnabled r) || (Rule.JiraAfterN r <=? 0)
            || String.eqb (Rule.JiraConfig r) ""); cbn [orb]; [reflexivity|].
  unfold exec, get, faulty, CreateIssue, modify, mbind, mret, M_bind, M_ret.
  cbn [fst snd].
  destruct (_ <? Rule.JiraAfterN r); [reflexivity|].
  destruct (negb (fault (env w) (inspected w))
            && existsb (ticket_of r alert) (jira_created w)); [reflexivity|].
  destruct (json_unmarshal_jira_config (Rule.JiraConfig r)); [reflexivity|].
  fold (ticket_call r title body). simpl.
  destruct (tracker (env w) (length (issues w)) (ticket_call r title body));
    [|reflexivity].
  simpl.
  destruct (fault (env w) (S (inspected w))
            || existsb (ticket_of r alert) (jira_created w)); reflexivity.
Qed.

Lemma ticket_of_own_record (r : Rule.t) (alert : Alert.t) (key : string) :
  ticket_of r alert (ticket_record r alert key) = true.
Proof.
  unfold ticket_of, ticket_record. simpl.
  now rewrite !N.eqb_refl, String.eqb_refl.
Qed.

Lemma tickets_on_record (r : Rule.t) (alert : Alert.t) (w : World) :
  tickets r alert w <> [] <->
  existsb (ticket_of r alert) (jira_created w) = true.
Proof.
  split.
  - intros Hne. destruct (existsb _ _) eqn:E; [reflexivity|].
    apply filter_nil_existsb in E. contradiction.
  - intros E Hn. apply existsb_exists in E as (j & Hin & Hj).
    assert (In j (tickets r alert w)) by (apply filter_In; auto).
    rewrite Hn in *. contradiction.
Qed.

(** With the ticket on record and a lookup that works, the call returns
    after the lookup. *)
Lemma ticket_on_record_run (r : Rule.t) (alert : Alert.t)
    (title body : string) (w : World) :
  tickets r alert w <> [] -> fault (env w) (inspected w) = false ->
  issues (exec (tryCreateJiraTicket r alert title body) w) = issues w /\
  jira_created (exec (tryCreateJiraTicket r alert title body) w) =
  jira_created w.
Proof.
  intros Hrec Hok. rewrite tryCreateJiraTicket_run.
  apply tickets_on_record in Hrec.
  destruct (ticket_gated r alert w); [split; reflexivity|].
  cbv zeta. rewrite Hrec, Hok. split; reflexivity.
Qed.

(** [tryCreateJiraTicket] calls the tracker at most once, and only for a
    rule with tickets enabled, a positive threshold and a configuration,
    once the alert is in the store often enough.  It calls it never when
    the ticket of the rule for the alert is on record and the lookup
    works.  It records a ticket only with the key the tracker returned,
    and never a second one for the same rule and alert. *)
Theorem ticket_created_once (r : Rule.t) (alert : Alert.t)
    (title body : string) (w : World) :
  let w' := exec (tryCreateJiraTicket r alert title body) w in
  let call := ticket_call r title body in
  (issues w' = issues w \/ issues w' = issues w ++ [call]) /\
  (Rule.JiraEnabled r = false \/ Rule.JiraAfterN r <= 0 \/
   Rule.JiraConfig r = "" \/ occurrences alert w < Rule.JiraAfterN r ->
   w' = w) /\
  (tickets r alert w <> [] -> fault (env w) (inspected w) = false ->
   issues w' = issues w /\ jira_created w' = jira_created w) /\
  (jira_created w' = jira_created w \/
   exists key,
     tracker (env w) (length (issues w)) call = Some key /\
     tickets r alert w = [] /\
     jira_created w' = jira_created w ++ [ticket_record r alert key]) /\
  ((length (tickets r alert w) <= 1)%nat ->
   (length (tickets r alert w') <= 1)%nat) /\
  (forall key title' body',
     jira_created w' = jira_created w ++ [ticket_record r alert key] ->
     fault (env w') (inspected w') = false ->
     let w2 := exec (tryCreateJiraTicket r alert title' body') w' in
     issues w2 = issues w' /\ jira_created w2 = jira_created w').
Proof.
  intros w' call.
  assert (Hnext : forall key title' body',
     jira_created w' = jira_created w ++ [ticket_record r alert key] ->
     fault (env w') (inspected w') = false ->
     let w2 := exec (tryCreateJiraTicket r alert title' body') w' in
     issues w2 = issues w' /\ jira_created w2 = jira_created w').
  { intros key title' body' Hrec Hok.
    apply ticket_on_record_run; [|exact Hok].
    unfold tickets. rewrite Hrec, filter_snoc, ticket_of_own_record.
    intros E. apply app_eq_nil in E as [_ E]. discriminate. }
  cut ((issues w' = issues w \/ issues w' = issues w ++ [call]) /\
       (Rule.JiraEnabled r = false \/ Rule.JiraAfterN r <= 0 \/
        Rule.JiraConfig r = "" \/ occurrences alert w < Rule.JiraAfterN r ->
        w' = w) /\
       (tickets r alert w <> [] -> fault (env w) (inspected w) = false ->
        issues w' = issues w /\ jira_created w' = jira_created w) /\
       (jira_created w' = jira_created w \/
        exists key,
          tracker (env w) (length (issues w)) call = Some key /\
          tickets r alert w = [] /\
          jira_created w' = jira_created w ++ [ticket_record r alert key]) /\
       ((length (tickets r alert w) <= 1)%nat ->
        (length (tickets r alert w') <= 1)%nat)).
  { intros (A & B & C & D & E).
    split; [exact A|]. split; [exact B|]. split; [exact C|].
    split; [exact D|]. split; [exact E | exact Hnext]. }
  clear Hnext.
  unfold w'. rewrite tryCreateJiraTicket_run. fold call.
  assert (Hgate : Rule.JiraEnabled r = false \/ Rule.JiraAfterN r <= 0 \/
                  Rule.JiraConfig r = "" \/
                  occurrences alert w < Rule.JiraAfterN r ->
                  ticket_gated r alert w = true).
  { unfold ticket_gated. intros [->|[Hn|[->|Hc]]]; [reflexivity| | |].
    - rewrite (proj2 (Z.leb_le _ _) Hn). now rewrite orb_true_r.
    - now rewrite orb_true_r.
    - rewrite (proj2 (Z.ltb_lt _ _) Hc). now rewrite orb_true_r. }
  destruct (ticket_gated r alert w) eqn:Eg.
  { split; [left; reflexivity|]. split; [reflexivity|].
    split; [split; reflexivity|]. split; [left; reflexivity | auto]. }
  assert (Hopen : forall P : Prop,
            Rule.JiraEnabled r = false \/ Rule.JiraAfterN r <= 0 \/
            Rule.JiraConfig r = "" \/
            occurrences alert w < Rule.JiraAfterN r -> P).
  { intros P Hg. apply Hgate in Hg. discriminate. }
  cbv zeta.
  destruct (existsb (ticket_of r alert) (jira_created w)) eqn:Et.
  - (* the ticket is on record *)
    assert (Hrec : tickets r alert w <> []) by now apply tickets_on_record.
    destruct (fault (env w) (inspected w)) eqn:Ef; cbn [negb andb].
    + destruct (json_unmarshal_jira_config (Rule.JiraConfig r)).
      { split; [left; reflexivity|]. split; [apply Hopen|].
        split; [intros; discriminate|]. split; [left; reflexivity | auto]. }
      destruct (tracker (env w) (length (issues w)) call) as [key|].
      * rewrite orb_true_r.
        split; [right; reflexivity|]. split; [apply Hopen|].
        split; [intros; discriminate|]. split; [left; reflexivity | auto].
      * split; [right; reflexivity|]. split; [apply Hopen|].
        split; [intros; discriminate|]. split; [left; reflexivity | auto].
    + split; [left; reflexivity|]. split; [apply Hopen|].
      split; [split; reflexivity|]. split; [left; reflexivity | auto].
  - (* no ticket on record *)
    assert (Hnone : tickets r alert w = []) by now apply filter_nil_existsb.
    rewrite andb_false_r, orb_false_r.
    destruct (json_unmarshal_jira_config (Rule.JiraConfig r)).
    { split; [left; reflexivity|]. split; [apply Hopen|].
      split; [intros; contradiction|]. split; [left; reflexivity | auto]. }
    destruct (tracker (env w) (length (issues w)) call) as [key|] eqn:Ek.
    + destruct (fault (env w) (S (inspected w))).
      * split; [right; reflexivity|]. split; [apply Hopen|].
        split; [intros; contradiction|]. split; [left; reflexivity | auto].
      * split; [right; reflexivity|]. split; [apply Hopen|].
        split; [intros; contradiction|].
        split; [right; exists key; auto|].
        intros _. unfold tickets. cbn [jira_created set_jira_created].
        rewrite filter_snoc. fold (tickets r alert w). rewrite Hnone.
        destruct (ticket_of r alert _); simpl; lia.
    + split; [right; reflexivity|]. split; [apply Hopen|].
      split; [intros; contradiction|]. split; [left; reflexivity | auto].
Qed.

End with_runtime.

(** *** A ticket, filed once *)

Import reference scenarios engine_examples.

(** A rule that files a ticket from the first occurrence of an alert. *)
Definition ticketing_rule : Rule.t :=
  let r := rule 1 "[7]" false "" "" "" "" in
  {| Rule.ID := Rule.ID r; Rule.Name := Rule.Name r;
     Rule.Description := Rule.Description r; Rule.Enabled := Rule.Enabled r;
     Rule.Priority := Rule.Priority r; Rule.DatasourceIDs := Rule.DatasourceIDs r;
     Rule.QueryExpression := Rule.QueryExpression r;
     Rule.MatchLabels := Rule.MatchLabels r;
     Rule.MatchSeverity := Rule.MatchSeverity r;
     Rule.ChannelIDs := Rule.ChannelIDs r; Rule.TemplateID := Rule.TemplateID r;
     Rule.CheckInterval := Rule.CheckInterval r; Rule.Duration := Rule.Duration r;
     Rule.ExcludeWindows := Rule.ExcludeWindows r;
     Rule.RecoveryNotify := Rule.RecoveryNotify r;
     Rule.SendInterval := Rule.SendInterval r;
     Rule.AggregationEnabled := Rule.AggregationEnabled r;
     Rule.AggregateBy := Rule.AggregateBy r;
     Rule.AggregateWindow := Rule.AggregateWindow r;
     Rule.Suppression := Rule.Suppression r;
     Rule.Thresholds := Rule.Thresholds r; Rule.JiraEnabled := true;
     Rule.JiraAfterN := 1;
     Rule.JiraConfig := js "{'base_url':'https://jira.example.org','project':'OPS'}" |}.

Definition ticketing_world : World :=
  world_of calm [ticketing_rule] [channel 7 true] [firing_alert].

(** The alert is processed twice: the tracker is called once, with the
    summary made of the title, and one ticket is on record. *)
Example ticket_filed_once :
  let w2 := exec (ProcessAlert firing_alert)
              (exec (ProcessAlert firing_alert) ticketing_world) in
  List.map summary (issues w2) = ["[Alert] disk full"] /\
  List.map JiraCreated.JiraKey (jira_created w2) = ["OPS-1"].
Proof. vm_compute. split; reflexivity. Qed.

Lemma ticket_created_once_witness :
  let w1 := exec (tryCreateJiraTicket ticketing_rule firing_alert
                    "disk full" "body") ticketing_world in
  let w2 := exec (tryCreateJiraTicket ticketing_rule firing_alert
                    "disk full" "again") w1 in
  issues w2 = issues w1 /\ jira_created w2 = jira_created w1.
Proof.
  intros w1 w2.
  apply (proj2 (proj2 (proj2 (proj2 (proj2
           (ticket_created_once ticketing_rule firing_alert "disk full" "body"
              ticketing_world))))) "OPS-1" "disk full" "again").
  - vm_compute. reflexivity.
  - vm_compute. reflexivity.
Defined.

(** A title of 300 bytes. *)
Fixpoint stars (n : nat) : string :=
  match n with
  | O => ""
  | S n' => String "*" (stars n')
  end.

Lemma summary_fits_witness :
  truncate_summary ("[Alert] " +:+ stars 300) =
    String.substring 0 252 ("[Alert] " +:+ stars 300) +:+ "..." /\
  Go.len (truncate_summary ("[Alert] " +:+ stars 300)) = 255.
Proof.
  apply (proj2 (proj2 (summary_fits ("[Alert] " +:+ stars 300)))).
  vm_compute. reflexivity.
Defined.

End engine_tickets.

(** ** Aggregation classes *)

Module engine_classes.
Import models world engine engine_entry.

Lemma excluded_spec (excl : list string) (k : string) :
  excluded excl k = true <-> k ∈ excl.
Proof.
  unfold excluded. rewrite existsb_exists. split.
  - intros (x & Hin & E). apply String.eqb_eq in E. subst.
    now apply list_elem_of_In.
  - intros Hin. exists k. split; [now apply list_elem_of_In | apply String.eqb_refl].
Qed.

Lemma NoDup_fst_filter {A B} (f : A * B -> bool) (l : list (A * B)) :
  NoDup (l.*1) -> NoDup ((List.filter f l).*1).
Proof.
  induction l as [|x l IH]; simpl; [auto|].
  intros Hnd. apply NoDup_cons in Hnd as [Hx Hl].
  destruct (f x); simpl; [|auto].
  apply NoDup_cons. split; [|auto].
  intros Hin. apply Hx.
  apply list_elem_of_fmap in Hin as (y & Hy & Hin).
  apply list_elem_of_fmap. exists y. split; [exact Hy|].
  apply list_elem_of_In. apply list_elem_of_In, filter_In in Hin. tauto.
Qed.

(** The labels that are left when the keys of the dimension are taken
    away. *)
Lemma lookup_without (excl : list string) (m : gmap string string) (k : string) :
  (list_to_map (List.filter (fun kv => negb (excluded excl (fst kv)))
                            (map_to_list m)) : gmap string string) !! k =
  if excluded excl k then None else m !! k.
Proof.
  set (f := fun kv : string * string => negb (excluded excl (fst kv))).
  assert (Hnd : NoDup ((List.filter f (map_to_list m)).*1))
    by apply NoDup_fst_filter, NoDup_fst_map_to_list.
  destruct (excluded excl k) eqn:Ek.
  - apply not_elem_of_list_to_map_1. intros Hin.
    apply list_elem_of_fmap in Hin as ([k' v] & -> & Hin).
    apply list_elem_of_In, filter_In in Hin as [_ Hf].
    unfold f in Hf. simpl in *. rewrite Ek in Hf. discriminate.
  - destruct (m !! k) as [v|] eqn:Em.
    + apply elem_of_list_to_map_1; [exact Hnd|].
      apply list_elem_of_In, filter_In. split.
      * apply list_elem_of_In, elem_of_map_to_list, Em.
      * unfold f. simpl. now rewrite Ek.
    + apply not_elem_of_list_to_map_1. intros Hin.
      apply list_elem_of_fmap in Hin as ([k' v] & -> & Hin).
      apply list_elem_of_In, filter_In in Hin as [Hin _].
      apply list_elem_of_In, elem_of_map_to_list in Hin. simpl in *. congruence.
Qed.

Section with_runtime.
Context `{!Go.Runtime}.

(** Two label sets are of the same type exactly when they read the same
    at every key outside the dimension, a missing label reading as the
    empty text.  Being of the same type is reflexive, symmetric and
    transitive. *)
Theorem labelsSameType_agreement (a b c : gmap string string)
    (aggregateBy : string) :
  let same x y := labelsSameType x y aggregateBy = true in
  (same a b <->
   forall k, k ∉ aggregationDimensionKeys aggregateBy ->
             Go.index a k = Go.index b k) /\
  same a a /\ (same a b -> same b a) /\ (same a b -> same b c -> same a c).
Proof.
  intros same.
  assert (Hspec : forall x y, same x y <->
            forall k, k ∉ aggregationDimensionKeys aggregateBy ->
                      Go.index x k = Go.index y k).
  { intros x y. unfold same, labelsSameType.
    rewrite andb_true_iff, !forallb_forall. split.
    - intros [Hx Hy] k Hk.
      assert (Ek : excluded (aggregationDimensionKeys aggregateBy) k = false).
      { destruct (excluded _ k) eqn:E; [|reflexivity].
        apply excluded_spec in E. contradiction. }
      destruct (x !! k) as [v|] eqn:Exk.
      + specialize (Hx (k, v)). simpl in Hx. rewrite Ek in Hx. simpl in Hx.
        unfold Go.index at 1. rewrite Exk. simpl. symmetry.
        apply String.eqb_eq, Hx, list_elem_of_In, elem_of_map_to_list, Exk.
      + destruct (y !! k) as [v|] eqn:Eyk.
        * specialize (Hy (k, v)). simpl in Hy. rewrite Ek in Hy. simpl in Hy.
          apply String.eqb_eq, Hy, list_elem_of_In, elem_of_map_to_list, Eyk.
        * unfold Go.index. rewrite Exk, Eyk. reflexivity.
    - intros Hall. split; intros [k v] Hin; simpl;
        destruct (excluded (aggregationDimensionKeys aggregateBy) k) eqn:Ek;
        simpl; try reflexivity; apply String.eqb_eq.
      + rewrite <- Hall by (rewrite <- excluded_spec, Ek; discriminate).
        apply list_elem_of_In, elem_of_map_to_list in Hin.
        unfold Go.index. rewrite Hin. reflexivity.
      + apply Hall. rewrite <- excluded_spec, Ek. discriminate. }
  split; [apply Hspec|]. split; [|split].
  - apply Hspec. reflexivity.
  - rewrite !Hspec. intros Hab k Hk. symmetry. auto.
  - rewrite !Hspec. intros Hab Hbc k Hk. rewrite Hab, Hbc by exact Hk. reflexivity.
Qed.

(** The type fingerprint does not read the labels of the dimension: two
    label sets that hold the same labels outside the dimension have the
    same fingerprint, whatever their host, ip or port. *)
Theorem typeFingerprint_without_dimension (a b : gmap string string)
    (aggregateBy : string) :
  (forall k, k ∉ aggregationDimensionKeys aggregateBy -> a !! k = b !! k) ->
  typeFingerprint a aggregateBy = typeFingerprint b aggregateBy.
Proof.
  intros Hall. unfold typeFingerprint.
  set (excl := aggregationDimensionKeys aggregateBy) in *.
  assert (E : (list_to_map (List.filter (fun kv => negb (excluded excl (fst kv)))
                              (map_to_list a)) : gmap string string) =
              list_to_map (List.filter (fun kv => negb (excluded excl (fst kv)))
                              (map_to_list b))).
  { apply map_eq. intros k. rewrite !lookup_without.
    destruct (excluded excl k) eqn:Ek; [reflexivity|].
    apply Hall. rewrite <- excluded_spec, Ek. discriminate. }
  rewrite E. reflexivity.
Qed.

End with_runtime.

(** *** Classes of concrete label sets *)

Import reference scenarios engine_examples.

Lemma typeFingerprint_witness :
  typeFingerprint (host "h1") "Hostname" = typeFingerprint (host "h2") "Hostname".
Proof.
  apply typeFingerprint_without_dimension.
  intros k Hk.
  assert (Hne : k <> "hostname").
  { intros ->. apply Hk. vm_compute. left. }
  unfold host. rewrite !lookup_insert_ne by congruence. reflexivity.
Defined.

Lemma labelsSameType_witness :
  labelsSameType (host "h2") (host "h1") "hostname" = true.
Proof.
  apply (proj1 (proj2 (proj2 (labelsSameType_agreement (host "h1") (host "h2")
                                ∅ "hostname")))).
  vm_compute. reflexivity.
Defined.

(** A label with an empty value and a missing label are of the same type
    but do not have the same fingerprint. *)
Example empty_label_same_type_other_fingerprint :
  let a : gmap string string := {[ "job" := "node"; "zone" := "" ]} in
  let b : gmap string string := {[ "job" := "node" ]} in
  labelsSameType a b "hostname" = true /\
  typeFingerprint a "hostname" = "job=node;zone=;" /\
  typeFingerprint b "hostname" = "job=node;".
Proof. vm_compute. repeat split; reflexivity. Qed.

End engine_classes.
(** ** The state of a rule across evaluations *)

Module scheduler_state.
Import models world world_facts scheduler.

(** Every value that [m] can return satisfies [P]. *)
Definition returns {A} (P : A -> Prop) (m : M A) : Prop :=
  forall w, P (eval m w).

Lemma returns_ret {A} (P : A -> Prop) (x : A) : P x -> returns P (mret x).
Proof. intros HP w. exact HP. Qed.

Lemma returns_bind {A B} (P : B -> Prop) (m : M A) (f : A -> M B) :
  (forall x, returns P (f x)) -> returns P (m ≫= f).
Proof. intros Hf w. rewrite eval_bind. apply Hf. Qed.

(** The entries of a state are within the grace period: none has been
    missed three times, none a negative number of times. *)
Definition within_grace (results : gmap string queryResult) : Prop :=
  map_Forall (fun _ l => 0 <= MissCount l < resolveGracePeriod) results.

(** What the scan makes of an entry whose key was not met. *)
Definition aged (l : queryResult) : option queryResult :=
  if MissCount l + 1 <? resolveGracePeriod then Some (missed l) else None.

Section with_runtime.
Context `{!Go.Runtime, !engine.Runtime, !scheduler.Runtime}.

(** The interval between two evaluations of a rule is never below one
    minute: an empty or malformed text and a shorter duration all give
    one minute, a longer duration is taken as it is. *)
Theorem check_interval_floor (s : string) :
  Go.Minute <= parseInterval s /\
  (s = "" \/ Go.ParseDuration s = None -> parseInterval s = Go.Minute) /\
  (forall d, s <> "" -> Go.ParseDuration s = Some d ->
             parseInterval s = Z.max d Go.Minute).
Proof.
  unfold parseInterval.
  destruct (String.eqb_spec s "") as [->|Hne].
  - split; [lia|]. split; [reflexivity | congruence].
  - destruct (Go.ParseDuration s) as [d|].
    + destruct (Z.ltb_spec d Go.Minute);
        (split; [lia|]; split; [intros [?|?]; congruence|]);
        intros d' _ [= <-]; lia.
    + split; [lia|]. split; [reflexivity | congruence].
Qed.

(** *** The resolution of one alert *)

(** The row as [resolve] writes it, and as it hands it to the engine. *)
Definition resolved_row (row : Alert.t) (t stamp : Go.Time) : Alert.t :=
  Alert.with_UpdatedAt stamp
    (Alert.with_ResolvedAt (Some t) (Alert.with_Status "resolved" row)).

Lemma find_has_id (id : string) (l : list Alert.t) (row : Alert.t) :
  List.find (has_id id) l = Some row ->
  Alert.ID row = id /\ existsb (has_id id) l = true.
Proof.
  intros Hf. apply find_some in Hf as [Hin Hid].
  split; [now apply String.eqb_eq|].
  apply existsb_exists. eauto.
Qed.

Lemma find_replace_row_id (a : Alert.t) (l : list Alert.t) :
  existsb (has_id (Alert.ID a)) l = true ->
  List.find (has_id (Alert.ID a)) (replace_row a l) = Some a.
Proof.
  induction l as [|b l IH]; simpl; [discriminate|].
  destruct (has_id (Alert.ID a) b) eqn:E; simpl.
  - intros _. unfold has_id. now rewrite String.eqb_refl.
  - intros Hex. rewrite E. apply IH, Hex.
Qed.

(** [resolve] touches a row only when it finds it firing: the row gets
    the status resolved and the instant of resolution, keeps everything
    else, and is handed to the engine once.  A row that is not firing, a
    row that is not there, a failed lookup and an empty id change neither
    the alerts nor what the engine was handed. *)
Theorem resolve_only_firing (alertID : string) (w : World) :
  let w' := exec (resolve alertID) w in
  let found :=
    if String.eqb alertID "" || fault (env w) (inspected w) then None
    else List.find (has_id alertID) (alerts w) in
  (forall row, found = Some row -> Alert.Status row = "firing" ->
     let row' := resolved_row row (clock (env w) (ticks w))
                              (clock (env w) (S (ticks w))) in
     alerts w' = replace_row row' (alerts w) /\
     if (length (alertQueue w) <? engine.queue_capacity)%nat
     then alertQueue w' = alertQueue w ++ [row'] /\ spawned w' = spawned w
     else alertQueue w' = alertQueue w /\ spawned w' = spawned w ++ [row']) /\
  ((found = None \/ exists row, found = Some row /\ Alert.Status row <> "firing") ->
   alerts w' = alerts w /\ alertQueue w' = alertQueue w /\
   spawned w' = spawned w).
Proof.
  intros w' found. unfold w', found, resolve.
  destruct (String.eqb_spec alertID "") as [->|Hne]; cbn [negb orb].
  { split; [intros row [=]|]. intros _. repeat split. }
  unfold exec, First_by_id, faulty, get, mbind, mret, M_bind, M_ret.
  cbn [fst snd].
  destruct (fault (env w) (inspected w)) eqn:Ef.
  { split; [intros row [=]|]. intros _. repeat split. }
  cbn [alerts set_inspected].
  destruct (List.find (has_id alertID) (alerts w)) as [row|] eqn:Efind.
  - destruct (find_has_id _ _ _ Efind) as [Hid Hex].
    destruct (String.eqb_spec (Alert.Status row) "firing") as [Hs|Hs].
    + split.
      * intros row0 [= <-] _.
        set (row' := resolved_row row (clock (env w) (ticks w))
                                  (clock (env w) (S (ticks w)))).
        unfold Save, now, stored, engine.ProcessAlertAsync, modify, get, mbind,
          mret, M_bind, M_ret, save_row. simpl.
        rewrite Hid, Hex. simpl.
        set (r1 := Alert.with_UpdatedAt _ _).
        assert (E1 : r1 = row') by reflexivity.
        assert (Hf : List.find (has_id alertID) (replace_row r1 (alerts w))
                     = Some r1).
        { rewrite <- Hid at 1.
          change (Alert.ID row) with (Alert.ID r1).
          apply find_replace_row_id.
          change (Alert.ID r1) with (Alert.ID row). now rewrite Hid. }
        rewrite Hf. simpl.
        destruct (length (alertQueue w) <? engine.queue_capacity)%nat; simpl;
          rewrite E1; repeat split.
      * intros [[=]|(row0 & [= <-] & Hn)]. contradiction.
    + split.
      * intros row0 [= <-] Hf. contradiction.
      * intros _. repeat split.
  - split; [intros row [=]|]. intros _. repeat split.
Qed.

(** *** The scan for missing series *)

Lemma scan_entry_eval (currentKeys : gset string)
    (results : gmap string queryResult) (extKey : string) (l : queryResult)
    (w : World) :
  eval (scan_entry currentKeys results (extKey, l)) w =
  if bool_decide (extKey ∈ currentKeys) then results
  else match aged l with
       | Some l' => <[extKey := l']> results
       | None => delete extKey results
       end.
Proof.
  unfold scan_entry, aged. destruct (bool_decide _); [reflexivity|].
  simpl. destruct (_ <? _); [reflexivity|].
  rewrite eval_bind. unfold eval, mret, M_ret. simpl.
  apply delete_insert_eq.
Qed.

Lemma scan_all_lookup (currentKeys : gset string)
    (entries : list (string * queryResult)) :
  NoDup (entries.*1) ->
  forall (results : gmap string queryResult) (w : World) (k : string),
    eval (scan_all currentKeys results entries) w !! k =
    match (list_to_map entries : gmap string queryResult) !! k with
    | Some l => if bool_decide (k ∈ currentKeys) then results !! k else aged l
    | None => results !! k
    end.
Proof.
  induction entries as [|[k0 l0] rest IH]; intros Hnd results w k.
  { simpl. rewrite lookup_empty. reflexivity. }
  apply NoDup_cons in Hnd as [Hk0 Hrest].
  cbn [scan_all]. rewrite eval_bind, IH by exact Hrest.
  rewrite scan_entry_eval. cbn [list_to_map foldr uncurry fst snd].
  destruct (decide (k = k0)) as [->|Hk].
  - rewrite lookup_insert_eq.
    rewrite (not_elem_of_list_to_map_1 rest k0) by exact Hk0.
    destruct (bool_decide (k0 ∈ currentKeys)); [reflexivity|].
    destruct (aged l0); [apply lookup_insert_eq | apply lookup_delete_eq].
  - rewrite lookup_insert_ne by congruence.
    assert (E : (if bool_decide (k0 ∈ currentKeys) then results
                 else match aged l0 with
                      | Some l' => <[k0 := l']> results
                      | None => delete k0 results
                      end) !! k = results !! k).
    { destruct (bool_decide _); [reflexivity|].
      destruct (aged l0);
        [apply lookup_insert_ne | apply lookup_delete_ne]; congruence. }
    rewrite E. reflexivity.
Qed.

(** The scan, series by series: an entry whose key was met in this
    evaluation is left alone; an entry whose key was not met has one more
    miss, and is dropped at the third.  In particular, when the query
    returns no series at all, every entry of the state ages by one
    miss. *)
Theorem scan_ages_or_drops (rule : Rule.t) (ds : Datasource)
    (currentKeys : gset string) (results : gmap string queryResult)
    (state : queryState) (w : World) (k : string) :
  eval (scan_all currentKeys results (map_to_list results)) w !! k =
    (if bool_decide (k ∈ currentKeys) then results !! k
     else results !! k ≫= aged) /\
  lastResults (eval (queryPrometheus rule ds (Some []) state) w) !! k =
    lastResults state !! k ≫= aged.
Proof.
  assert (Hscan : forall results keys w,
    eval (scan_all keys results (map_to_list results)) w !! k =
    if bool_decide (k ∈ keys) then results !! k else results !! k ≫= aged).
  { intros res keys w0.
    rewrite scan_all_lookup by apply NoDup_fst_map_to_list.
    rewrite list_to_map_to_list.
    destruct (res !! k) as [l|]; simpl;
      destruct (bool_decide (k ∈ keys)); reflexivity. }
  split; [apply Hscan|].
  unfold queryPrometheus. cbn [imap observe_all].
  rewrite eval_bind. unfold mret at 1, M_ret at 1. unfold eval at 2.
  cbn [fst snd]. rewrite eval_bind, eval_bind.
  unfold eval at 1, mret, M_ret. cbn [fst lastResults].
  rewrite Hscan.
  rewrite bool_decide_eq_false_2 by set_solver. reflexivity.
Qed.

(** *** The miss counter stays within the grace period *)

Lemma upsert_state_or_fresh (rule : Rule.t) (ds : Datasource)
    (thresholds : option (list ThresholdLevel))
    (results : gmap string queryResult) (keys : gset string)
    (ir : nat * query.Series) :
  returns (fun acc' =>
             fst acc' = results \/
             exists k l, fst acc' = <[k := l]> results /\ MissCount l = 0)
          (observe rule ds thresholds (results, keys) ir).
Proof.
  destruct ir as [i r]. unfold observe.
  destruct (grade _ _ _) as [[severity annotations]|];
    [|apply returns_ret; left; reflexivity].
  cbv zeta.
  apply returns_bind. intros needsReprocess.
  match goal with |- returns _ (if ?b then _ else _) => destruct b end.
  - apply returns_bind. intros alertID.
    apply returns_bind. intros t.
    apply returns_bind. intros failed.
    destruct failed; [apply returns_ret; left; reflexivity|].
    apply returns_bind. intros alert.
    apply returns_bind. intros _.
    apply returns_bind. intros t'.
    apply returns_ret. right. eexists _, _. split; reflexivity.
  - destruct (results !! _) as [l|];
      [|apply returns_ret; left; reflexivity].
    destruct (0 <? MissCount l);
      [|apply returns_ret; left; reflexivity].
    apply returns_ret. right. eexists _, _. split; reflexivity.
Qed.

Lemma observe_all_within_grace (rule : Rule.t) (ds : Datasource)
    (thresholds : option (list ThresholdLevel))
    (series : list (nat * query.Series)) :
  forall acc, within_grace (fst acc) ->
    returns (fun acc' => within_grace (fst acc'))
            (observe_all rule ds thresholds acc series).
Proof.
  induction series as [|ir rest IH]; intros acc Hacc; cbn [observe_all].
  - apply returns_ret, Hacc.
  - intros w. rewrite eval_bind. apply IH.
    destruct acc as [results keys].
    destruct (upsert_state_or_fresh rule ds thresholds results keys ir w)
      as [->|(k & l & -> & Hl)]; [exact Hacc|].
    apply map_Forall_insert_2; [|exact Hacc].
    rewrite Hl. unfold resolveGracePeriod. lia.
Qed.

(** Whatever a query returns, an evaluation that starts from a state in
    which every miss counter is between 0 and 2 ends in such a state: an
    entry that reaches the third miss is gone from the state. *)
Theorem miss_count_within_grace (rule : Rule.t) (ds : Datasource)
    (result : option (list query.Series)) (state : queryState) (w : World) :
  within_grace (lastResults state) ->
  within_grace (lastResults (eval (queryPrometheus rule ds result state) w)).
Proof.
  intros Hstate. unfold queryPrometheus.
  destruct result as [series|]; [|exact Hstate].
  rewrite eval_bind.
  pose proof (observe_all_within_grace rule ds
                (ParseThresholds (Rule.Thresholds rule)) (imap pair series)
                (lastResults state, ∅) Hstate w) as Hobs.
  destruct (eval (observe_all _ _ _ _ _) w) as [results keys].
  cbn [fst] in Hobs.
  rewrite eval_bind, eval_bind. unfold eval at 1, mret, M_ret.
  cbn [fst lastResults].
  intros k l Hk.
  rewrite scan_all_lookup in Hk by apply NoDup_fst_map_to_list.
  rewrite list_to_map_to_list in Hk.
  destruct (results !! k) as [l0|] eqn:E0; [|discriminate].
  destruct (bool_decide (k ∈ keys)).
  - injection Hk as <-. exact (Hobs k l0 E0).
  - unfold aged in Hk. destruct (Z.ltb_spec (MissCount l0 + 1) resolveGracePeriod);
      [|discriminate].
    injection Hk as <-. specialize (Hobs k l0 E0). simpl in *. lia.
Qed.

End with_runtime.

(** *** The state of a rule, run *)

Import reference scenarios scheduler_spec.

Example check_interval_examples :
  parseInterval "" = Go.Minute /\ parseInterval "soon" = Go.Minute /\
  parseInterval "10s" = Go.Minute /\ parseInterval "5m" = 5 * Go.Minute.
Proof. vm_compute. repeat split; reflexivity. Qed.

Lemma check_interval_witness : parseInterval "5m" = Z.max (5 * Go.Minute) Go.Minute.
Proof.
  apply (proj2 (proj2 (check_interval_floor "5m")));
    [discriminate | vm_compute; reflexivity].
Defined.

(** The state after one evaluation that met the series. *)
Definition met_once : queryState * World :=
  evaluation calm 0 [sample "95"] (start calm).

Lemma miss_count_witness :
  within_grace
    (lastResults (eval (queryPrometheus up_rule prometheus (Some [])
                          (fst met_once)) (snd met_once))).
Proof.
  apply miss_count_within_grace.
  apply (bool_decide_unpack _). vm_compute. exact I.
Defined.

Lemma resolve_only_firing_witness :
  let w := snd met_once in
  let w' := exec (resolve "uuid-0") w in
  List.map (fun a => (Alert.ID a, Alert.Status a, Alert.ResolvedAt a)) (alerts w')
  = [("uuid-0", "resolved", Some (clock (env w) (ticks w)))].
Proof.
  intros w w'.
  assert (Hfound :
    (if String.eqb "uuid-0" "" || fault (env w) (inspected w) then None
     else List.find (has_id "uuid-0") (alerts w)) =
    Some (default Alert.zero (head (alerts w)))) by (vm_compute; reflexivity).
  assert (Hfiring : Alert.Status (default Alert.zero (head (alerts w))) = "firing")
    by (vm_compute; reflexivity).
  destruct (proj1 (resolve_only_firing "uuid-0" w) _ Hfound Hfiring) as [Hal _].
  fold w' in Hal. rewrite Hal. vm_compute. reflexivity.
Defined.

(** A row that a webhook has resolved is left alone, and the engine is
    handed nothing. *)
Example resolve_twice_is_once :
  let w1 := exec (resolve "uuid-0") (snd met_once) in
  let w2 := exec (resolve "uuid-0") w1 in
  alerts w2 = alerts w1 /\ alertQueue w2 = alertQueue w1.
Proof. vm_compute. split; reflexivity. Qed.

End scheduler_state.
(** ** What an evaluation does to the rows of the store *)

Module scheduler_history.
Import models world world_facts scheduler scheduler_state.

(** The primary key of the table: no two rows share an id. *)
Definition unique_ids (l : list Alert.t) : Prop := NoDup (List.map Alert.ID l).

(** The row [old] is still in the table [l], under its id, with the
    instant at which it started firing and its creation stamp. *)
Definition kept_row (old : Alert.t) (l : list Alert.t) : Prop :=
  exists new, new ∈ l /\ Alert.ID new = Alert.ID old /\
              Alert.FiringAt new = Alert.FiringAt old /\
              Alert.CreatedAt new = Alert.CreatedAt old.

(** From the table [l] to the table [l']: the ids stay unique, no row is
    deleted, and every row that has an id and a firing instant is kept. *)
Definition history_kept (l l' : list Alert.t) : Prop :=
  unique_ids l ->
  unique_ids l' /\ (length l <= length l')%nat /\
  forall old, old ∈ l -> Alert.ID old <> "" -> Alert.FiringAt old <> 0 ->
              kept_row old l'.

Definition keeps_history : relation World :=
  fun w w' => history_kept (alerts w) (alerts w').

(** What a row written over the rows of its id must have in common with
    them. *)
Definition agrees_with (a : Alert.t) (l : list Alert.t) : Prop :=
  unique_ids l ->
  forall old, old ∈ l -> Alert.ID old = Alert.ID a -> Alert.ID old <> "" ->
              Alert.FiringAt old <> 0 ->
              Alert.FiringAt a = Alert.FiringAt old /\
              Alert.CreatedAt a = Alert.CreatedAt old.

Lemma history_kept_refl (l : list Alert.t) : history_kept l l.
Proof.
  intros Hu. split; [exact Hu|]. split; [lia|].
  intros old Hin _ _. exists old. auto.
Qed.

Lemma history_kept_trans (l1 l2 l3 : list Alert.t) :
  history_kept l1 l2 -> history_kept l2 l3 -> history_kept l1 l3.
Proof.
  intros H12 H23 Hu. destruct (H12 Hu) as (Hu2 & Hlen12 & Hk12).
  destruct (H23 Hu2) as (Hu3 & Hlen23 & Hk23).
  split; [exact Hu3|]. split; [lia|].
  intros old Hin Hid Hf.
  destruct (Hk12 old Hin Hid Hf) as (mid & Hmid & Eid & Ef & Ec).
  destruct (Hk23 mid Hmid) as (new & Hnew & Eid' & Ef' & Ec');
    [congruence | congruence |].
  exists new. repeat split; [assumption | congruence..].
Qed.

#[global] Instance keeps_history_preorder : PreOrder keeps_history.
Proof.
  split.
  - intros w. apply history_kept_refl.
  - intros w1 w2 w3. apply history_kept_trans.
Qed.

Lemma same_alerts_keep_history (w w' : World) :
  alerts w' = alerts w -> keeps_history w w'.
Proof. intros E. unfold keeps_history. rewrite E. apply history_kept_refl. Qed.

Lemma unique_ids_eq (l : list Alert.t) (a b : Alert.t) :
  unique_ids l -> a ∈ l -> b ∈ l -> Alert.ID a = Alert.ID b -> a = b.
Proof.
  unfold unique_ids. induction l as [|x l IH]; intros Hu Ha Hb E.
  { inversion Ha. }
  simpl in Hu. apply NoDup_cons in Hu as [Hx Hl].
  assert (Hin : forall y, y ∈ l -> Alert.ID y <> Alert.ID x).
  { intros y Hy Ey. apply Hx. rewrite <- Ey.
    apply list_elem_of_In, in_map, list_elem_of_In, Hy. }
  apply elem_of_cons in Ha as [->|Ha]; apply elem_of_cons in Hb as [->|Hb].
  - reflexivity.
  - exfalso. apply (Hin b Hb). congruence.
  - exfalso. apply (Hin a Ha). congruence.
  - apply IH; assumption.
Qed.

(** Under a primary key, the lookup by the id of a row finds that row. *)
Lemma row_of_id (l : list Alert.t) (old : Alert.t) :
  unique_ids l -> old ∈ l ->
  List.find (has_id (Alert.ID old)) l = Some old.
Proof.
  intros Hu Hin.
  destruct (List.find (has_id (Alert.ID old)) l) as [x|] eqn:E.
  - apply find_some in E as [Hx Ex]. apply String.eqb_eq in Ex.
    f_equal. apply (unique_ids_eq l); auto. now apply list_elem_of_In.
  - exfalso.
    assert (Hf : has_id (Alert.ID old) old = false)
      by (apply (find_none _ _ E); now apply list_elem_of_In).
    unfold has_id in Hf. now rewrite String.eqb_refl in Hf.
Qed.

Lemma ids_replace_row (a : Alert.t) (l : list Alert.t) :
  List.map Alert.ID (replace_row a l) = List.map Alert.ID l.
Proof.
  unfold replace_row. rewrite List.map_map. apply List.map_ext.
  intros b. unfold has_id. destruct (String.eqb_spec (Alert.ID b) (Alert.ID a));
    congruence.
Qed.

Lemma not_exists_not_in (id : string) (l : list Alert.t) :
  existsb (has_id id) l = false -> id ∉ List.map Alert.ID l.
Proof.
  intros Hex Hin. apply list_elem_of_In, in_map_iff in Hin as (x & Ex & Hx).
  assert (existsb (has_id id) l = true); [|congruence].
  apply existsb_exists. exists x. split; [exact Hx|].
  now apply String.eqb_eq.
Qed.

(** A row is appended under an id that is not in the table. *)
Lemma append_keeps_history (a : Alert.t) (l : list Alert.t) :
  existsb (has_id (Alert.ID a)) l = false -> history_kept l (l ++ [a]).
Proof.
  intros Hex Hu. split; [|split].
  - unfold unique_ids in *. rewrite List.map_app. simpl.
    apply NoDup_app. split; [exact Hu|]. split.
    + intros x Hx Hx'. apply list_elem_of_singleton in Hx'. subst.
      now apply (not_exists_not_in _ _ Hex).
    + apply NoDup_singleton.
  - rewrite length_app. simpl. lia.
  - intros old Hin _ _. exists old. split; [|auto].
    apply elem_of_app. now left.
Qed.

(** The rows of an id are replaced by a row that agrees with them. *)
Lemma replace_keeps_history (a : Alert.t) (l : list Alert.t) :
  agrees_with a l -> history_kept l (replace_row a l).
Proof.
  intros Hsame Hu. specialize (Hsame Hu). split; [|split].
  - unfold unique_ids. now rewrite ids_replace_row.
  - unfold replace_row. now rewrite length_map.
  - intros old Hin Hid Hf.
    destruct (String.eqb_spec (Alert.ID old) (Alert.ID a)) as [E|E].
    + exists a. destruct (Hsame old Hin E Hid Hf) as [Ef Ec].
      repeat split; try congruence.
      apply list_elem_of_In, in_map_iff. exists old.
      split; [|now apply list_elem_of_In].
      unfold has_id. now rewrite (proj2 (String.eqb_eq _ _) E).
    + exists old. split; [|auto].
      apply list_elem_of_In, in_map_iff. exists old.
      split; [|now apply list_elem_of_In].
      unfold has_id. destruct (String.eqb_spec (Alert.ID old) (Alert.ID a));
        [contradiction | reflexivity].
Qed.

Lemma agrees_with_stamp (t : Go.Time) (a : Alert.t) (l : list Alert.t) :
  agrees_with a l -> agrees_with (Alert.with_UpdatedAt t a) l.
Proof. intros Hsame Hu old. apply (Hsame Hu old). Qed.

Lemma save_row_keeps_history (t : Go.Time) (a : Alert.t) (w : World) :
  agrees_with a (alerts w) -> keeps_history w (save_row t a w).
Proof.
  intros Hsame. unfold keeps_history, save_row.
  destruct (existsb (has_id (Alert.ID a)) (alerts w)) eqn:Hex; simpl.
  - apply replace_keeps_history, agrees_with_stamp, Hsame.
  - apply (append_keeps_history (stamp_new t a)).
    unfold stamp_new. destruct (Go.IsZero _); exact Hex.
Qed.

Lemma Save_keeps_history (a : Alert.t) (w : World) :
  agrees_with a (alerts w) -> keeps_history w (exec (Save a) w).
Proof.
  intros Hsame.
  change (exec (Save a) w)
    with (save_row (clock (env w) (ticks w)) a (set_ticks (S (ticks w)) w)).
  etransitivity; [|apply save_row_keeps_history; exact Hsame].
  now apply same_alerts_keep_history.
Qed.

Lemma Save_checked_keeps_history (a : Alert.t) (w : World) :
  agrees_with a (alerts w) -> keeps_history w (exec (Save_checked a) w).
Proof.
  intros Hsame. unfold Save_checked. rewrite exec_bind.
  change (exec faulty w) with (set_inspected (S (inspected w)) w).
  change (eval faulty w) with (fault (env w) (inspected w)).
  destruct (fault (env w) (inspected w)).
  - now apply same_alerts_keep_history.
  - rewrite exec_bind.
    change (exec (mret false) ?x) with x.
    etransitivity; [|apply Save_keeps_history; exact Hsame].
    now apply same_alerts_keep_history.
Qed.

Lemma Create_checked_run (a : Alert.t) (w : World) :
  let res := eval (Create_checked a) w in
  let w' := exec (Create_checked a) w in
  keeps_history w w' /\ (fst res = true \/ snd res <> 0).
Proof.
  unfold Create_checked, Create, eval, exec, faulty, now, get, modify, mbind,
    mret, M_bind, M_ret. simpl.
  destruct (fault (env w) (inspected w)); simpl;
    [split; [now apply same_alerts_keep_history | now left]|].
  destruct (existsb (has_id (Alert.ID a)) (alerts w)) eqn:Hex; simpl;
    [split; [now apply same_alerts_keep_history | now left]|].
  split; [|right; discriminate].
  unfold keeps_history. simpl.
  apply (append_keeps_history (stamp_new _ a)).
  unfold stamp_new. destruct (Go.IsZero _); exact Hex.
Qed.

(** The row as [upsert] writes it over a row it has found. *)
Lemma found_row_agrees (id : string) (a : Alert.t) (l : list Alert.t) :
  let found := default Alert.zero (List.find (has_id id) l) in
  Alert.ID a = id ->
  (Alert.ID found <> "" ->
   (Alert.FiringAt found <> 0 -> Alert.FiringAt a = Alert.FiringAt found) /\
   Alert.CreatedAt a = Alert.CreatedAt found) ->
  (Alert.ID found = "" -> id = "" \/ existsb (has_id id) l = false) ->
  agrees_with a l.
Proof.
  intros found Ea Hfound Hnone Hu old Hin Eid Hid Hf.
  assert (Efind : List.find (has_id id) l = Some old).
  { rewrite <- Ea, <- Eid. now apply row_of_id. }
  assert (Eold : found = old) by (unfold found; now rewrite Efind).
  rewrite Eold in *. destruct Hfound as [Hfa Hca]; [exact Hid|].
  split; [apply Hfa, Hf | exact Hca].
Qed.

Section with_runtime.
Context `{!Go.Runtime, !engine.Runtime, !scheduler.Runtime}.

Lemma upsert_keeps_history (hadResult : bool) (alert : Alert.t) :
  preserves keeps_history (upsert hadResult alert).
Proof.
  intros w. unfold upsert.
  destruct hadResult; cbn [negb]; rewrite exec_bind;
    change (exec (Find_by_id (Alert.ID alert)) w) with w;
    change (eval (Find_by_id (Alert.ID alert)) w)
      with (default Alert.zero (List.find (has_id (Alert.ID alert)) (alerts w)));
    set (found := default Alert.zero _).
  - (* the series is known: the row is written over *)
    apply Save_checked_keeps_history.
    apply (found_row_agrees (Alert.ID alert)); fold found.
    + destruct (negb (String.eqb (Alert.ID found) "")); reflexivity.
    + intros Hne.
      destruct (String.eqb_spec (Alert.ID found) ""); [contradiction|].
      split; reflexivity.
    + intros Ee. unfold found in Ee.
      destruct (List.find (has_id (Alert.ID alert)) (alerts w)) as [x|] eqn:Ex.
      * left. apply find_some in Ex as [_ Ex]. apply String.eqb_eq in Ex.
        simpl in Ee. congruence.
      * right. destruct (existsb _ _) eqn:Hex; [|reflexivity].
        apply existsb_exists in Hex as (y & Hy & Ey).
        rewrite (find_none _ _ Ex y Hy) in Ey. discriminate.
  - (* the series is new to the state *)
    destruct (String.eqb_spec (Alert.ID found) "") as [Ee|Ee]; cbn [negb].
    + (* no row of that id: insert, and write again if nothing was inserted *)
      rewrite exec_bind.
      destruct (Create_checked_run alert w) as [Hk Hres].
      destruct (eval (Create_checked alert) w) as [failed rows].
      cbn [fst snd] in *.
      destruct failed; [exact Hk|].
      destruct Hres as [Hres|Hres]; [discriminate|].
      destruct (Z.eqb_spec rows 0); [contradiction | exact Hk].
    + apply Save_checked_keeps_history.
      apply (found_row_agrees (Alert.ID alert)); fold found.
      * destruct (negb (Go.IsZero (Alert.FiringAt found))); reflexivity.
      * intros _. split; [|reflexivity].
        intros Hf. unfold Go.IsZero.
        destruct (Z.eqb_spec (Alert.FiringAt found) 0); [contradiction|].
        reflexivity.
      * intros ?. contradiction.
Qed.

Lemma observe_keeps_history (rule : Rule.t) (ds : Datasource)
    (thresholds : option (list ThresholdLevel))
    (acc : gmap string queryResult * gset string) (ir : nat * query.Series) :
  preserves keeps_history (observe rule ds thresholds acc ir).
Proof.
  destruct acc as [results keys], ir as [i r]. unfold observe.
  destruct (grade _ _ _) as [[severity annotations]|];
    [|apply preserves_ret, _].
  cbv zeta.
  apply preserves_bind; [apply _ | |intros needsReprocess].
  { destruct (_ && _); [|apply preserves_ret, _].
    intros w. now apply same_alerts_keep_history. }
  match goal with |- preserves _ (if ?b then _ else _) => destruct b end.
  - apply preserves_bind; [apply _ | |intros alertID].
    { destruct (String.eqb _ ""); [|apply preserves_ret, _].
      apply preserves_bind; [apply _ | |intros existingFiring].
      - intros w. now apply same_alerts_keep_history.
      - destruct (negb _); [apply preserves_ret, _|].
        intros w. now apply same_alerts_keep_history. }
    apply preserves_bind; [apply _ | |intros t].
    { intros w. now apply same_alerts_keep_history. }
    apply preserves_bind; [apply _ | apply upsert_keeps_history |intros failed].
    destruct failed; [apply preserves_ret, _|].
    apply preserves_bind; [apply _ | |intros alert].
    { intros w. now apply same_alerts_keep_history. }
    apply preserves_bind; [apply _ | |intros _].
    { intros w. unfold engine.ProcessAlertAsync, exec, get, modify, mbind,
        M_bind. simpl.
      destruct (_ <? _)%nat; now apply same_alerts_keep_history. }
    apply preserves_bind; [apply _ | |intros t'].
    { intros w. now apply same_alerts_keep_history. }
    apply preserves_ret, _.
  - destruct (results !! _) as [l|]; [|apply preserves_ret, _].
    destruct (0 <? MissCount l); apply preserves_ret, _.
Qed.

Lemma observe_all_keeps_history (rule : Rule.t) (ds : Datasource)
    (thresholds : option (list ThresholdLevel))
    (series : list (nat * query.Series)) :
  forall acc, preserves keeps_history (observe_all rule ds thresholds acc series).
Proof.
  induction series as [|ir rest IH]; intros acc; cbn [observe_all].
  - apply preserves_ret, _.
  - apply preserves_bind; [apply _ | apply observe_keeps_history | apply IH].
Qed.

Lemma resolve_keeps_history (alertID : string) :
  preserves keeps_history (resolve alertID).
Proof.
  intros w. unfold resolve.
  destruct (negb (String.eqb alertID "")); [|reflexivity].
  rewrite exec_bind.
  change (exec (First_by_id alertID) w) with (set_inspected (S (inspected w)) w).
  change (eval (First_by_id alertID) w)
    with (if fault (env w) (inspected w) then None
          else List.find (has_id alertID) (alerts w)).
  set (w1 := set_inspected (S (inspected w)) w).
  assert (Hw1 : keeps_history w w1) by now apply same_alerts_keep_history.
  destruct (fault (env w) (inspected w)); [exact Hw1|].
  destruct (List.find (has_id alertID) (alerts w)) as [row|] eqn:Efind;
    [|exact Hw1].
  destruct (String.eqb (Alert.Status row) "firing"); [|exact Hw1].
  rewrite exec_bind.
  change (exec now w1) with (set_ticks (S (ticks w1)) w1).
  set (w2 := set_ticks (S (ticks w1)) w1).
  set (row' := Alert.with_ResolvedAt _ _).
  rewrite exec_bind.
  assert (Hw2 : keeps_history w (exec (Save row') w2)).
  { etransitivity; [exact Hw1|].
    etransitivity; [|apply Save_keeps_history].
    - now apply same_alerts_keep_history.
    - intros Hu old Hin Eid Hid Hf.
      change (alerts w2) with (alerts w) in *.
      change (Alert.ID row') with (Alert.ID row) in Eid.
      assert (old = row) as ->; [|split; reflexivity].
      apply (unique_ids_eq (alerts w)); auto.
      apply find_some in Efind as [Hrow _]. now apply list_elem_of_In. }
  etransitivity; [exact Hw2|].
  rewrite exec_bind.
  etransitivity; [apply same_alerts_keep_history; reflexivity|].
  unfold engine.ProcessAlertAsync, exec, get, modify, mbind, M_bind. simpl.
  destruct (_ <? _)%nat; now apply same_alerts_keep_history.
Qed.

Lemma scan_all_keeps_history (currentKeys : gset string)
    (entries : list (string * queryResult)) :
  forall results,
    preserves keeps_history (scan_all currentKeys results entries).
Proof.
  induction entries as [|[k l] rest IH]; intros results; cbn [scan_all].
  - apply preserves_ret, _.
  - apply preserves_bind; [apply _ | |intros results'; apply IH].
    unfold scan_entry. destruct (bool_decide _); [apply preserves_ret, _|].
    cbv zeta. destruct (_ <? _); [apply preserves_ret, _|].
    apply preserves_bind; [apply _ | apply resolve_keeps_history |intros _].
    apply preserves_ret, _.
Qed.

(** An evaluation of a rule, whatever the query returned and whatever
    store calls failed, deletes no alert row, keeps the ids unique, and
    leaves every row that has an id and a firing instant under its id
    with that firing instant and its creation stamp: the scheduler
    updates and resolves rows, it does not restart them. *)
Theorem evaluation_keeps_history (rule : Rule.t) (ds : Datasource)
    (result : option (list query.Series)) (state : queryState) (w : World) :
  unique_ids (alerts w) ->
  let w' := exec (queryPrometheus rule ds result state) w in
  unique_ids (alerts w') /\ (length (alerts w) <= length (alerts w'))%nat /\
  forall old, old ∈ alerts w -> Alert.ID old <> "" -> Alert.FiringAt old <> 0 ->
    exists new, new ∈ alerts w' /\ Alert.ID new = Alert.ID old /\
                Alert.FiringAt new = Alert.FiringAt old /\
                Alert.CreatedAt new = Alert.CreatedAt old.
Proof.
  intros Hu w'.
  assert (Hk : preserves keeps_history (queryPrometheus rule ds result state)).
  { unfold queryPrometheus. destruct result as [series|];
      [|apply preserves_ret, _].
    apply preserves_bind; [apply _ | apply observe_all_keeps_history |].
    intros [results keys].
    apply preserves_bind; [apply _ | apply scan_all_keeps_history |].
    intros results'.
    apply preserves_bind; [apply _ | |intros t; apply preserves_ret, _].
    intros w0. now apply same_alerts_keep_history. }
  exact (Hk w Hu).
Qed.

End with_runtime.

(** *** An evaluation after a restart *)

Import reference scenarios scheduler_spec.

(** The store as a first evaluation left it, seen by a process that has
    lost the state of the rule, ten minutes later. *)
Definition restarted : queryState * World :=
  ({| lastResults := ∅; lastCheckTime := 0 |},
   with_env (later (10 * Go.Minute) calm) (snd met_once)).

Lemma evaluation_keeps_history_witness :
  let w := snd restarted in
  let w' := exec (queryPrometheus up_rule prometheus (Some [sample "97"])
                    (fst restarted)) w in
  let old := default Alert.zero (head (alerts w)) in
  unique_ids (alerts w') /\ (length (alerts w) <= length (alerts w'))%nat /\
  exists new, new ∈ alerts w' /\ Alert.ID new = Alert.ID old /\
              Alert.FiringAt new = Alert.FiringAt old /\
              Alert.CreatedAt new = Alert.CreatedAt old.
Proof.
  intros w w' old.
  assert (Hunique : unique_ids (alerts w)).
  { vm_compute. repeat constructor. intros Hin. inversion Hin. }
  destruct (evaluation_keeps_history up_rule prometheus (Some [sample "97"])
              (fst restarted) w Hunique) as (Hu & Hl & Hkept).
  split; [exact Hu|]. split; [exact Hl|].
  apply Hkept.
  - vm_compute. constructor.
  - vm_compute. discriminate.
  - vm_compute. discriminate.
Defined.

(** The evaluation after the restart takes over the firing row: one row,
    its id and its firing instant as before, the new value in its
    annotations. *)
Example restart_takes_over_firing_row :
  let w' := exec (queryPrometheus up_rule prometheus (Some [sample "97"])
                    (fst restarted)) (snd restarted) in
  List.map (fun a => (Alert.ID a, Alert.FiringAt a)) (alerts (snd restarted)) =
    List.map (fun a => (Alert.ID a, Alert.FiringAt a)) (alerts w') /\
  List.map (fun a => (Alert.ID a, Alert.Status a, Alert.Annotations a))
           (alerts w') = [("uuid-0", "firing", js "{'value':'97'}")] /\
  minted w' = minted (snd restarted).
Proof. vm_compute. repeat split; reflexivity. Qed.

End scheduler_history.
(** ** Pushed alerts: resolution, creation, and the count of the answer *)

Module inbound_rows.
Import models world world_facts inbound inbound_spec.

(** The row that a resolved payload writes over the firing row [old]:
    the payload gives the title, the labels, the annotations and the
    instant of resolution; the severity and the firing instant stay. *)
Definition resolved_in_place (old : Alert.t) (p : Pushed) (stamp : Go.Time)
  : Alert.t :=
  {| Alert.ID := Alert.ID old; Alert.SourceID := Alert.SourceID old;
     Alert.SourceType := Alert.SourceType old;
     Alert.ExternalID := Alert.ExternalID old;
     Alert.Title := title p; Alert.Severity := Alert.Severity old;
     Alert.Status := "resolved"; Alert.FiringAt := Alert.FiringAt old;
     Alert.ResolvedAt := resolvedAt p; Alert.Labels := labelsJSON p;
     Alert.Annotations := annotationsJSON p;
     Alert.CreatedAt := Alert.CreatedAt old; Alert.UpdatedAt := stamp |}.

(** The row that a payload without a firing row creates. *)
Definition created_row (id : string) (sourceID : N) (sourceType : string)
    (p : Pushed) (status : string) (stamp : Go.Time) : Alert.t :=
  {| Alert.ID := id; Alert.SourceID := sourceID; Alert.SourceType := sourceType;
     Alert.ExternalID := externalID p; Alert.Title := title p;
     Alert.Severity := severity p; Alert.Status := status;
     Alert.FiringAt := firingAt p;
     Alert.ResolvedAt := if String.eqb status "resolved" then resolvedAt p
                         else None;
     Alert.Labels := labelsJSON p; Alert.Annotations := annotationsJSON p;
     Alert.CreatedAt := stamp; Alert.UpdatedAt := stamp |}.

(** The table has grown by at least [n] rows. *)
Definition grown (n : nat) (w w' : World) : Prop :=
  (length (alerts w) + n <= length (alerts w'))%nat.

Lemma length_replace_row (a : Alert.t) (l : list Alert.t) :
  length (replace_row a l) = length l.
Proof. apply length_map. Qed.

(** What one pushed alert adds to the count of the answer. *)
Definition counts (b : bool) : nat := if b then 1%nat else 0%nat.


Section with_runtime.
Context `{!Go.Runtime, !engine.Runtime}.

Lemma ProcessAlert_keeps_minted (alert : Alert.t) :
  preserves (keeps minted) (engine.ProcessAlert alert).
Proof. frame. Qed.


(** [store_pushed] when a resolved payload finds its firing row. *)
Lemma store_pushed_resolved (sourceID : N) (sourceType : string)
    (p : Pushed) (w : World) (old : Alert.t) :
  status p = "resolved" ->
  eval (First_firing sourceID (externalID p)) w = Some old ->
  alerts (exec (store_pushed sourceID sourceType p) w) =
    replace_row (resolved_in_place old p (clock (env w) (ticks w))) (alerts w) /\
  eval (store_pushed sourceID sourceType p) w = false.
Proof.
  intros Hst Hfound.
  set (new := resolved_in_place old p (clock (env w) (ticks w))).
  destruct (First_firing_found _ _ _ _ Hfound) as (Hok & Hin & _).
  assert (Hex : existsb (has_id (Alert.ID old)) (alerts w) = true).
  { apply existsb_exists. exists old.
    split; [now apply list_elem_of_In | apply has_id_refl]. }
  unfold store_pushed, exec, eval. rewrite run_bind.
  fold (eval (First_firing sourceID (externalID p)) w). rewrite Hfound.
  rewrite Hst. cbn [String.eqb Ascii.eqb Bool.eqb].
  set (w0 := snd (First_firing sourceID (externalID p) w)).
  rewrite !run_bind.
  set (row := Alert.with_Annotations _ _).
  set (w1 := snd (Save row w0)).
  assert (A1 : alerts w1 = replace_row new (alerts w)).
  { unfold w1, Save, now, modify, mbind, M_bind, save_row. simpl.
    rewrite Hex. reflexivity. }
  set (w2 := snd (stored row w1)).
  assert (A2 : alerts w2 = alerts w1) by reflexivity.
  match goal with
  | |- context [engine.ProcessAlert ?a w2] =>
      pose proof (engine_frame.ProcessAlert_keeps_alerts a w2) as KA
  end.
  unfold keeps, exec in KA. unfold mret, M_ret. cbn [fst snd].
  split; [|reflexivity]. rewrite KA, A2, A1. reflexivity.
Qed.

(** A resolved payload that finds the firing row of its fingerprint
    resolves that row in place: the row keeps its id, its severity and its
    firing instant, and takes the status resolved and the instant of
    resolution of the payload, which is missing when [endsAt] is empty or
    does not parse; no row is added and none is counted as created. *)
Theorem webhook_resolves_in_place (sourceID : N) (sourceType : string)
    (p : Pushed) (w : World) (old : Alert.t) :
  status p = "resolved" ->
  eval (First_firing sourceID (externalID p)) w = Some old ->
  let new := resolved_in_place old p (clock (env w) (ticks w)) in
  alerts (exec (store_pushed sourceID sourceType p) w) =
    replace_row new (alerts w) /\
  length (alerts (exec (store_pushed sourceID sourceType p) w)) =
    length (alerts w) /\
  eval (store_pushed sourceID sourceType p) w = false /\
  (forall (a : GenericAlert) w0,
     resolvedAt (eval (generic_pushed sourceID a) w0) =
     if String.eqb (ga_EndsAt a) "" then None
     else Go.Parse_RFC3339 (ga_EndsAt a)) /\
  (forall (a : PrometheusAlert) w0,
     resolvedAt (eval (prometheus_pushed sourceID a) w0) =
     if String.eqb (pa_EndsAt a) "" then None
     else Go.Parse_RFC3339 (pa_EndsAt a)).
Proof.
  intros Hst Hfound new.
  assert (Hrun : alerts (exec (store_pushed sourceID sourceType p) w) =
                 replace_row new (alerts w) /\
                 eval (store_pushed sourceID sourceType p) w = false)
    by now apply store_pushed_resolved.
  destruct Hrun as [Hal Hev].
  split; [exact Hal|]. split; [rewrite Hal; apply length_replace_row|].
  split; [exact Hev|]. split.
  - intros a w0. unfold generic_pushed. rewrite eval_bind.
    unfold eval, mret, M_ret, parse_resolvedAt. cbn [fst resolvedAt].
    destruct (String.eqb (ga_EndsAt a) ""); reflexivity.
  - intros a w0. unfold prometheus_pushed. rewrite eval_bind.
    unfold eval, mret, M_ret, parse_resolvedAt. cbn [fst resolvedAt].
    destruct (String.eqb (pa_EndsAt a) ""); reflexivity.
Qed.


(** [store_pushed] when the lookup gives no firing row. *)
Lemma store_pushed_created (sourceID : N) (sourceType : string)
    (p : Pushed) (w : World) :
  eval (First_firing sourceID (externalID p)) w = None ->
  let id := uuid (env w) (minted w) in
  let stamp := clock (env w) (ticks w) in
  let taken := existsb (has_id id) (alerts w) in
  let w' := exec (store_pushed sourceID sourceType p) w in
  let counted := eval (store_pushed sourceID sourceType p) w in
  minted w' = S (minted w) /\
  (status p = "resolved" ->
   counted = false /\
   alerts w' =
     if taken then alerts w
     else alerts w ++ [created_row id sourceID sourceType p "resolved" stamp]) /\
  (status p <> "resolved" ->
   if fault (env w) (S (inspected w)) || taken
   then counted = false /\ alerts w' = alerts w
   else counted = true /\
        alerts w' =
          alerts w ++ [created_row id sourceID sourceType p "firing" stamp]).
Proof.
  intros Hfound id stamp taken w' counted.
  unfold w', counted, store_pushed, exec, eval. rewrite !run_bind.
  fold (eval (First_firing sourceID (externalID p)) w). rewrite Hfound.
  change (snd (First_firing sourceID (externalID p) w))
    with (set_inspected (S (inspected w)) w).
  set (w0 := set_inspected (S (inspected w)) w).
  destruct (String.eqb_spec (status p) "resolved") as [Hst|Hst].
  - (* a resolved row for the history *)
    rewrite !run_bind.
    change (fst (new_uuid w0)) with id.
    change (snd (new_uuid w0)) with (set_minted (S (minted w)) w0).
    set (w1 := set_minted (S (minted w)) w0).
    set (row := {| Alert.ID := id |}).
    assert (Hc : alerts (snd (Create row w1)) =
                 if taken then alerts w
                 else alerts w ++
                      [created_row id sourceID sourceType p "resolved" stamp]).
    { unfold Create, now, get, modify, mbind, mret, M_bind, M_ret. simpl.
      fold taken. destruct taken; reflexivity. }
    assert (Hm : minted (snd (Create row w1)) = S (minted w)).
    { unfold Create, now, get, modify, mbind, mret, M_bind, M_ret. simpl.
      destruct (existsb _ _); reflexivity. }
    set (w2 := snd (Create row w1)) in *.
    set (w3 := snd (stored row w2)).
    match goal with
    | |- context [engine.ProcessAlert ?a w3] =>
        pose proof (engine_frame.ProcessAlert_keeps_alerts a w3) as KA;
        pose proof (ProcessAlert_keeps_minted a w3) as KM
    end.
    unfold keeps, exec in KA, KM. unfold mret, M_ret. cbn [fst snd].
    split; [rewrite KM; exact Hm|]. split; [|intros; contradiction].
    intros _. split; [reflexivity|]. rewrite KA. exact Hc.
  - (* a firing row *)
    rewrite !run_bind.
    change (fst (new_uuid w0)) with id.
    change (snd (new_uuid w0)) with (set_minted (S (minted w)) w0).
    set (w1 := set_minted (S (minted w)) w0).
    set (row := {| Alert.ID := id |}).
    assert (Hc : Create_checked row w1 =
                 if fault (env w) (S (inspected w))
                 then ((true, 0), set_inspected (S (S (inspected w))) w1)
                 else if taken
                 then ((true, 0),
                       set_ticks (S (ticks w))
                         (set_inspected (S (S (inspected w))) w1))
                 else ((false, 1),
                       set_alerts
                         (alerts w ++
                          [created_row id sourceID sourceType p "firing" stamp])
                         (set_ticks (S (ticks w))
                            (set_inspected (S (S (inspected w))) w1)))).
    { unfold Create_checked, Create, faulty, now, get, modify, mbind, mret,
        M_bind, M_ret. simpl.
      destruct (fault (env w) (S (inspected w))); [reflexivity|]. simpl.
      fold taken. destruct taken; reflexivity. }
    rewrite Hc.
    destruct (fault (env w) (S (inspected w))); cbn [orb fst snd].
    { unfold mret, M_ret. cbn [fst snd].
      split; [reflexivity|]. split; [intros; contradiction|].
      intros _. split; reflexivity. }
    destruct taken; cbn [fst snd].
    { unfold mret, M_ret. cbn [fst snd].
      split; [reflexivity|]. split; [intros; contradiction|].
      intros _. split; reflexivity. }
    rewrite !run_bind.
    set (w2 := set_alerts _ _).
    set (w3 := snd (stored row w2)).
    match goal with
    | |- context [engine.ProcessAlert ?a w3] =>
        pose proof (engine_frame.ProcessAlert_keeps_alerts a w3) as KA;
        pose proof (ProcessAlert_keeps_minted a w3) as KM
    end.
    unfold keeps, exec in KA, KM. unfold mret, M_ret. cbn [fst snd].
    split; [rewrite KM; reflexivity|]. split; [intros; contradiction|].
    intros _. split; [reflexivity|]. rewrite KA. reflexivity.
Qed.

(** A payload that finds no firing row of its fingerprint, or whose
    lookup fails, gets a row of its own under a new identifier.  A firing
    row is counted as created when the insert succeeds; a resolved row is
    inserted for the history and is not counted.  When the insert fails,
    or the identifier is taken, the table is as before and nothing is
    counted. *)
Theorem webhook_creates_row (sourceID : N) (sourceType : string)
    (p : Pushed) (w : World) :
  eval (First_firing sourceID (externalID p)) w = None ->
  let id := uuid (env w) (minted w) in
  let stamp := clock (env w) (ticks w) in
  let taken := existsb (has_id id) (alerts w) in
  let w' := exec (store_pushed sourceID sourceType p) w in
  let counted := eval (store_pushed sourceID sourceType p) w in
  (status p = "resolved" ->
   counted = false /\
   alerts w' =
     if taken then alerts w
     else alerts w ++ [created_row id sourceID sourceType p "resolved" stamp]) /\
  (status p <> "resolved" ->
   if fault (env w) (S (inspected w)) || taken
   then counted = false /\ alerts w' = alerts w
   else counted = true /\
        alerts w' =
          alerts w ++ [created_row id sourceID sourceType p "firing" stamp]) /\
  grown (counts counted) w w'.
Proof.
  intros Hfound id stamp taken w' counted.
  destruct (store_pushed_created sourceID sourceType p w Hfound)
    as (_ & Hres & Hfir).
  fold id stamp taken w' counted in Hres, Hfir.
  split; [exact Hres|]. split; [exact Hfir|].
  unfold grown.
  destruct (String.eqb_spec (status p) "resolved") as [Hst|Hst].
  - destruct (Hres Hst) as [-> ->]. destruct taken; simpl; [lia|].
    rewrite length_app. simpl. lia.
  - specialize (Hfir Hst).
    destruct (fault (env w) (S (inspected w)) || taken);
      destruct Hfir as [-> ->]; simpl; [lia|].
    rewrite length_app. simpl. lia.
Qed.







End with_runtime.

Section answers.
Context `{!Go.Runtime, !engine.Runtime, !delivery.Runtime}.


End answers.

(** *** Pushed alerts, run *)

Import reference scenarios inbound_examples.

Definition resolved_push : Pushed :=
  eval (generic_pushed 1
          {| ga_Title := "disk full"; ga_Severity := "critical";
             ga_Status := "resolved"; ga_Labels := Some {[ "host" := "db1" ]};
             ga_Annotations := None; ga_StartsAt := ""; ga_EndsAt := "" |}) once.

(** A resolved payload without [endsAt]: the row is resolved, keeps the
    severity it had, and has no instant of resolution. *)
Lemma webhook_resolves_witness :
  List.map (fun a => (Alert.ID a, Alert.Status a, Alert.Severity a,
                      Alert.ResolvedAt a))
    (alerts (exec (store_pushed 1 "elasticsearch" resolved_push) once)) =
  [("uuid-0", "resolved", "warning", None)].
Proof.
  destruct (webhook_resolves_in_place 1 "elasticsearch" resolved_push once
              (default Alert.zero (head (alerts once)))) as (Hal & _).
  - vm_compute. reflexivity.
  - vm_compute. reflexivity.
  - rewrite Hal. vm_compute. reflexivity.
Defined.

Lemma webhook_creates_witness :
  let p := eval (generic_pushed 1 disk_full) empty_world in
  let w := exec (generic_pushed 1 disk_full) empty_world in
  eval (store_pushed 1 "elasticsearch" p) w = true /\
  List.map Alert.ID (alerts (exec (store_pushed 1 "elasticsearch" p) w)) =
  ["uuid-0"].
Proof.
  intros p w.
  destruct (webhook_creates_row 1 "elasticsearch" p w) as (_ & Hfir & _).
  - vm_compute. reflexivity.
  - assert (Hst : status p <> "resolved") by (vm_compute; discriminate).
    specialize (Hfir Hst).
    assert (E : fault (env w) (S (inspected w))
                || existsb (has_id (uuid (env w) (minted w))) (alerts w) = false)
      by (vm_compute; reflexivity).
    rewrite E in Hfir. destruct Hfir as [Hc Hal].
    split; [exact Hc|]. rewrite Hal. vm_compute. reflexivity.
Defined.

(** A lookup that fails while a firing row exists: the payload gets a
    second firing row for the same fingerprint. *)
Example failed_lookup_duplicates_firing_row :
  let flaky : Env :=
    {| clock := clock calm; uuid := uuid calm; fault := fun n => (n =? 3)%nat;
       transport := transport calm; tracker := tracker calm;
       render := render calm |} in
  let w1 := exec (GenericHandler_Serve elastic push)
              (world_of flaky [] [] []) in
  let w2 := exec (GenericHandler_Serve elastic push) w1 in
  List.map (fun a => (Alert.ID a, Alert.Status a)) (alerts w2) =
    [("uuid-0", "firing"); ("uuid-1", "firing")] /\
  List.map Alert.ExternalID (alerts w2) =
    List.map Alert.ExternalID (alerts w1 ++ alerts w1).
Proof. vm_compute. split; reflexivity. Qed.

(** A first push to a store with a rule and a channel: the alert is
    created, notified, and counted. *)
Definition notifying_world : World :=
  world_of calm [rule 1 "[7]" false "" "" "" ""] [channel 7 true] [].


Example served_and_notified :
  eval (GenericHandler_Serve elastic push) notifying_world =
    {| code := 200; received := 1; created := 1 |} /\
  outcome (exec (GenericHandler_Serve elastic push) notifying_world) =
    ([(false, "disk full")], [(7%N, true, "")]).
Proof. vm_compute. split; reflexivity. Qed.

End inbound_rows.
(** ** From the threshold level to the channels of the notification *)

Module scheduler_routing.
Import models world world_facts scheduler engine.

Lemma Marshal_uints_not_empty (l : list N) : Go.Marshal_uints l <> "".
Proof. unfold Go.Marshal_uints. simpl. discriminate. Qed.

(** Between two worlds the log has only grown, and every record added
    is a record of the alert on one of the channels [ids]. *)
Definition routed (ids : list N) (alertID : string) : relation World :=
  fun w w' =>
    exists extra,
      send_records w' = send_records w ++ extra /\
      Forall (fun rec => AlertSendRecord.ChannelID rec ∈ ids /\
                         AlertSendRecord.AlertID rec = alertID) extra.

#[global] Instance routed_preorder (ids : list N) (alertID : string) :
  PreOrder (routed ids alertID).
Proof.
  split.
  - intros w. exists []. split; [now rewrite app_nil_r | constructor].
  - intros w1 w2 w3 (e1 & E1 & F1) (e2 & E2 & F2). exists (e1 ++ e2).
    split; [rewrite E2, E1; now rewrite app_assoc | now apply Forall_app].
Qed.

Lemma routed_same (ids : list N) (alertID : string) (w w' : World) :
  send_records w' = send_records w -> routed ids alertID w w'.
Proof.
  intros E. exists []. split; [now rewrite app_nil_r | constructor].
Qed.

(** Between two worlds the engine was handed alerts, all of them
    [good], and lost none. *)
Definition hands (good : Alert.t -> Prop) : relation World :=
  fun w w' =>
    exists queued detached,
      alertQueue w' = alertQueue w ++ queued /\
      spawned w' = spawned w ++ detached /\
      Forall good (queued ++ detached).

#[global] Instance hands_preorder (good : Alert.t -> Prop) :
  PreOrder (hands good).
Proof.
  split.
  - intros w. exists [], []. rewrite !app_nil_r.
    split; [reflexivity|]. split; [reflexivity|]. constructor.
  - intros w1 w2 w3 (q1 & s1 & Q1 & S1 & F1) (q2 & s2 & Q2 & S2 & F2).
    exists (q1 ++ q2), (s1 ++ s2).
    split; [rewrite Q2, Q1; now rewrite app_assoc|].
    split; [rewrite S2, S1; now rewrite app_assoc|].
    apply Forall_app in F1 as [Fq1 Fs1]. apply Forall_app in F2 as [Fq2 Fs2].
    repeat (apply Forall_app; split); assumption.
Qed.

Lemma hands_same (good : Alert.t -> Prop) (w w' : World) :
  alertQueue w' = alertQueue w -> spawned w' = spawned w -> hands good w w'.
Proof.
  intros Q S. exists [], []. rewrite !app_nil_r.
  split; [exact Q|]. split; [exact S|]. constructor.
Qed.

(** The fields of an alert that a notification is made of. *)
Definition notice (a b : Alert.t) : Prop :=
  Alert.ID b = Alert.ID a /\ Alert.Severity b = Alert.Severity a /\
  Alert.Annotations b = Alert.Annotations a /\
  Alert.Status b = Alert.Status a /\ Alert.Labels b = Alert.Labels a /\
  Alert.Title b = Alert.Title a.

Lemma notice_refl (a : Alert.t) : notice a a.
Proof. repeat split. Qed.

Lemma find_snoc_new (id : string) (l : list Alert.t) (a : Alert.t) :
  existsb (has_id id) l = false -> Alert.ID a = id ->
  List.find (has_id id) (l ++ [a]) = Some a.
Proof.
  intros Hex Ea. induction l as [|b l IH]; simpl in *.
  - unfold has_id. rewrite Ea, String.eqb_refl. reflexivity.
  - destruct (has_id id b); [discriminate|]. apply IH, Hex.
Qed.

(** After [Save], the row of the id is the struct that was saved. *)
Lemma save_row_stores (t : Go.Time) (a : Alert.t) (w : World) :
  exists row,
    List.find (has_id (Alert.ID a)) (alerts (save_row t a w)) = Some row /\
    notice a row.
Proof.
  unfold save_row.
  destruct (existsb (has_id (Alert.ID a)) (alerts w)) eqn:Hex; simpl.
  - exists (Alert.with_UpdatedAt t a). split; [|repeat split].
    apply (scheduler_state.find_replace_row_id (Alert.with_UpdatedAt t a)).
    exact Hex.
  - exists (stamp_new t a). split.
    + apply find_snoc_new; [exact Hex|].
      unfold stamp_new. destruct (Go.IsZero _); reflexivity.
    + unfold stamp_new. destruct (Go.IsZero _); repeat split.
Qed.

Lemma notice_trans (a b c : Alert.t) : notice a b -> notice b c -> notice a c.
Proof.
  intros (A1 & A2 & A3 & A4 & A5 & A6) (B1 & B2 & B3 & B4 & B5 & B6).
  repeat split; congruence.
Qed.

Lemma Save_checked_stores (a : Alert.t) (w : World) :
  eval (Save_checked a) w = false ->
  exists row,
    List.find (has_id (Alert.ID a)) (alerts (exec (Save_checked a) w)) = Some row /\
    notice a row.
Proof.
  unfold Save_checked, Save, eval, exec, faulty, now, modify, mbind, mret,
    M_bind, M_ret. simpl.
  destruct (fault (env w) (inspected w)); simpl; [discriminate|].
  intros _. apply save_row_stores.
Qed.

Lemma Create_checked_stores (a : Alert.t) (w : World) :
  fst (eval (Create_checked a) w) = false ->
  snd (eval (Create_checked a) w) <> 0 /\
  exists row,
    List.find (has_id (Alert.ID a)) (alerts (exec (Create_checked a) w))
      = Some row /\
    notice a row.
Proof.
  unfold Create_checked, Create, eval, exec, faulty, now, get, modify, mbind,
    mret, M_bind, M_ret. simpl.
  destruct (fault (env w) (inspected w)); simpl; [discriminate|].
  destruct (existsb (has_id (Alert.ID a)) (alerts w)) eqn:Hex; simpl;
    [discriminate|].
  intros _. split; [discriminate|].
  exists (stamp_new (clock (env w) (ticks w)) a). split.
  - apply find_snoc_new; [exact Hex|].
    unfold stamp_new. destruct (Go.IsZero _); reflexivity.
  - unfold stamp_new. destruct (Go.IsZero _); repeat split.
Qed.

Section with_runtime.
Context `{!Go.Runtime, !engine.Runtime, !scheduler.Runtime}.

Lemma Marshal_map_not_empty (m : gmap string string) :
  Go.Marshal_map (Some m) <> "".
Proof. unfold Go.Marshal_map. simpl. discriminate. Qed.

(** *** The scheduler: what is handed to the engine *)

(** When [upsert] reports no failure, the row that the store holds under
    the id of the alert is the alert, as far as a notification reads
    it. *)
Lemma upsert_stores (hadResult : bool) (alert : Alert.t) (w : World) :
  eval (upsert hadResult alert) w = false ->
  notice alert (eval (stored alert) (exec (upsert hadResult alert) w)).
Proof.
  assert (Hstored : forall (a' : Alert.t) (w1 : World) (row : Alert.t),
            Alert.ID a' = Alert.ID alert -> notice alert a' ->
            List.find (has_id (Alert.ID a')) (alerts w1) = Some row ->
            notice a' row ->
            notice alert (eval (stored alert) w1)).
  { intros a' w1 row Eid Ha' Hfind Hrow.
    unfold stored, eval, get, mbind, mret, M_bind, M_ret. simpl.
    rewrite <- Eid, Hfind. simpl. exact (notice_trans _ _ _ Ha' Hrow). }
  unfold upsert.
  destruct hadResult; cbn [negb]; rewrite eval_bind, exec_bind;
    change (exec (Find_by_id (Alert.ID alert)) w) with w;
    change (eval (Find_by_id (Alert.ID alert)) w)
      with (default Alert.zero (List.find (has_id (Alert.ID alert)) (alerts w)));
    set (found := default Alert.zero _).
  - set (a' := if negb (String.eqb (Alert.ID found) "") then _ else alert).
    assert (Ha' : Alert.ID a' = Alert.ID alert /\ notice alert a').
    { unfold a'. destruct (negb _); split; try reflexivity; repeat split. }
    destruct Ha' as [Eid Ha'].
    intros Hok. destruct (Save_checked_stores a' w Hok) as (row & Hfind & Hrow).
    exact (Hstored a' _ row Eid Ha' Hfind Hrow).
  - destruct (negb (String.eqb (Alert.ID found) "")).
    + set (a' := Alert.with_CreatedAt _ _).
      assert (Ha' : Alert.ID a' = Alert.ID alert /\ notice alert a').
      { unfold a'. destruct (negb _); split; try reflexivity; repeat split. }
      destruct Ha' as [Eid Ha'].
      intros Hok.
      destruct (Save_checked_stores a' w Hok) as (row & Hfind & Hrow).
      exact (Hstored a' _ row Eid Ha' Hfind Hrow).
    + rewrite eval_bind, exec_bind.
      destruct (fst (eval (Create_checked alert) w)) eqn:Hfailed.
      * intros Hok. discriminate Hok.
      * destruct (Create_checked_stores alert w Hfailed)
          as (Hrows & row & Hfind & Hrow).
        destruct (Z.eqb_spec (snd (eval (Create_checked alert) w)) 0)
          as [E0|_]; [contradiction|].
        intros _.
        exact (Hstored alert _ row eq_refl (notice_refl alert) Hfind Hrow).
Qed.

Lemma upsert_keeps_alertQueue (hadResult : bool) (alert : Alert.t) :
  preserves (keeps alertQueue) (upsert hadResult alert).
Proof.
  unfold upsert.
  frame_with ltac:(intros ?; unfold keeps, exec, modify, save_row; simpl;
                   try destruct (existsb _ _); reflexivity).
Qed.

Lemma upsert_keeps_spawned (hadResult : bool) (alert : Alert.t) :
  preserves (keeps spawned) (upsert hadResult alert).
Proof.
  unfold upsert.
  frame_with ltac:(intros ?; unfold keeps, exec, modify, save_row; simpl;
                   try destruct (existsb _ _); reflexivity).
Qed.

(** The alert that an evaluation hands over for a series: it carries the
    severity and the annotations that [grade] makes of the value of the
    series, the labels of the series, and it is firing. *)
Definition graded (rule : Rule.t) (thresholds : option (list ThresholdLevel))
    (series : query.Series) (a : Alert.t) : Prop :=
  exists severity annotations,
    grade rule thresholds (query.GetValue (query.Value series))
      = Some (severity, annotations) /\
    Alert.Severity a = severity /\
    Alert.Annotations a = Go.Marshal_map (Some annotations) /\
    Alert.Status a = "firing" /\
    Alert.Labels a = Go.Marshal_map (Some (default ∅ (query.Metric series))).

(** The end of the loop body of [observe], from the write of the row
    on. *)
Lemma hand_over (good : Alert.t -> Prop) (hadResult : bool) (alert : Alert.t)
    {A} (skipped : A) (kept : Go.Time -> A) :
  (forall a, notice alert a -> good a) ->
  preserves (hands good)
    (failed ← upsert hadResult alert;
     if failed : bool then mret skipped
     else (alert ← stored alert;
           engine.ProcessAlertAsync alert ;;
           t ← now;
           mret (kept t))).
Proof.
  intros Hgood w. rewrite exec_bind.
  pose proof (upsert_keeps_alertQueue hadResult alert w) as KQ.
  pose proof (upsert_keeps_spawned hadResult alert w) as KS.
  unfold keeps in KQ, KS.
  destruct (eval (upsert hadResult alert) w) eqn:Hfailed.
  - apply hands_same; assumption.
  - pose proof (upsert_stores hadResult alert w Hfailed) as Hn.
    set (w1 := exec (upsert hadResult alert) w) in *.
    rewrite exec_bind.
    change (exec (stored alert) w1) with w1.
    set (a := eval (stored alert) w1) in *.
    unfold engine.ProcessAlertAsync, exec, get, modify, now, mbind, mret,
      M_bind, M_ret. simpl.
    destruct (length (alertQueue w1) <? queue_capacity)%nat; simpl.
    + exists [a], []. cbn [alertQueue spawned set_ticks set_alertQueue app].
      rewrite KQ, KS, app_nil_r.
      split; [reflexivity|]. split; [reflexivity|].
      constructor; [apply Hgood, Hn | constructor].
    + exists [], [a]. cbn [alertQueue spawned set_ticks set_spawned app].
      rewrite KQ, KS, app_nil_r.
      split; [reflexivity|]. split; [reflexivity|].
      constructor; [apply Hgood, Hn | constructor].
Qed.

Lemma observe_hands (rule : Rule.t) (ds : Datasource)
    (thresholds : option (list ThresholdLevel))
    (acc : gmap string queryResult * gset string) (i : nat)
    (series : query.Series) :
  preserves (hands (graded rule thresholds series))
            (observe rule ds thresholds acc (i, series)).
Proof.
  destruct acc as [results keys]. unfold observe.
  destruct (grade _ _ _) as [[severity annotations]|] eqn:Hgrade;
    [|apply preserves_ret, _].
  cbv zeta.
  apply preserves_bind; [apply _ | |intros needsReprocess].
  { destruct (_ && _); [|apply preserves_ret, _].
    intros w. apply hands_same; reflexivity. }
  match goal with |- preserves _ (if ?b then _ else _) => destruct b end.
  - apply preserves_bind; [apply _ | |intros alertID].
    { destruct (String.eqb _ ""); [|apply preserves_ret, _].
      apply preserves_bind; [apply _ | |intros existingFiring].
      - intros w. apply hands_same; reflexivity.
      - destruct (negb _); [apply preserves_ret, _|].
        intros w. apply hands_same; reflexivity. }
    apply preserves_bind; [apply _ | |intros t].
    { intros w. apply hands_same; reflexivity. }
    apply hand_over.
    intros a (_ & Hsev & Hann & Hst & Hlab & _).
    exists severity, annotations. rewrite Hsev, Hann, Hst, Hlab.
    repeat split; try reflexivity. exact Hgrade.
  - destruct (results !! _) as [l|]; [|apply preserves_ret, _].
    destruct (0 <? MissCount l); apply preserves_ret, _.
Qed.

Lemma find_none_of_existsb (id : string) (l : list Alert.t) :
  existsb (has_id id) l = false -> List.find (has_id id) l = None.
Proof.
  induction l as [|b l IH]; simpl; [reflexivity|].
  destruct (has_id id b); [discriminate | exact IH].
Qed.

Lemma observe_new_series (rule : Rule.t) (ds : Datasource)
    (thresholds : option (list ThresholdLevel))
    (results : gmap string queryResult) (keys : gset string) (i : nat)
    (series : query.Series) (severity : string)
    (annotations : gmap string string) (w : World) :
  let metric := default ∅ (query.Metric series) in
  let key := series_key rule ds i metric in
  let id := uuid (env w) (minted w) in
  grade rule thresholds (query.GetValue (query.Value series))
    = Some (severity, annotations) ->
  results !! key = None ->
  List.find (is_firing (ds_ID ds) key) (alerts w) = None ->
  existsb (has_id id) (alerts w) = false ->
  fault (env w) (inspected w) = false ->
  let w' := exec (observe rule ds thresholds (results, keys) (i, series)) w in
  exists a,
    ((alertQueue w' = alertQueue w ++ [a] /\ spawned w' = spawned w) \/
     (alertQueue w' = alertQueue w /\ spawned w' = spawned w ++ [a])) /\
    Alert.ID a = id /\ Alert.Severity a = severity /\
    Alert.Annotations a = Go.Marshal_map (Some annotations) /\
    Alert.Status a = "firing" /\ Alert.FiringAt a = clock (env w) (ticks w).
Proof.
  intros metric key id Hgrade Hlast Hnofiring Hfresh Hok w'.
  unfold w', observe. rewrite Hgrade. cbv zeta. fold metric. fold key.
  rewrite Hlast.
  unfold Find_firing, new_uuid, now, upsert, Find_by_id, Create_checked, Create,
    faulty, stored, engine.ProcessAlertAsync, get, modify, exec, eval, mbind,
    mret, M_bind, M_ret. simpl.
  rewrite Hnofiring. simpl. fold id.
  rewrite (find_none_of_existsb _ _ Hfresh). simpl.
  rewrite Hok. simpl. rewrite Hfresh. simpl.
  match goal with
  | |- context [find (has_id id) (alerts w ++ [?x])] =>
      rewrite (find_snoc_new id (alerts w) x Hfresh)
        by (unfold stamp_new; destruct (Go.IsZero _); reflexivity)
  end.
  simpl.
  destruct (length (alertQueue w) <? queue_capacity)%nat; simpl;
    eexists; (split; [first [left; split; reflexivity
                            | right; split; reflexivity]|]);
    unfold stamp_new; simpl; repeat split.
Qed.

(** *** The engine: where a notification goes *)

Lemma for_each_in {A} (R : relation World) `{!PreOrder R} (l : list A)
    (body : A -> M unit) :
  (forall x, x ∈ l -> preserves R (body x)) -> preserves R (for_each l body).
Proof.
  induction l as [|x l IH]; intros Hb; simpl.
  - apply preserves_ret, _.
  - apply preserves_bind; [apply _ | apply Hb; left | intros _].
    apply IH. intros y Hy. apply Hb. now right.
Qed.

Lemma Create_record_routed (ids : list N) (alertID : string) (chID : N)
    (ok : bool) (err : string) :
  chID ∈ ids -> preserves (routed ids alertID) (Create_record alertID chID ok err).
Proof.
  intros Hin w. eexists. split; [reflexivity|].
  constructor; [split; [exact Hin | reflexivity] | constructor].
Qed.

(** A step that leaves the log alone. *)
Ltac silent :=
  frame_with ltac:(intros ?; apply routed_same; reflexivity).

Lemma deliver_routed (ids : list N) (alert : Alert.t) (title body : string)
    (chID : N) :
  chID ∈ ids -> preserves (routed ids (Alert.ID alert))
                          (deliver alert title body chID).
Proof.
  intros Hin. unfold deliver.
  apply preserves_bind; [apply _ | silent | intros ch].
  destruct ch as [ch|]; [|now apply Create_record_routed].
  destruct (Channel.Enabled ch); [|now apply Create_record_routed].
  apply preserves_bind; [apply _ | silent | intros err].
  destruct err; now apply Create_record_routed.
Qed.

Lemma deliver_recovery_routed (ids : list N) (alert : Alert.t)
    (title body : string) (chID : N) :
  chID ∈ ids -> preserves (routed ids (Alert.ID alert))
                          (deliver_recovery alert title body chID).
Proof.
  intros Hin. unfold deliver_recovery.
  apply preserves_bind; [apply _ | silent | intros ch].
  destruct ch as [ch|]; [|apply preserves_ret, _].
  destruct (Channel.Enabled ch); [|apply preserves_ret, _].
  apply preserves_bind; [apply _ | silent | intros err].
  destruct err; now apply Create_record_routed.
Qed.

Lemma dispatch_routed (ids : list N) (r : Rule.t) (alert : Alert.t)
    (title body : string) (chID : N) :
  chID ∈ ids -> preserves (routed ids (Alert.ID alert))
                          (dispatch r alert title body chID).
Proof.
  intros Hin. unfold dispatch.
  apply preserves_bind; [apply _ | silent | intros limited].
  destruct limited; [apply preserves_ret, _ | now apply deliver_routed].
Qed.

Lemma recover_routed (ids : list N) (alert : Alert.t) (title body : string)
    (chID : N) :
  chID ∈ ids -> preserves (routed ids (Alert.ID alert))
                          (recover alert title body chID).
Proof.
  intros Hin. unfold recover.
  apply preserves_bind; [apply _ | silent | intros already].
  destruct already; [apply preserves_ret, _ | now apply deliver_recovery_routed].
Qed.

Lemma sendAggregated_routed (r : Rule.t) (alert : Alert.t)
    (labels : gmap string string) (title body : string) (channelIDs : list N) :
  preserves (routed channelIDs (Alert.ID alert))
            (sendAggregated r alert labels title body channelIDs).
Proof.
  unfold sendAggregated. cbv zeta.
  apply preserves_bind; [apply _ | silent | intros t].
  apply preserves_bind; [apply _ | silent | intros bad].
  apply preserves_bind; [apply _ | silent | intros w0].
  destruct (_ || _); [apply preserves_ret, _|].
  apply preserves_bind; [apply _ | | intros recent].
  { destruct (Go.IsZero _); silent. }
  destruct recent; [apply preserves_ret, _|].
  apply preserves_bind; [apply _ | | intros _].
  { apply for_each_in; [apply _|]. intros x Hx. now apply dispatch_routed. }
  silent.
Qed.

(** Whatever a rule makes of an alert, the records it writes are records
    of that alert on the channels that [resolve_channels] gives. *)
Lemma process_rule_routed (alert : Alert.t) (labels : gmap string string)
    (r : Rule.t) :
  preserves (routed (resolve_channels r alert) (Alert.ID alert))
            (process_rule alert labels r).
Proof.
  unfold process_rule.
  apply preserves_bind; [apply _ | silent | intros _].
  destruct (negb _); [apply preserves_ret, _|].
  cbv zeta. destruct (_ =? _)%nat; [apply preserves_ret, _|].
  destruct (_ && _).
  { apply preserves_bind; [apply _ | silent | intros sendAt].
    apply preserves_bind; [apply _ | silent | intros w0].
    apply for_each_in; [apply _|]. intros x Hx. now apply recover_routed. }
  destruct (negb _); [apply preserves_ret, _|].
  apply preserves_bind; [apply _ | silent | intros ok].
  destruct (negb ok); [apply preserves_ret, _|].
  apply preserves_bind; [apply _ | silent | intros excl].
  destruct excl; [apply preserves_ret, _|].
  apply preserves_bind; [apply _ | silent | intros sup].
  destruct sup; [apply preserves_ret, _|].
  apply preserves_bind; [apply _ | silent | intros sendAt].
  apply preserves_bind; [apply _ | silent | intros w0].
  apply preserves_bind; [apply _ | silent | intros _].
  destruct (_ && _).
  - apply sendAggregated_routed.
  - apply for_each_in; [apply _|]. intros x Hx. now apply dispatch_routed.
Qed.

(** The channels of an alert that carries the annotations of a level. *)
Lemma resolve_channels_of_level (rule r : Rule.t)
    (levels : list ThresholdLevel) (value : float) (matched : ThresholdLevel)
    (severity : string) (annotations : gmap string string) (alert : Alert.t) :
  MatchThreshold levels value = Some matched ->
  grade rule (Some levels) value = Some (severity, annotations) ->
  Alert.Annotations alert = Go.Marshal_map (Some annotations) ->
  Go.json_unmarshal_map (Go.Marshal_map (Some annotations))
    = (Some annotations, false) ->
  Go.json_unmarshal_uints (Go.Marshal_uints (ChannelIDs matched))
    = (ChannelIDs matched, false) ->
  severity = (if String.eqb (th_Severity matched) "" then "warning"
              else th_Severity matched) /\
  resolve_channels r alert =
    if (length (ChannelIDs matched) =? 0)%nat
    then fst (Go.json_unmarshal_uints (Rule.ChannelIDs r))
    else ChannelIDs matched.
Proof.
  intros Hm Hgrade Hann Hback Hids.
  unfold grade in Hgrade. rewrite Hm in Hgrade.
  injection Hgrade as <- <-. split; [reflexivity|].
  unfold resolve_channels, annotationValue.
  destruct (String.eqb_spec (Alert.Annotations alert) "") as [E|_].
  { exfalso. rewrite Hann in E. exact (Marshal_map_not_empty _ E). }
  rewrite Hann, Hback. cbn [default from_option].
  destruct (ChannelIDs matched) as [|c cs] eqn:Ec.
  - (* the level names no channel *)
    cbn [length Nat.ltb Nat.leb Nat.eqb].
    unfold Go.index, id. rewrite lookup_singleton_ne by discriminate.
    reflexivity.
  - cbn [length Nat.ltb Nat.leb Nat.eqb].
    unfold Go.index, id. rewrite lookup_insert_eq. cbn [default from_option].
    unfold id.
    destruct (String.eqb_spec (Go.Marshal_uints (c :: cs)) "") as [E|_].
    { exfalso. exact (Marshal_uints_not_empty _ E). }
    cbn [negb]. rewrite Hids. reflexivity.
Qed.

(** From the value of a series to the channels of its notification.
    The value matches the threshold level [matched].  Then every alert
    that the scheduler hands to the engine for the series is firing and
    carries the severity of the level, [warning] when the level names
    none; and whatever rule the engine tries on that alert, the channels
    of the notification are those of the level, or those of the rule
    when the level names no channel, and every send record that the rule
    writes is a record of that alert on one of these channels.  For a
    series that is new to the state of the rule and to the store, with a
    store that works, one alert is handed over, under a fresh id.  The
    annotations travel as JSON: the statement holds for a runtime that
    reads back what it wrote. *)
Theorem threshold_channels_reach_engine (rule : Rule.t) (ds : Datasource)
    (levels : list ThresholdLevel) (results : gmap string queryResult)
    (keys : gset string) (i : nat) (series : query.Series)
    (matched : ThresholdLevel) (w : World) :
  let value := query.GetValue (query.Value series) in
  let key := series_key rule ds i (default ∅ (query.Metric series)) in
  let severity := if String.eqb (th_Severity matched) "" then "warning"
                  else th_Severity matched in
  let channels_of (r : Rule.t) :=
    if (length (ChannelIDs matched) =? 0)%nat
    then fst (Go.json_unmarshal_uints (Rule.ChannelIDs r))
    else ChannelIDs matched in
  let w' := exec (observe rule ds (Some levels) (results, keys) (i, series)) w in
  MatchThreshold levels value = Some matched ->
  (forall sev ann,
     grade rule (Some levels) value = Some (sev, ann) ->
     Go.json_unmarshal_map (Go.Marshal_map (Some ann)) = (Some ann, false)) ->
  Go.json_unmarshal_uints (Go.Marshal_uints (ChannelIDs matched))
    = (ChannelIDs matched, false) ->
  (exists queued detached,
     alertQueue w' = alertQueue w ++ queued /\
     spawned w' = spawned w ++ detached /\
     forall a, a ∈ queued ++ detached ->
       Alert.Severity a = severity /\ Alert.Status a = "firing" /\
       forall (r : Rule.t) (labels : gmap string string) (w0 : World),
         resolve_channels r a = channels_of r /\
         routed (channels_of r) (Alert.ID a) w0
                (exec (process_rule a labels r) w0)) /\
  (results !! key = None ->
   List.find (is_firing (ds_ID ds) key) (alerts w) = None ->
   existsb (has_id (uuid (env w) (minted w))) (alerts w) = false ->
   fault (env w) (inspected w) = false ->
   exists a,
     ((alertQueue w' = alertQueue w ++ [a] /\ spawned w' = spawned w) \/
      (alertQueue w' = alertQueue w /\ spawned w' = spawned w ++ [a])) /\
     Alert.ID a = uuid (env w) (minted w) /\ Alert.Severity a = severity).
Proof.
  intros value key severity channels_of w' Hm Hback Hids.
  assert (Hgrade : exists ann, grade rule (Some levels) value = Some (severity, ann)).
  { unfold grade. rewrite Hm. eexists. reflexivity. }
  destruct Hgrade as (ann0 & Hgrade).
  split.
  - destruct (observe_hands rule ds (Some levels) (results, keys) i series w)
      as (queued & detached & Q & S & F).
    exists queued, detached. split; [exact Q|]. split; [exact S|].
    intros a Ha. rewrite Forall_forall in F.
    destruct (F a Ha) as (sev & ann & Hg & Hsev & Hann & Hst & _).
    fold value in Hg.
    assert (sev = severity /\ ann = ann0) as [-> ->].
    { rewrite Hgrade in Hg. injection Hg as <- <-. split; reflexivity. }
    split; [exact Hsev|]. split; [exact Hst|].
    intros r labels w0.
    destruct (resolve_channels_of_level rule r levels value matched severity
                ann0 a Hm Hgrade Hann (Hback _ _ Hgrade) Hids) as [_ Hch].
    fold (channels_of r) in Hch.
    split; [exact Hch|]. rewrite <- Hch. apply process_rule_routed.
  - intros Hlast Hnofiring Hfresh Hok.
    destruct (observe_new_series rule ds (Some levels) results keys i series
                severity ann0 w Hgrade Hlast Hnofiring Hfresh Hok)
      as (a & Hhanded & Hid & Hsev & _).
    exists a. split; [exact Hhanded|]. split; [exact Hid | exact Hsev].
Qed.

End with_runtime.

(** *** Scenario S2, from the value to the channel *)

Import reference scenarios thresholds_spec scheduler_spec.

(** A rule with the two levels of the scenario; its own channel is 1. *)
Definition graded_rule : Rule.t :=
  {| Rule.ID := 1; Rule.Name := "cpu"; Rule.Description := "";
     Rule.Enabled := true; Rule.Priority := 0; Rule.DatasourceIDs := "";
     Rule.QueryExpression := "cpu_usage"; Rule.MatchLabels := "";
     Rule.MatchSeverity := ""; Rule.ChannelIDs := "[1]";
     Rule.TemplateID := None; Rule.CheckInterval := "1m";
     Rule.Duration := ""; Rule.ExcludeWindows := "";
     Rule.RecoveryNotify := false; Rule.SendInterval := "";
     Rule.AggregationEnabled := false;
     Rule.AggregateBy := ""; Rule.AggregateWindow := "";
     Rule.Suppression := ""; Rule.Thresholds := S2_thresholds;
     Rule.JiraEnabled := false; Rule.JiraAfterN := 0; Rule.JiraConfig := "" |}.

Definition critical_level : ThresholdLevel :=
  {| Operator := ">="; th_Value := 90; th_Severity := "critical";
     ChannelIDs := [7%N] |}.

Definition two_channels : World :=
  world_of calm [graded_rule] [channel 1 true; channel 7 true] [].

(** The world after the evaluation of a series whose value is 95. *)
Definition graded_world : World :=
  exec (queryPrometheus graded_rule prometheus (Some [sample "95"])
          {| lastResults := ∅; lastCheckTime := 0 |}) two_channels.

Definition S2_levels : list ThresholdLevel :=
  default [] (ParseThresholds S2_thresholds).

Lemma threshold_channels_witness :
  exists a,
    ((alertQueue (exec (observe graded_rule prometheus (Some S2_levels) (∅, ∅)
                          (0%nat, sample "95")) two_channels)
        = alertQueue two_channels ++ [a] /\
      spawned (exec (observe graded_rule prometheus (Some S2_levels) (∅, ∅)
                       (0%nat, sample "95")) two_channels)
        = spawned two_channels) \/
     (alertQueue (exec (observe graded_rule prometheus (Some S2_levels) (∅, ∅)
                          (0%nat, sample "95")) two_channels)
        = alertQueue two_channels /\
      spawned (exec (observe graded_rule prometheus (Some S2_levels) (∅, ∅)
                       (0%nat, sample "95")) two_channels)
        = spawned two_channels ++ [a])) /\
    Alert.ID a = uuid (env two_channels) (minted two_channels) /\
    Alert.Severity a =
      (if String.eqb (th_Severity critical_level) "" then "warning"
       else th_Severity critical_level).
Proof.
  assert (Hm : MatchThreshold S2_levels
                 (query.GetValue (query.Value (sample "95")))
               = Some critical_level) by (vm_compute; reflexivity).
  assert (Hback : forall sev ann,
            grade graded_rule (Some S2_levels)
                  (query.GetValue (query.Value (sample "95")))
              = Some (sev, ann) ->
            Go.json_unmarshal_map (Go.Marshal_map (Some ann))
              = (Some ann, false)).
  { assert (Hgrade : grade graded_rule (Some S2_levels)
                       (query.GetValue (query.Value (sample "95")))
                     = Some ("critical",
                             <["threshold_channel_ids" := "[7]"]>
                               ({[ "value" := "95" ]} : gmap string string)))
      by (vm_compute; reflexivity).
    intros sev ann Hg. rewrite Hgrade in Hg. injection Hg as <- <-.
    vm_compute. reflexivity. }
  assert (Hids : Go.json_unmarshal_uints
                   (Go.Marshal_uints (ChannelIDs critical_level))
                 = (ChannelIDs critical_level, false))
    by (vm_compute; reflexivity).
  pose proof (proj2 (threshold_channels_reach_engine graded_rule prometheus
                       S2_levels ∅ ∅ 0 (sample "95") critical_level
                       two_channels Hm Hback Hids)) as Hnew.
  assert (Hlast : (∅ : gmap string queryResult)
                    !! series_key graded_rule prometheus 0
                         (default ∅ (query.Metric (sample "95"))) = None)
    by apply lookup_empty.
  assert (Hnofiring :
            List.find (is_firing (ds_ID prometheus)
                         (series_key graded_rule prometheus 0
                            (default ∅ (query.Metric (sample "95")))))
                      (alerts two_channels) = None) by reflexivity.
  assert (Hfresh : existsb (has_id (uuid (env two_channels)
                                         (minted two_channels)))
                           (alerts two_channels) = false) by reflexivity.
  assert (Hok : fault (env two_channels) (inspected two_channels) = false)
    by reflexivity.
  exact (Hnew Hlast Hnofiring Hfresh Hok).
Defined.

(** The evaluation queues one critical alert; the engine notifies it on
    channel 7, the channel of the level, and not on channel 1, the
    channel of the rule. *)
Example S2_routed_to_level_channel :
  List.map (fun a => (Alert.ID a, Alert.Severity a, Alert.Annotations a))
           (alertQueue graded_world) =
    [("uuid-0", "critical", js "{'threshold_channel_ids':'[7]','value':'95'}")] /\
  outcome (exec (ProcessAlert (default Alert.zero (head (alertQueue graded_world))))
                graded_world) =
    ([(false, "cpu: h1:9100")], [(7%N, true, "")]).
Proof. vm_compute. split; reflexivity. Qed.

End scheduler_routing.
(** ** Delivery: retries, the senders, the fallback renderer *)

Module delivery_spec.
Import sender delivery.

(** *** Send *)

(** The sender that the [switch] of [Send] picks for a channel type. *)
Definition sender_of (sendTelegram sendLark : Z -> Result string)
    (channelType : string) : option (Z -> Result string) :=
  if String.eqb channelType "telegram" then Some sendTelegram
  else if String.eqb channelType "lark" then Some sendLark
  else None.

(** A channel type that is neither [telegram] nor [lark] is refused
    before any attempt.  Otherwise [Send] makes the attempts [1..n] with
    [n <= 3]: every attempt before the last returned an error and was
    followed by a sleep of as many seconds as its number; the loop stops
    before the third attempt only when an attempt did not return an
    error; a third error is returned wrapped, without a further sleep;
    and a success or a panic of the last attempt is the result. *)
Theorem send_retries (sendTelegram sendLark : Z -> Result string)
    (channelType : string) :
  let s := Send sendTelegram sendLark channelType in
  match sender_of sendTelegram sendLark channelType with
  | None =>
      s = {| result := returned (Some (unsupported channelType));
             attempts := []; sleeps := [] |}
  | Some send =>
      exists n : nat,
        (1 <= n <= 3)%nat /\
        attempts s = List.map Z.of_nat (seq 1 n) /\
        sleeps s = List.map (fun k => Go.Second * Z.of_nat k) (seq 1 (n - 1)) /\
        (forall k, (1 <= k < n)%nat ->
           exists e, send (Z.of_nat k) = returned (Some e)) /\
        ((n < 3)%nat -> forall e, send (Z.of_nat n) <> returned (Some e)) /\
        result s = match send (Z.of_nat n) with
                   | returned (Some e) =>
                       returned (Some ("send failed after 3 attempts: " +:+ e))
                   | r => r
                   end
  end.
Proof.
  intros s. subst s. unfold sender_of, Send.
  assert (Hrun : forall send : Z -> Result string,
            (if String.eqb channelType "telegram" then Some sendTelegram
             else if String.eqb channelType "lark" then Some sendLark
             else None) = Some send ->
            exists n : nat,
              (1 <= n <= 3)%nat /\
              attempts (Send_from sendTelegram sendLark
                          (S (Z.to_nat maxSendRetries)) 1 channelType "" [] []) =
                List.map Z.of_nat (seq 1 n) /\
              sleeps (Send_from sendTelegram sendLark
                        (S (Z.to_nat maxSendRetries)) 1 channelType "" [] []) =
                List.map (fun k => Go.Second * Z.of_nat k) (seq 1 (n - 1)) /\
              (forall k, (1 <= k < n)%nat ->
                 exists e, send (Z.of_nat k) = returned (Some e)) /\
              ((n < 3)%nat -> forall e, send (Z.of_nat n) <> returned (Some e)) /\
              result (Send_from sendTelegram sendLark
                        (S (Z.to_nat maxSendRetries)) 1 channelType "" [] []) =
                match send (Z.of_nat n) with
                | returned (Some e) =>
                    returned (Some ("send failed after 3 attempts: " +:+ e))
                | r => r
                end).
  { intros send Hsend.
    assert (Hat : forall k,
              (if String.eqb channelType "telegram" then Some (sendTelegram k)
               else if String.eqb channelType "lark" then Some (sendLark k)
               else None) = Some (send k)).
    { intros k. destruct (String.eqb channelType "telegram");
        [|destruct (String.eqb channelType "lark")];
        [injection Hsend as <-|injection Hsend as <-|discriminate]; reflexivity. }
    clear Hsend.
    change (Z.to_nat maxSendRetries) with 3%nat. cbn [Send_from].
    change (1 <=? maxSendRetries) with true. cbv iota zeta.
    rewrite Hat.
    destruct (send 1) as [[e1|]|] eqn:E1.
    2, 3: exists 1%nat; cbn; change (Z.of_nat 1) with 1; rewrite E1;
      repeat split; try lia; try discriminate.
    cbn [Send_from].
    change (1 + 1) with 2. change (2 <=? maxSendRetries) with true.
    change (1 <? maxSendRetries) with true. cbv iota zeta.
    rewrite Hat.
    assert (Hearlier : forall (n k : nat),
              (n = 3%nat -> exists e, send 2 = returned (Some e)) ->
              (n <= 3)%nat -> (1 <= k < n)%nat ->
              exists e, send (Z.of_nat k) = returned (Some e)).
    { intros n k Hsecond Hn Hkn.
      assert (Hc : k = 1%nat \/ (k = 2%nat /\ n = 3%nat)) by lia.
      destruct Hc as [->|[-> ->]].
      - change (Z.of_nat 1) with 1. eauto.
      - change (Z.of_nat 2) with 2. exact (Hsecond eq_refl). }
    destruct (send 2) as [[e2|]|] eqn:E2.
    2, 3: exists 2%nat; cbn; change (Z.of_nat 2) with 2; rewrite E2;
      repeat split; try lia; try discriminate;
      intros k Hkn; apply (Hearlier 2%nat k);
      first [exact Hkn | lia | intros; lia].
    cbn [Send_from].
    change (2 + 1) with 3. change (3 <=? maxSendRetries) with true.
    change (2 <? maxSendRetries) with true. cbv iota zeta.
    rewrite Hat.
    exists 3%nat.
    destruct (send 3) as [[e3|]|] eqn:E3; cbn; change (Z.of_nat 3) with 3;
      rewrite E3; repeat split; try lia; try discriminate;
      intros k Hkn; apply (Hearlier 3%nat k);
      first [exact Hkn | lia | intros _; eauto]. }
  destruct (String.eqb channelType "telegram") eqn:Et.
  { apply Hrun. reflexivity. }
  destruct (String.eqb channelType "lark") eqn:El.
  { apply Hrun. reflexivity. }
  change (Z.to_nat maxSendRetries) with 3%nat. cbn [Send_from].
  change (1 <=? maxSendRetries) with true. cbv iota zeta.
  rewrite Et, El. reflexivity.
Qed.

(** *** The senders *)

Definition blank (s : string) : bool :=
  forallb in_cutset (list_ascii_of_string s).

Definition starts_blank (s : string) : bool :=
  match s with
  | String c _ => in_cutset c
  | EmptyString => false
  end.

Lemma TrimLeft_spec (s : string) :
  exists margin, s = margin +:+ TrimLeft s /\ blank margin = true /\
                 starts_blank (TrimLeft s) = false.
Proof.
  induction s as [|c s IH].
  - exists "". repeat split.
  - cbn [TrimLeft]. destruct (in_cutset c) eqn:Ec.
    + destruct IH as (margin & E & Hb & Hs).
      exists (String c margin). split; [|split].
      * change (String c s = String c (margin +:+ TrimLeft s)).
        rewrite <- E. reflexivity.
      * unfold blank. cbn. rewrite Ec. exact Hb.
      * exact Hs.
    + exists "". repeat split. cbn. exact Ec.
Qed.

Lemma TrimLeft_empty (s : string) : TrimLeft s = "" <-> blank s = true.
Proof.
  unfold blank. induction s as [|c s IH]; [split; reflexivity|].
  cbn [TrimLeft list_ascii_of_string forallb].
  destruct (in_cutset c); cbn [andb]; [exact IH|].
  split; discriminate.
Qed.

Section with_runtime.
Context `{!Go.Runtime, !Runtime}.

(** [sendLark], by the channel config.  A config that gives no webhook
    URL is refused with the limiter untouched and nothing sent.  A URL of
    fewer than 50 bytes makes the call panic, before the limiter and the
    network are touched.  Otherwise one token is taken from the limiter,
    whatever the network then answers; the call returns [nil] exactly
    when the request was built and answered with status 200 and a body
    that is not JSON or carries code 0; and the card that is posted goes
    to that URL, is red for an alert and green for a recovery, and holds
    the body without its leading blanks; only when the body is all
    blanks does it hold the title instead, as it is. *)
Theorem lark_send_outcome (configJSON title body : string) (isRecovery : bool)
    (rl : larkRateLimiter) (now : Go.Time) (post : LarkCard -> HTTP) :
  let s := sendLark configJSON title body isRecovery rl now post in
  (forall e, lark_webhook configJSON = inr e ->
     s = {| lark_result := returned (Some e); lark_limiter := rl;
            lark_posted := None |}) /\
  (forall url, lark_webhook configJSON = inl url -> Go.len url < 50 ->
     s = {| lark_result := panicked; lark_limiter := rl;
            lark_posted := None |}) /\
  (forall url, lark_webhook configJSON = inl url -> 50 <= Go.len url ->
     lark_limiter s = fst (acquire rl now) /\
     (lark_result s = returned None <->
        NewRequest url = None /\
        exists bb,
          post (lark_card url title body isRecovery) = response 200 bb None /\
          (snd (json_unmarshal_lark_answer bb) = true \/
           fst (fst (json_unmarshal_lark_answer bb)) = 0)) /\
     (forall card, lark_posted s = Some card ->
        NewRequest url = None /\
        webhook card = url /\
        header_template card = (if isRecovery then "green" else "red") /\
        (blank body = true -> content card = title) /\
        (blank body = false ->
         content card <> "" /\ starts_blank (content card) = false /\
         exists margin, body = margin +:+ content card /\ blank margin = true) /\
        (title <> "" -> content card <> ""))).
Proof.
  intros s. subst s. unfold sendLark. split; [|split].
  - intros e ->. reflexivity.
  - intros url -> Hshort. apply Z.ltb_lt in Hshort. rewrite Hshort. reflexivity.
  - intros url -> Hlong.
    assert (Hl : (Go.len url <? 50) = false) by (apply Z.ltb_ge; exact Hlong).
    rewrite Hl. clear Hl.
    destruct (NewRequest url) as [e|] eqn:Ereq; cbn [lark_limiter lark_result lark_posted].
    + split; [reflexivity|]. split.
      * split; [discriminate|]. intros [Hn _]. discriminate.
      * intros card Hc. discriminate.
    + split; [reflexivity|]. split.
      * split.
        -- intros Hres. split; [reflexivity|].
           assert (Hv : lark_verdict (post (lark_card url title body isRecovery)) = None)
             by (injection Hres as Hres; exact Hres).
           unfold lark_verdict in Hv.
           destruct (post (lark_card url title body isRecovery))
             as [e|status bb [e|]]; try discriminate.
           destruct (status =? 200) eqn:Es; cbn [negb] in Hv; try discriminate.
           apply Z.eqb_eq in Es. subst status. exists bb. split; [reflexivity|].
           destruct (json_unmarshal_lark_answer bb) as [[code msg] err].
           cbn [fst snd]. destruct err; [left; reflexivity|].
           cbn [negb andb] in Hv.
           destruct (code =? 0) eqn:Ec; cbn [negb] in Hv; try discriminate.
           right. apply Z.eqb_eq. exact Ec.
        -- intros [_ (bb & Hp & Hok)]. f_equal. unfold lark_verdict.
           rewrite Hp. cbn [Z.eqb Pos.eqb negb].
           destruct (json_unmarshal_lark_answer bb) as [[code msg] err].
           cbn [fst snd] in Hok. destruct Hok as [->| ->].
           ++ reflexivity.
           ++ change (0 =? 0) with true. cbn [negb].
              rewrite andb_false_r. reflexivity.
      * intros card Hc. injection Hc as <-.
        split; [reflexivity|]. split; [reflexivity|]. split; [reflexivity|].
        unfold lark_card. cbn [content].
        destruct (TrimLeft_spec body) as (margin & Eb & Hb & Hs).
        destruct (String.eqb_spec (TrimLeft body) "") as [Et|Et].
        -- split; [intros _; reflexivity|]. split.
           ++ intros Hnb. apply TrimLeft_empty in Et. congruence.
           ++ intros Hne. exact Hne.
        -- split.
           ++ intros Hbl. apply TrimLeft_empty in Hbl. contradiction.
           ++ split.
              ** intros _. split; [exact Et|]. split; [exact Hs|].
                 exists margin. split; [exact Eb|exact Hb].
              ** intros _. exact Et.
Qed.

(** [sendTelegram], by the channel config.  A config that does not
    decode, or lacks the token or the chat id, is refused with nothing
    sent.  Otherwise the message goes to the chat of the config, its text
    is never empty, and the call returns [nil] exactly when the answer
    has status 200, whatever its body.  The title plays no part. *)
Theorem telegram_send_outcome (configJSON title body : string)
    (isRecovery : bool) (post : TelegramMessage -> HTTP) :
  let r := sendTelegram configJSON title body isRecovery post in
  let token := fst (fst (json_unmarshal_telegram_config configJSON)) in
  let chatID := snd (fst (json_unmarshal_telegram_config configJSON)) in
  let bad := snd (json_unmarshal_telegram_config configJSON) in
  let msg := telegram_message token chatID body isRecovery in
  (bad = true \/ token = "" \/ chatID = "" ->
     r = (Some (invalid_config bad), None)) /\
  (bad = false -> token <> "" -> chatID <> "" ->
     match NewRequest (api_url msg) with
     | Some e => r = (Some (http_error e), None)
     | None =>
         snd r = Some msg /\
         (fst r = None <-> exists bb re, post msg = response 200 bb re)
     end) /\
  chat_id msg = chatID /\ text msg <> "" /\
  (forall title', sendTelegram configJSON title' body isRecovery post = r).
Proof.
  intros r token chatID bad msg. subst r token chatID bad msg.
  unfold sendTelegram.
  destruct (json_unmarshal_telegram_config configJSON) as [[token chatID] bad].
  cbn [fst snd]. split; [|split; [|split; [|split]]].
  - intros [-> | [-> | ->]].
    + reflexivity.
    + change (String.eqb "" "") with true. rewrite orb_true_r. reflexivity.
    + change (String.eqb "" "") with true. rewrite !orb_true_r. reflexivity.
  - intros -> Ht Hc.
    destruct (String.eqb_spec token "") as [E|_]; [contradiction|].
    destruct (String.eqb_spec chatID "") as [E|_]; [contradiction|].
    cbn [orb].
    destruct (NewRequest (api_url (telegram_message token chatID body isRecovery)))
      as [e|]; [reflexivity|].
    cbn [fst snd]. split; [reflexivity|].
    destruct (post (telegram_message token chatID body isRecovery))
      as [e|status bb re].
    + split; [discriminate|]. intros (bb & re & E). discriminate.
    + destruct (status =? 200) eqn:Es; cbn [negb].
      * apply Z.eqb_eq in Es. subst status. split; [eauto|reflexivity].
      * split; [discriminate|]. intros (bb' & re' & E).
        injection E as -> _ _. discriminate.
  - reflexivity.
  - unfold telegram_message. cbn [text].
    destruct isRecovery, (String.eqb body ""); cbn; discriminate.
  - reflexivity.
Qed.

(** *** The calls of [Send] that do not return *)

Lemma Send_never_panics (tg lk : Z -> Result string) (channelType : string) :
  (channelType = "telegram" -> forall k, tg k <> panicked) ->
  (channelType = "lark" -> forall k, lk k <> panicked) ->
  result (Send tg lk channelType) <> panicked.
Proof.
  intros Htg Hlk.
  unfold Send. change (Z.to_nat maxSendRetries) with 3%nat.
  cbn [Send_from]. change (1 <=? maxSendRetries) with true. cbv iota zeta.
  change (1 <? maxSendRetries) with true.
  change (1 + 1) with 2. change (2 <=? maxSendRetries) with true.
  change (2 <? maxSendRetries) with true.
  change (2 + 1) with 3. change (3 <=? maxSendRetries) with true.
  change (3 <? maxSendRetries) with false.
  change (3 + 1) with 4. change (4 <=? maxSendRetries) with false.
  cbv iota.
  destruct (String.eqb_spec channelType "telegram") as [Et|_].
  - pose proof (Htg Et 1) as P1. pose proof (Htg Et 2) as P2.
    pose proof (Htg Et 3) as P3.
    destruct (tg 1) as [[e1|]|]; try discriminate; [|contradiction].
    destruct (tg 2) as [[e2|]|]; try discriminate; [|contradiction].
    destruct (tg 3) as [[e3|]|]; try discriminate; contradiction.
  - destruct (String.eqb_spec channelType "lark") as [El|_]; [|discriminate].
    pose proof (Hlk El 1) as P1. pose proof (Hlk El 2) as P2.
    pose proof (Hlk El 3) as P3.
    destruct (lk 1) as [[e1|]|]; try discriminate; [|contradiction].
    destruct (lk 2) as [[e2|]|]; try discriminate; [|contradiction].
    destruct (lk 3) as [[e3|]|]; try discriminate; contradiction.
Qed.

Lemma lark_attempt_panics (describe : SendError -> string)
    (configJSON title body : string) (isRecovery : bool)
    (limiter : Z -> larkRateLimiter) (clock : Z -> Go.Time)
    (network : Z -> LarkCard -> HTTP) (k : Z) :
  lark_attempt describe configJSON title body isRecovery limiter clock network k
    = panicked <->
  panics "lark" configJSON = true.
Proof.
  unfold lark_attempt, as_attempt, panics, sendLark.
  change (String.eqb "lark" "lark") with true. cbn [andb].
  destruct (lark_webhook configJSON) as [url|e]; cbn [lark_result].
  - destruct (Go.len url <? 50); cbn [lark_result].
    + split; reflexivity.
    + destruct (NewRequest url); cbn [lark_result]; split; discriminate.
  - split; discriminate.
Qed.

(** [Send] does not return exactly for a channel of type [lark] whose
    config gives [sendLark] a webhook URL of fewer than 50 bytes; the
    panic is that of the first attempt, before the limiter and the
    network are touched, whatever the limiter, the clock and the network
    are.  For every other channel [Send] returns, with nil or an
    error. *)
Theorem Send_panics_exactly (describe : SendError -> string)
    (channelType configJSON title body : string) (isRecovery : bool)
    (limiter : Z -> larkRateLimiter) (clock : Z -> Go.Time)
    (lark_network : Z -> LarkCard -> HTTP)
    (telegram_network : Z -> TelegramMessage -> HTTP) :
  let s := Send (telegram_attempt describe configJSON title body isRecovery
                                  telegram_network)
                (lark_attempt describe configJSON title body isRecovery
                              limiter clock lark_network)
                channelType in
  (result s = panicked <-> panics channelType configJSON = true) /\
  (panics channelType configJSON = true ->
   s = {| result := panicked; attempts := [1]; sleeps := [] |} /\
   sendLark configJSON title body isRecovery (limiter 1) (clock 1)
            (lark_network 1) =
     {| lark_result := panicked; lark_limiter := limiter 1;
        lark_posted := None |}).
Proof.
  intros s. subst s.
  set (tg := telegram_attempt _ _ _ _ _ _).
  set (lk := lark_attempt _ _ _ _ _ _ _ _).
  assert (Hfirst : panics channelType configJSON = true ->
            channelType = "lark" /\ lk 1 = panicked /\
            sendLark configJSON title body isRecovery (limiter 1) (clock 1)
                     (lark_network 1) =
              {| lark_result := panicked; lark_limiter := limiter 1;
                 lark_posted := None |}).
  { intros Hp. unfold panics in Hp. apply andb_prop in Hp as [Ht Hu].
    apply String.eqb_eq in Ht. subst channelType.
    split; [reflexivity|]. split.
    - apply lark_attempt_panics. unfold panics.
      change (String.eqb "lark" "lark") with true. exact Hu.
    - unfold sendLark. destruct (lark_webhook configJSON) as [url|e];
        [|discriminate]. rewrite Hu. reflexivity. }
  assert (Hrun : panics channelType configJSON = true ->
            Send tg lk channelType =
            {| result := panicked; attempts := [1]; sleeps := [] |}).
  { intros Hp. destruct (Hfirst Hp) as (-> & Hlk & _).
    unfold Send. change (Z.to_nat maxSendRetries) with 3%nat.
    cbn [Send_from]. change (1 <=? maxSendRetries) with true.
    change (String.eqb "lark" "telegram") with false.
    change (String.eqb "lark" "lark") with true.
    cbv iota zeta. rewrite Hlk. reflexivity. }
  split.
  - split.
    + intros Hres. destruct (panics channelType configJSON) eqn:Hp;
        [reflexivity|]. exfalso. revert Hres.
      apply Send_never_panics.
      * intros _ k. unfold tg, telegram_attempt. discriminate.
      * intros -> k Hk. apply lark_attempt_panics in Hk. congruence.
    + intros Hp. rewrite (Hrun Hp). reflexivity.
  - intros Hp. split; [exact (Hrun Hp)|]. exact (proj2 (proj2 (Hfirst Hp))).
Qed.

End with_runtime.

(** *** RenderBody *)

Definition no_brace (s : string) : bool :=
  forallb (fun c => negb (Ascii.eqb c "{")) (list_ascii_of_string s).

Lemma prefix_brace (old' s : string) :
  no_brace s = true -> String.prefix (String "{" old') s = false.
Proof.
  destruct s as [|c s]; [reflexivity|].
  unfold no_brace. cbn [list_ascii_of_string forallb String.prefix].
  intros Hs. apply andb_prop in Hs as [Hc _].
  destruct (ascii_dec "{" c) as [<-|_]; [discriminate|reflexivity].
Qed.

Lemma no_brace_tail (c : ascii) (s : string) :
  no_brace (String c s) = true -> no_brace s = true.
Proof.
  unfold no_brace. cbn [list_ascii_of_string forallb].
  intros Hs. apply andb_prop in Hs as [_ Hs]. exact Hs.
Qed.

Lemma prefix_self (old rest : string) : String.prefix old (old +:+ rest) = true.
Proof.
  induction old as [|c old IH].
  - destruct rest; reflexivity.
  - change (String c old +:+ rest) with (String c (old +:+ rest)).
    cbn [String.prefix].
    destruct (ascii_dec c c) as [_|Hne]; [exact IH|contradiction].
Qed.

(** A text without [{] holds no placeholder. *)
Lemma replace_from_plain (old' new s : string) :
  no_brace s = true -> replace_from 0 (String "{" old') new s = s.
Proof.
  induction s as [|c s IH]; [reflexivity|].
  intros Hs. cbn [replace_from]. rewrite (prefix_brace _ _ Hs).
  rewrite IH by exact (no_brace_tail _ _ Hs). reflexivity.
Qed.

Lemma replace_from_plain_app (old' new a b : string) :
  no_brace a = true ->
  replace_from 0 (String "{" old') new (a +:+ b) =
  a +:+ replace_from 0 (String "{" old') new b.
Proof.
  induction a as [|c a IH]; [reflexivity|].
  intros Ha.
  change (String c a +:+ b) with (String c (a +:+ b)).
  cbn [replace_from].
  assert (Hp : String.prefix (String "{" old') (String c (a +:+ b)) = false).
  { unfold no_brace in Ha. cbn [list_ascii_of_string forallb] in Ha.
    apply andb_prop in Ha as [Hc _]. cbn [String.prefix].
    destruct (ascii_dec "{" c) as [<-|_]; [discriminate|reflexivity]. }
  rewrite Hp. rewrite IH by exact (no_brace_tail _ _ Ha). reflexivity.
Qed.

Lemma replace_from_skip (old new o b : string) :
  replace_from (String.length o) old new (o +:+ b) = replace_from 0 old new b.
Proof.
  induction o as [|c o IH]; [reflexivity|].
  change (String c o +:+ b) with (String c (o +:+ b)).
  cbn [String.length replace_from]. exact IH.
Qed.

Lemma replace_from_hit (c : ascii) (o new b : string) :
  replace_from 0 (String c o) new (String c o +:+ b) =
  new +:+ replace_from 0 (String c o) new b.
Proof.
  change (String c o +:+ b) with (String c (o +:+ b)).
  cbn [replace_from].
  change (String c (o +:+ b)) with (String c o +:+ b).
  rewrite prefix_self.
  change (String.length (String c o) - 1)%nat with (String.length o - 0)%nat.
  rewrite Nat.sub_0_r.
  rewrite replace_from_skip. reflexivity.
Qed.

Lemma label_at_plain (s : string) : no_brace s = true -> label_at s = None.
Proof.
  intros Hs. unfold label_at, label_open.
  rewrite (prefix_brace _ _ Hs). reflexivity.
Qed.

Lemma replace_labels_plain (labels : gmap string string) (s : string) :
  no_brace s = true -> replace_labels 0 labels s = s.
Proof.
  induction s as [|c s IH]; [reflexivity|].
  intros Hs. cbn [replace_labels]. rewrite (label_at_plain _ Hs).
  rewrite IH by exact (no_brace_tail _ _ Hs). reflexivity.
Qed.

Lemma no_brace_app (a b : string) :
  no_brace a = true -> no_brace b = true -> no_brace (a +:+ b) = true.
Proof.
  induction a as [|c a IH]; [intros _ Hb; exact Hb|].
  intros Ha Hb.
  change (String c a +:+ b) with (String c (a +:+ b)).
  unfold no_brace in *. cbn [list_ascii_of_string forallb] in *.
  apply andb_prop in Ha as [Hc Ha]. rewrite Hc. cbn [andb].
  apply IH; assumption.
Qed.

(** A body without [{] is rendered as it is, whatever the alert. *)
Theorem RenderBody_plain (body : string) (labels : gmap string string)
    (alertID title severity : string) :
  no_brace body = true ->
  RenderBody body labels alertID title severity = body.
Proof.
  intros Hb. unfold RenderBody, ReplaceAll. cbv zeta.
  rewrite (replace_from_plain "{.AlertID}}" alertID body Hb).
  rewrite (replace_from_plain "{.Title}}" title body Hb).
  rewrite (replace_from_plain "{.Severity}}" severity body Hb).
  exact (replace_labels_plain labels body Hb).
Qed.

Lemma append_nil_r (s : string) : s +:+ "" = s.
Proof.
  induction s as [|c s IH]; [reflexivity|].
  change (String c s +:+ "") with (String c (s +:+ "")).
  rewrite IH. reflexivity.
Qed.

(** When the store has no template, an alert whose id, title and severity
    hold no [{] is rendered as three lines that carry them. *)
Theorem fallback_body_rendered (labels : gmap string string)
    (alertID title severity : string) :
  no_brace alertID = true -> no_brace title = true ->
  no_brace severity = true ->
  RenderBody fallback_body labels alertID title severity =
  "AlertID: " +:+ alertID +:+ Go.LF +:+ "Title: " +:+ title +:+ Go.LF +:+
  "Severity: " +:+ severity.
Proof.
  intros Hid Htitle Hsev.
  set (pre2 := Go.LF +:+ "Title: ").
  set (pre3 := Go.LF +:+ "Severity: ").
  set (tail2 := pre3 +:+ "{{.Severity}}" +:+ "").
  set (tail1 := pre2 +:+ "{{.Title}}" +:+ tail2).
  assert (Hbody : fallback_body = "AlertID: " +:+ "{{.AlertID}}" +:+ tail1)
    by reflexivity.
  assert (Hp1 : no_brace "AlertID: " = true) by reflexivity.
  assert (Hp2 : no_brace pre2 = true) by reflexivity.
  assert (Hp3 : no_brace pre3 = true) by reflexivity.
  unfold RenderBody, ReplaceAll. cbv zeta. rewrite Hbody.
  (* the id *)
  rewrite (replace_from_plain_app "{.AlertID}}" alertID "AlertID: " _ Hp1).
  rewrite (replace_from_hit "{" "{.AlertID}}" alertID tail1).
  assert (E1 : replace_from 0 "{{.AlertID}}" alertID tail1 = tail1) by reflexivity.
  rewrite E1. clear E1.
  (* the title *)
  rewrite (replace_from_plain_app "{.Title}}" title "AlertID: " _ Hp1).
  rewrite (replace_from_plain_app "{.Title}}" title alertID _ Hid).
  unfold tail1 at 1.
  rewrite (replace_from_plain_app "{.Title}}" title pre2 _ Hp2).
  rewrite (replace_from_hit "{" "{.Title}}" title tail2).
  assert (E2 : replace_from 0 "{{.Title}}" title tail2 = tail2) by reflexivity.
  rewrite E2. clear E2.
  (* the severity *)
  rewrite (replace_from_plain_app "{.Severity}}" severity "AlertID: " _ Hp1).
  rewrite (replace_from_plain_app "{.Severity}}" severity alertID _ Hid).
  rewrite (replace_from_plain_app "{.Severity}}" severity pre2 _ Hp2).
  rewrite (replace_from_plain_app "{.Severity}}" severity title _ Htitle).
  unfold tail2 at 1.
  rewrite (replace_from_plain_app "{.Severity}}" severity pre3 _ Hp3).
  rewrite (replace_from_hit "{" "{.Severity}}" severity "").
  cbn [replace_from]. rewrite append_nil_r.
  (* no label is left to replace *)
  rewrite replace_labels_plain.
  - reflexivity.
  - repeat (apply no_brace_app; [assumption|]). exact Hsev.
Qed.

(** *** Examples *)

Import reference delivery_reference.

(** The second error is followed by a third attempt, two seconds later. *)
Definition flaky (attempt : Z) : Result string :=
  if attempt <? 3 then returned (Some "timeout") else returned None.

Lemma send_retries_witness :
  let s := Send flaky flaky "lark" in
  result s = returned None /\ attempts s = [1; 2; 3] /\
  sleeps s = [Go.Second; 2 * Go.Second].
Proof.
  intros s.
  pose proof (send_retries flaky flaky "lark") as Hs.
  cbv zeta in Hs. fold s in Hs.
  change (sender_of flaky flaky "lark") with (Some flaky) in Hs.
  destruct Hs as (n & Hn & Ha & Hsl & _ & Hlast & Hr).
  assert (En : n = 3%nat).
  { destruct (Nat.lt_ge_cases n 3) as [Hlt|Hge]; [|lia].
    exfalso. specialize (Hlast Hlt).
    assert (Hc : n = 1%nat \/ n = 2%nat) by lia.
    destruct Hc as [-> | ->]; apply (Hlast "timeout"); reflexivity. }
  subst n. split; [|split].
  - rewrite Hr. reflexivity.
  - rewrite Ha. reflexivity.
  - rewrite Hsl. reflexivity.
Defined.

Example unsupported_type_is_not_retried :
  Send flaky flaky "email" =
  {| result := returned (Some "unsupported channel type: email");
     attempts := []; sleeps := [] |}.
Proof. reflexivity. Qed.

Example three_errors_are_wrapped :
  Send (fun _ => returned (Some "timeout")) flaky "telegram" =
  {| result := returned (Some "send failed after 3 attempts: timeout");
     attempts := [1; 2; 3]; sleeps := [Go.Second; 2 * Go.Second] |}.
Proof. vm_compute. reflexivity. Qed.

(** A webhook behind a short address: the call does not return. *)
Definition short_hook : string := "https://hooks.example.test/lark".

Definition feishu_hook : string :=
  "https://open.feishu.cn/open-apis/bot/v2/hook/0a1b2c3d-0000-4000-8000-0123456789ab".

Definition accepted (_ : LarkCard) : HTTP :=
  response 200 (js "{'code':0,'msg':'success'}") None.

Definition refused (_ : LarkCard) : HTTP :=
  response 200 (js "{'code':19001,'msg':'param invalid'}") None.

Lemma lark_send_witness :
  sendLark short_hook "cpu" "busy" false larkLimiter 1000 accepted =
  {| lark_result := panicked; lark_limiter := larkLimiter; lark_posted := None |}.
Proof.
  apply (proj1 (proj2 (lark_send_outcome short_hook "cpu" "busy" false
                         larkLimiter 1000 accepted)) short_hook).
  - vm_compute. reflexivity.
  - vm_compute. reflexivity.
Defined.

Example lark_answer_decides :
  lark_result (sendLark feishu_hook "cpu" "busy" false larkLimiter 1000 accepted)
    = returned None /\
  lark_result (sendLark (js "{'webhook_url':'" +:+ feishu_hook +:+ js "'}")
                 "cpu" "busy" false larkLimiter 1000 refused)
    = returned (Some (api_error 19001 "param invalid")) /\
  lark_result (sendLark (js "{'url':'" +:+ feishu_hook +:+ js "'}")
                 "cpu" "busy" false larkLimiter 1000 accepted)
    = returned (Some (invalid_config false)).
Proof. vm_compute. repeat split. Qed.

Lemma Send_panics_witness :
  result (Send (telegram_attempt (fun _ => "refused") short_hook "cpu" "busy"
                                 false (fun _ _ => response 200 "ok" None))
               (lark_attempt (fun _ => "refused") short_hook "cpu" "busy" false
                             (fun _ => larkLimiter) (fun k => 1000 * k)
                             (fun _ => accepted))
               "lark") = panicked.
Proof.
  apply (proj1 (Send_panics_exactly (fun _ => "refused") "lark" short_hook
                  "cpu" "busy" false (fun _ => larkLimiter) (fun k => 1000 * k)
                  (fun _ => accepted) (fun _ _ => response 200 "ok" None))).
  vm_compute. reflexivity.
Defined.

(** The same webhook on a channel of another type is never read; a
    webhook of full length is. *)
Example other_channels_return :
  panics "telegram" short_hook = false /\ panics "lark" feishu_hook = false /\
  panics "lark" (js "{'webhook_url':'http://10.0.0.1/hook'}") = true.
Proof. vm_compute. repeat split. Qed.

Definition bot_config : string := js "{'token':'t0k','chat_id':'42'}".

Definition served (_ : TelegramMessage) : HTTP := response 200 "ok" None.

Lemma telegram_send_witness :
  sendTelegram bot_config "cpu" "busy" true served =
  (None, Some {| api_url := "https://api.telegram.org/bott0k/sendMessage";
                 chat_id := "42";
                 text := "恢复通知" +:+ Go.LF +:+ "busy" |}).
Proof.
  pose proof (proj1 (proj2 (telegram_send_outcome bot_config "cpu" "busy" true
                              served))) as Hsent.
  cbv zeta in Hsent.
  assert (Hbad : snd (json_unmarshal_telegram_config bot_config) = false)
    by (vm_compute; reflexivity).
  assert (Htoken : fst (fst (json_unmarshal_telegram_config bot_config)) <> "")
    by (vm_compute; discriminate).
  assert (Hchat : snd (fst (json_unmarshal_telegram_config bot_config)) <> "")
    by (vm_compute; discriminate).
  specialize (Hsent Hbad Htoken Hchat).
  assert (Hreq : NewRequest
            (api_url (telegram_message
                        (fst (fst (json_unmarshal_telegram_config bot_config)))
                        (snd (fst (json_unmarshal_telegram_config bot_config)))
                        "busy" true)) = None)
    by (vm_compute; reflexivity).
  rewrite Hreq in Hsent. destruct Hsent as [Hmsg [_ Hnil]].
  destruct (sendTelegram bot_config "cpu" "busy" true served) as [err posted].
  cbn [fst snd] in Hmsg, Hnil.
  rewrite Hmsg. rewrite Hnil by (exists "ok", None; reflexivity).
  vm_compute. reflexivity.
Defined.

Lemma RenderBody_plain_witness :
  RenderBody "disk is full" {[ "host" := "web1" ]} "a-1" "disk" "critical" =
  "disk is full".
Proof.
  apply (RenderBody_plain "disk is full" {[ "host" := "web1" ]} "a-1" "disk"
           "critical").
  vm_compute. reflexivity.
Defined.

Lemma fallback_body_witness :
  RenderBody fallback_body ∅ "a-1" "disk" "critical" =
  "AlertID: " +:+ "a-1" +:+ Go.LF +:+ "Title: " +:+ "disk" +:+ Go.LF +:+
  "Severity: " +:+ "critical".
Proof.
  apply (fallback_body_rendered ∅ "a-1" "disk" "critical");
    vm_compute; reflexivity.
Defined.

(** A label that the alert lacks leaves nothing; a value that holds a
    later placeholder is itself substituted. *)
Example RenderBody_examples :
  RenderBody "host={{.Labels.host}} dc={{.Labels.dc}}." {[ "host" := "web1" ]}
             "a-1" "disk" "critical" = "host=web1 dc=." /\
  RenderBody "{{.Title}}" ∅ "a-1" "{{.Severity}}" "critical" = "critical" /\
  RenderBody "{{.Labels.}} {{.Labels.a-b}} {{.AlertID}}{{.AlertID}}" ∅
             "a-1" "disk" "critical" = "{{.Labels.}} {{.Labels.a-b}} a-1a-1".
Proof. vm_compute. repeat split. Qed.

End delivery_spec.
